(** * goTrading: signal generation, backtest engine and trainable predictor

    A shallow embedding of [analyze.go], [backtest.go], [ml_strategy.go] and
    the simulation loops of [ml_cli.go].

    Numbers.
    - techan's [big.Decimal] (candle prices, indicator values) is modelled by
      the rationals [Q]; the strategy only adds, multiplies and compares them,
      so the model runs.
    - Go's [float64] is modelled by [Float64.float64]: a real number or one of
      the IEEE special values +Inf, -Inf, NaN.  Arithmetic on finite values is
      exact (no rounding, no overflow, no signed zero); division by zero,
      [Inf - Inf], [0 * Inf] and the square root of a negative number produce
      the special values exactly as IEEE 754 prescribes, so that the guards of
      the code ([if sma != 0], [if stdDev > 0], [sanitize]) keep their meaning.
    - [time.Now()] is an input of the functions that read the clock. *)

From Stdlib Require Import QArith Qreduction Qreals Reals Lra Lqa ZArith Psatz
  FunctionalExtensionality.
From stdpp Require Import gmap strings list.

(* ===================================================================== *)
(** ** float64 *)
(* ===================================================================== *)

Module Float64.

Local Open Scope R_scope.

Inductive float64 : Type :=
| Fin (r : R)
| PInf
| NInf
| NaN.

Definition Rltb (a b : R) : bool := if Rlt_dec a b then true else false.
Definition Reqb (a b : R) : bool := if Req_dec_T a b then true else false.

(** The infinity whose sign is that of [r] times the sign [pos]; NaN for 0. *)
Definition signedInf (pos : bool) (r : R) : float64 :=
  if Rltb 0 r then (if pos then PInf else NInf)
  else if Rltb r 0 then (if pos then NInf else PInf)
  else NaN.

Definition fneg (x : float64) : float64 :=
  match x with
  | Fin r => Fin (- r)
  | PInf => NInf
  | NInf => PInf
  | NaN => NaN
  end.

Definition fadd (x y : float64) : float64 :=
  match x, y with
  | Fin a, Fin b => Fin (a + b)
  | NaN, _ | _, NaN => NaN
  | PInf, NInf | NInf, PInf => NaN
  | PInf, _ | _, PInf => PInf
  | NInf, _ | _, NInf => NInf
  end.

Definition fsub (x y : float64) : float64 := fadd x (fneg y).

Definition fmul (x y : float64) : float64 :=
  match x, y with
  | Fin a, Fin b => Fin (a * b)
  | NaN, _ | _, NaN => NaN
  | PInf, Fin r | Fin r, PInf => signedInf true r
  | NInf, Fin r | Fin r, NInf => signedInf false r
  | PInf, PInf | NInf, NInf => PInf
  | PInf, NInf | NInf, PInf => NInf
  end.

Definition fdiv (x y : float64) : float64 :=
  match x, y with
  | Fin a, Fin b => if Reqb b 0 then signedInf true a else Fin (a / b)
  | NaN, _ | _, NaN => NaN
  | Fin _, PInf | Fin _, NInf => Fin 0
  | PInf, Fin r => if Rltb r 0 then NInf else PInf
  | NInf, Fin r => if Rltb r 0 then PInf else NInf
  | PInf, PInf | PInf, NInf | NInf, PInf | NInf, NInf => NaN
  end.

(** Comparisons: every comparison with NaN is false, except [!=]. *)
Definition flt (x y : float64) : bool :=
  match x, y with
  | Fin a, Fin b => Rltb a b
  | NaN, _ | _, NaN => false
  | _, NInf => false
  | PInf, _ => false
  | NInf, _ => true
  | _, PInf => true
  end.

Definition feq (x y : float64) : bool :=
  match x, y with
  | Fin a, Fin b => Reqb a b
  | PInf, PInf | NInf, NInf => true
  | _, _ => false
  end.

Definition fle (x y : float64) : bool := flt x y || feq x y.
Definition fgt (x y : float64) : bool := flt y x.
Definition fge (x y : float64) : bool := fle y x.
Definition fne (x y : float64) : bool := negb (feq x y).

(** [math.IsNaN], [math.IsInf(v, 0)]. *)
Definition IsNaN (x : float64) : bool :=
  match x with NaN => true | _ => false end.

Definition IsInf (x : float64) : bool :=
  match x with PInf | NInf => true | _ => false end.

Definition isFinite (x : float64) : bool :=
  match x with Fin _ => true | _ => false end.

(** [math.Abs]. *)
Definition fabs (x : float64) : float64 :=
  match x with
  | Fin r => Fin (Rabs r)
  | PInf | NInf => PInf
  | NaN => NaN
  end.

(** [math.Max]: +Inf wins, then NaN, then the larger argument. *)
Definition fmax (x y : float64) : float64 :=
  match x, y with
  | PInf, _ | _, PInf => PInf
  | NaN, _ | _, NaN => NaN
  | NInf, z | z, NInf => z
  | Fin a, Fin b => Fin (Rmax a b)
  end.

(** [math.Min]: -Inf wins, then NaN, then the smaller argument. *)
Definition fmin (x y : float64) : float64 :=
  match x, y with
  | NInf, _ | _, NInf => NInf
  | NaN, _ | _, NaN => NaN
  | PInf, z | z, PInf => z
  | Fin a, Fin b => Fin (Rmin a b)
  end.

(** [math.Sqrt]. *)
Definition fsqrt (x : float64) : float64 :=
  match x with
  | Fin r => if Rltb r 0 then NaN else Fin (sqrt r)
  | PInf => PInf
  | NInf | NaN => NaN
  end.

(** [float64(n)] for an [int]. *)
Definition ofZ (n : Z) : float64 := Fin (IZR n).

(** [big.Decimal.Float()]. *)
Definition ofQ (q : Q) : float64 := Fin (Q2R q).

(** [int(x)]: truncation toward zero; on amd64 a NaN or an infinity converts
    to the smallest int64. *)
Definition truncR (r : R) : Z :=
  if Rltb r 0 then (- Int_part (- r))%Z else Int_part r.

Definition toInt (x : float64) : Z :=
  match x with
  | Fin r => truncR r
  | _ => (- 2 ^ 63)%Z
  end.

End Float64.

Export Float64.

Declare Scope float_scope.
Delimit Scope float_scope with f64.
Bind Scope float_scope with float64.
Infix "+" := fadd : float_scope.
Infix "-" := fsub : float_scope.
Infix "*" := fmul : float_scope.
Infix "/" := fdiv : float_scope.
Infix "<?" := flt : float_scope.
Infix "<=?" := fle : float_scope.
Infix ">?" := fgt : float_scope.
Infix ">=?" := fge : float_scope.
Infix "=?" := feq : float_scope.
Infix "!=?" := fne (at level 70) : float_scope.

(* ===================================================================== *)
(** ** techan: time series and indicators *)
(* ===================================================================== *)

Module Techan.

Local Open Scope Q_scope.

(** [time.Time] as milliseconds since the Unix epoch, read in UTC. *)
Definition Time : Type := Z.

Definition Hour (t : Time) : Z := ((t / 3600000) mod 24)%Z.

(** Sunday = 0; 1970-01-01 was a Thursday. *)
Definition Weekday (t : Time) : Z := ((t / 86400000 + 4) mod 7)%Z.

Record TimePeriod : Type := { Start : Time; End : Time }.

Record Candle : Type := {
  Period : TimePeriod;
  OpenPrice : Q;
  ClosePrice : Q;
  MaxPrice : Q;
  MinPrice : Q;
  Volume : Q
}.

(** A [*techan.TimeSeries] is its slice [Candles]. *)
Definition TimeSeries : Type := list Candle.

Definition NewTimeSeries : TimeSeries := [].

(** [AddCandle] on candles supplied in time order appends. *)
Definition AddCandle (ts : TimeSeries) (c : Candle) : TimeSeries := ts ++ [c].

Definition LastIndex (ts : TimeSeries) : Z := (Z.of_nat (length ts) - 1)%Z.

Definition zeroCandle : Candle :=
  {| Period := {| Start := 0%Z; End := 0%Z |};
     OpenPrice := 0; ClosePrice := 0; MaxPrice := 0; MinPrice := 0; Volume := 0 |}.

(** [ts.Candles[i]].  Go panics outside [0, len); the model reads a zero
    candle there, and every statement below stays inside the range. *)
Definition candleAt (ts : TimeSeries) (i : Z) : Candle :=
  if (i <? 0)%Z then zeroCandle else nth (Z.to_nat i) ts zeroCandle.

(** An [Indicator] is its method [Calculate(index)]. *)
Definition Indicator : Type := Z -> Q.

Definition NewClosePriceIndicator (ts : TimeSeries) : Indicator :=
  fun i => ClosePrice (candleAt ts i).
Definition NewHighPriceIndicator (ts : TimeSeries) : Indicator :=
  fun i => MaxPrice (candleAt ts i).
Definition NewLowPriceIndicator (ts : TimeSeries) : Indicator :=
  fun i => MinPrice (candleAt ts i).
Definition NewVolumeIndicator (ts : TimeSeries) : Indicator :=
  fun i => Volume (candleAt ts i).

Definition NewDifferenceIndicator (a b : Indicator) : Indicator :=
  fun i => a i - b i.

(** The two smoothing indicators of the library, which the program uses as
    black boxes: a statement that does not name [reference] holds for every
    implementation of them. *)
Class Library : Type := {
  NewEMAIndicator : Indicator -> Z -> Indicator;
  NewRelativeStrengthIndexIndicator : Indicator -> Z -> Indicator
}.

Section Derived.
Context {lib : Library}.

(** Modelled from the spec: techan's sources are not part of the repository.
    "MACD(fast, slow) = EMA(fast) - EMA(slow)". *)
Definition NewMACDIndicator (base : Indicator) (shortw longw : Z) : Indicator :=
  NewDifferenceIndicator (NewEMAIndicator base shortw) (NewEMAIndicator base longw).

(** Modelled from the spec: techan's sources are not part of the repository.
    "signal = EMA(MACD, signalPeriod); histogram = MACD - signal". *)
Definition NewMACDHistogramIndicator (macd : Indicator) (signalw : Z) : Indicator :=
  NewDifferenceIndicator macd (NewEMAIndicator macd signalw).
End Derived.

(** *** A reference instance of the library

    Modelled from the spec: techan's sources are not part of the repository.
    The simple moving average over the trailing window (0 while fewer bars
    exist), exponential smoothing seeded by the simple average at index
    [window - 1], and the relative strength index 100 - 100 / (1 + RS) over
    the smoothed average gain and loss, saturating at 100 when there is no
    loss.  Used to evaluate the program on concrete series. *)

(** Modelled from the spec: the sum of [n] values from index [start]. *)
Fixpoint sumFrom (f : Indicator) (start : Z) (n : nat) : Q :=
  match n with
  | O => 0
  | S n' => f start + sumFrom f (start + 1)%Z n'
  end.

(** Modelled from the spec: "SMA(period): simple windowed mean over the
    trailing period bars ending at index; a zero if fewer exist". *)
Definition refSMA (base : Indicator) (window : Z) : Indicator :=
  fun i =>
    if (i <? window - 1)%Z then 0
    else Qred (sumFrom base (i - window + 1)%Z (Z.to_nat window) / inject_Z window).

(** Modelled from the spec: "exponential smoothing", recomputed from the
    seed at index [window - 1] on every call. *)
Fixpoint smoothed (alpha : Q) (base : Indicator) (window : Z) (n : nat) : Q :=
  let i := Z.of_nat n in
  if (i <? window - 1)%Z then 0
  else if (i =? window - 1)%Z then refSMA base window i
  else match n with
       | O => refSMA base window i
       | S n' => Qred (alpha * base i + (1 - alpha) * smoothed alpha base window n')
       end.

(** Modelled from the spec: EMA(period), smoothing factor 2 / (period + 1). *)
Definition refEMA (base : Indicator) (window : Z) : Indicator :=
  fun i => if (i <? 0)%Z then 0
           else smoothed (2 / inject_Z (window + 1)) base window (Z.to_nat i).

(** Modelled from the spec: the smoothed average of RSI, factor 1 / period. *)
Definition refMMA (base : Indicator) (window : Z) : Indicator :=
  fun i => if (i <? 0)%Z then 0
           else smoothed (1 / inject_Z window) base window (Z.to_nat i).

Definition Qltb (a b : Q) : bool := negb (Qle_bool b a).

(** Modelled from the spec: the gain of a bar over the previous one. *)
Definition gain (base : Indicator) : Indicator :=
  fun i => if (i =? 0)%Z then 0
           else let d := base i - base (i - 1)%Z in if Qltb 0 d then d else 0.

(** Modelled from the spec: the loss of a bar against the previous one. *)
Definition loss (base : Indicator) : Indicator :=
  fun i => if (i =? 0)%Z then 0
           else let d := base (i - 1)%Z - base i in if Qltb 0 d then d else 0.

(** Modelled from the spec: "RSI(period): average gain/loss over trailing
    period bars, scaled 0-100; no losses maps to 100". *)
Definition refRSI (base : Indicator) (window : Z) : Indicator :=
  fun i =>
    if (i <? window - 1)%Z then 0
    else
      let avgGain := refMMA (gain base) window i in
      let avgLoss := refMMA (loss base) window i in
      if Qeq_bool avgLoss 0 then 100
      else Qred (100 - 100 / (1 + avgGain / avgLoss)).

(** Modelled from the spec: the library instance made of the two above. *)
Definition reference : Library :=
  {| NewEMAIndicator := refEMA;
     NewRelativeStrengthIndexIndicator := refRSI |}.

End Techan.

(* ===================================================================== *)
(** ** analyze.go *)
(* ===================================================================== *)

Module Analyze.
Import Techan.

Section Strategy.
Context {lib : Library}.

(** [analyzeClassic]: EMA cross, RSI and MACD. *)
Definition analyzeClassic (symbol : string) (ts : TimeSeries) : string :=
  let closePrices := NewClosePriceIndicator ts in
  let emaShort := NewEMAIndicator closePrices 9 in
  let emaLong := NewEMAIndicator closePrices 21 in
  let rsi := NewRelativeStrengthIndexIndicator closePrices 14 in
  let macd := NewMACDIndicator closePrices 12 26 in
  let macdSignal := NewMACDHistogramIndicator macd 9 in
  let lastIdx := LastIndex ts in
  if (lastIdx <? 26)%Z then "WAIT"
  else
    let emaShortNow := emaShort lastIdx in
    let emaLongNow := emaLong lastIdx in
    let emaShortPrev := emaShort (lastIdx - 1)%Z in
    let emaLongPrev := emaLong (lastIdx - 1)%Z in
    let rsiVal := rsi lastIdx in
    let macdVal := macd lastIdx in
    let macdSignalVal := macdSignal lastIdx in
    if Qltb emaLongNow emaShortNow && Qle_bool emaShortPrev emaLongPrev &&
       Qltb rsiVal 70 && Qltb macdSignalVal macdVal
    then "BUY"
    else if Qltb emaShortNow emaLongNow && Qle_bool emaLongPrev emaShortPrev &&
            Qltb 30 rsiVal && Qltb macdVal macdSignalVal
    then "SELL"
    else "HOLD".

(** [analyzeML]: a placeholder, HOLD until wired to a model. *)
Definition analyzeML (symbol : string) (ts : TimeSeries) : string := "HOLD".

(** [analyze]; the global [UseMLAnalyze] is an argument. *)
Definition analyze (UseMLAnalyze : bool) (symbol : string) (ts : TimeSeries) : string :=
  if UseMLAnalyze then analyzeML symbol ts else analyzeClassic symbol ts.

End Strategy.

End Analyze.

(* ===================================================================== *)
(** ** backtest.go *)
(* ===================================================================== *)

Module Backtest.
Import Techan Analyze.

Local Open Scope float_scope.

Record BacktestConfig : Type := {
  Symbol : string;
  InitialBalance : float64;
  TransactionFee : float64;
  StartDate : Time;
  EndDate : Time;
  Interval : string;
  DataLimit : Z
}.

Record Trade : Type := {
  TradeSymbol : string;
  TradeType : string;
  Price : float64;
  Quantity : float64;
  Timestamp : Time;
  Fee : float64;
  Balance : float64;
  TotalValue : float64
}.

Record Portfolio : Type := {
  Cash : float64;
  Holdings : gmap string float64;
  LastPrices : gmap string float64
}.

Record BacktestEngine : Type := {
  config : BacktestConfig;
  portfolio : Portfolio;
  trades : list Trade;
  startTime : Time;
  endTime : Time
}.

Definition NewBacktestEngine (cfg : BacktestConfig) : BacktestEngine :=
  {| config := cfg;
     portfolio := {| Cash := InitialBalance cfg; Holdings := ∅; LastPrices := ∅ |};
     trades := [];
     startTime := 0%Z;
     endTime := 0%Z |}.

Definition withPortfolio (be : BacktestEngine) (p : Portfolio) : BacktestEngine :=
  {| config := config be; portfolio := p; trades := trades be;
     startTime := startTime be; endTime := endTime be |}.

Definition withTrades (be : BacktestEngine) (l : list Trade) : BacktestEngine :=
  {| config := config be; portfolio := portfolio be; trades := l;
     startTime := startTime be; endTime := endTime be |}.

(** Reading a Go map: the zero value when the key is absent. *)
Definition mapGet (m : gmap string float64) (k : string) : float64 :=
  default (Fin 0) (m !! k).

(** [GetPortfolioValue]: cash plus every holding that has a last price. *)
Definition GetPortfolioValue (be : BacktestEngine) : float64 :=
  map_fold
    (fun symbol quantity totalValue =>
       match LastPrices (portfolio be) !! symbol with
       | Some price => totalValue + quantity * price
       | None => totalValue
       end)
    (Cash (portfolio be)) (Holdings (portfolio be)).

(** [ExecuteTrade]: the returned boolean and the engine after the call. *)
Definition ExecuteTrade (be : BacktestEngine) (symbol tradeType : string)
    (price : float64) (timestamp : Time) : bool * BacktestEngine :=
  let fee := price * TransactionFee (config be) in
  if String.eqb tradeType "BUY" then
    let availableCash := Cash (portfolio be) in
    let costPerUnit := price + fee in
    let maxQuantity := availableCash / costPerUnit in
    if maxQuantity <=? Fin 0 then (false, be)
    else
      let totalCost := maxQuantity * price in
      let totalFee := maxQuantity * fee in
      let pf :=
        {| Cash := Cash (portfolio be) - (totalCost + totalFee);
           Holdings := <[symbol := mapGet (Holdings (portfolio be)) symbol + maxQuantity]>
                         (Holdings (portfolio be));
           LastPrices := <[symbol := price]> (LastPrices (portfolio be)) |} in
      let be1 := withPortfolio be pf in
      let trade :=
        {| TradeSymbol := symbol; TradeType := tradeType; Price := price;
           Quantity := maxQuantity; Timestamp := timestamp; Fee := totalFee;
           Balance := Cash pf; TotalValue := GetPortfolioValue be1 |} in
      (true, withTrades be1 (trades be1 ++ [trade]))
  else if String.eqb tradeType "SELL" then
    match Holdings (portfolio be) !! symbol with
    | None => (false, be)
    | Some quantity =>
      if quantity <=? Fin 0 then (false, be)
      else
        let totalRevenue := quantity * price in
        let totalFee := quantity * fee in
        let netRevenue := totalRevenue - totalFee in
        let pf :=
          {| Cash := Cash (portfolio be) + netRevenue;
             Holdings := delete symbol (Holdings (portfolio be));
             LastPrices := <[symbol := price]> (LastPrices (portfolio be)) |} in
        let be1 := withPortfolio be pf in
        let trade :=
          {| TradeSymbol := symbol; TradeType := tradeType; Price := price;
             Quantity := quantity; Timestamp := timestamp; Fee := totalFee;
             Balance := Cash pf; TotalValue := GetPortfolioValue be1 |} in
        (true, withTrades be1 (trades be1 ++ [trade]))
    end
  else (false, be).

(** *** Statistics helpers *)

Definition calculateMean (values : list float64) : float64 :=
  match values with
  | [] => Fin 0
  | _ => fold_left fadd values (Fin 0) / ofZ (Z.of_nat (length values))
  end.

Definition calculateStdDev (values : list float64) (mean : float64) : float64 :=
  if (length values <=? 1)%nat then Fin 0
  else
    let sumSquares :=
      fold_left (fun acc v => let diff := v - mean in acc + diff * diff)
                values (Fin 0) in
    fsqrt (sumSquares / ofZ (Z.of_nat (length values) - 1)).

(** The Sharpe ratio block of [RunBacktest]. *)
Definition sharpeRatioOf (dailyReturns : list float64) : float64 :=
  if (1 <? length dailyReturns)%nat then
    let mean := calculateMean dailyReturns in
    let stdDev := calculateStdDev dailyReturns mean in
    if stdDev >? Fin 0
    then (mean * fsqrt (Fin 252)) / (stdDev * fsqrt (Fin 252))
    else Fin 0
  else Fin 0.

(** The formula of the specification: mean / sample deviation, times
    sqrt(252); 0 when the deviation is 0 or fewer than two returns exist. *)
Definition specSharpe (returns : list float64) : float64 :=
  if (1 <? length returns)%nat then
    let mean := calculateMean returns in
    let stdDev := calculateStdDev returns mean in
    if stdDev >? Fin 0 then (mean / stdDev) * fsqrt (Fin 252) else Fin 0
  else Fin 0.

(** *** RunBacktest *)

(** A kline as delivered by the market-data client, its numeric strings
    already parsed. *)
Record Kline : Type := {
  OpenTime : Z;
  Open : Q;
  High : Q;
  Low : Q;
  Close : Q;
  CloseTime : Z
}.

Definition candleOf (k : Kline) : Candle :=
  {| Period := {| Start := OpenTime k; End := (OpenTime k + 15 * 60 * 1000)%Z |};
     OpenPrice := Open k; ClosePrice := Close k;
     MaxPrice := High k; MinPrice := Low k; Volume := 0%Q |}.

(** The series and the price slice built from the klines. *)
Definition seriesOf (klines : list Kline) : TimeSeries :=
  fold_left (fun ts k => AddCandle ts (candleOf k)) klines NewTimeSeries.

Definition pricesOf (klines : list Kline) : list float64 :=
  fold_left (fun prices k => prices ++ [ofQ (Close k)]) klines [].

(** The sub-series of step [i]: candles [0..i], added one by one. *)
Definition subSeries (ts : TimeSeries) (i : nat) : TimeSeries :=
  fold_left (fun sub j => AddCandle sub (candleAt ts (Z.of_nat j)))
            (seq 0 (S i)) NewTimeSeries.

Record LoopState : Type := {
  engine : BacktestEngine;
  equityCurve : list float64;
  dailyReturns : list float64;
  maxValue : float64;
  maxDrawdown : float64
}.

Definition setLastPrice (be : BacktestEngine) (symbol : string) (price : float64)
  : BacktestEngine :=
  withPortfolio be
    {| Cash := Cash (portfolio be);
       Holdings := Holdings (portfolio be);
       LastPrices := <[symbol := price]> (LastPrices (portfolio be)) |}.

(** "Execute trade based on signal". *)
Definition tradeOnSignal (be : BacktestEngine) (signal : string)
    (currentPrice : float64) (timestamp : Time) : BacktestEngine :=
  if String.eqb signal "BUY"
  then snd (ExecuteTrade be (Symbol (config be)) "BUY" currentPrice timestamp)
  else if String.eqb signal "SELL"
  then snd (ExecuteTrade be (Symbol (config be)) "SELL" currentPrice timestamp)
  else be.

Section Run.
Context {lib : Library}.
Variable UseMLAnalyze : bool.

(** The signal obtained at step [i] of the loop. *)
Definition signalAt (symbol : string) (ts : TimeSeries) (i : nat) : string :=
  analyze UseMLAnalyze symbol (subSeries ts i).

(** One iteration of the simulation loop. *)
Definition loopBody (klines : list Kline) (ts : TimeSeries) (prices : list float64)
    (st : LoopState) (i : nat) : LoopState :=
  let currentPrice := nth i prices (Fin 0) in
  let be0 := setLastPrice (engine st) (Symbol (config (engine st))) currentPrice in
  let signal := signalAt (Symbol (config be0)) ts i in
  let timestamp := nth i (map OpenTime klines) 0%Z in
  let be1 := tradeOnSignal be0 signal currentPrice timestamp in
  let currentValue := GetPortfolioValue be1 in
  let equityCurve1 := equityCurve st ++ [currentValue] in
  let dailyReturns1 :=
    if (1 <? length equityCurve1)%nat then
      let prevValue := nth (length equityCurve1 - 2) equityCurve1 (Fin 0) in
      if prevValue >? Fin 0
      then dailyReturns st ++ [(currentValue - prevValue) / prevValue]
      else dailyReturns st
    else dailyReturns st in
  let maxValue1 := if currentValue >? maxValue st then currentValue else maxValue st in
  let drawdown := maxValue1 - currentValue in
  let maxDrawdown1 := if drawdown >? maxDrawdown st then drawdown else maxDrawdown st in
  {| engine := be1; equityCurve := equityCurve1; dailyReturns := dailyReturns1;
     maxValue := maxValue1; maxDrawdown := maxDrawdown1 |}.

(** [for i := 26; i < len(klines); i++]. *)
Definition loopIndices (klines : list Kline) : list nat :=
  seq 26 (length klines - 26).

Definition initialLoopState (be : BacktestEngine) : LoopState :=
  {| engine := be; equityCurve := []; dailyReturns := [];
     maxValue := InitialBalance (config be); maxDrawdown := Fin 0 |}.

Definition runLoop (be : BacktestEngine) (klines : list Kline) : LoopState :=
  fold_left (loopBody klines (seriesOf klines) (pricesOf klines))
            (loopIndices klines) (initialLoopState be).

(** Pairing of each SELL with the most recent unmatched BUY. *)
Record TradeStats : Type := {
  buyTrades : list Trade;
  winningTrades : Z;
  losingTrades : Z;
  totalWins : float64;
  totalLosses : float64
}.

Definition pairTrade (s : TradeStats) (trade : Trade) : TradeStats :=
  if String.eqb (TradeType trade) "BUY" then
    {| buyTrades := buyTrades s ++ [trade];
       winningTrades := winningTrades s; losingTrades := losingTrades s;
       totalWins := totalWins s; totalLosses := totalLosses s |}
  else if String.eqb (TradeType trade) "SELL" && (0 <? length (buyTrades s))%nat then
    match last (buyTrades s) with
    | None => s
    | Some buyTrade =>
      let rest := removelast (buyTrades s) in
      let pnl := (Price trade - Price buyTrade) * Quantity trade
                 - Fee trade - Fee buyTrade in
      if pnl >? Fin 0 then
        {| buyTrades := rest;
           winningTrades := (winningTrades s + 1)%Z; losingTrades := losingTrades s;
           totalWins := totalWins s + pnl; totalLosses := totalLosses s |}
      else
        {| buyTrades := rest;
           winningTrades := winningTrades s; losingTrades := (losingTrades s + 1)%Z;
           totalWins := totalWins s; totalLosses := totalLosses s + fabs pnl |}
    end
  else s.

Record BacktestResult : Type := {
  ResultSymbol : string;
  ResultInitialBalance : float64;
  FinalBalance : float64;
  FinalValue : float64;
  TotalReturn : float64;
  TotalReturnPct : float64;
  MaxDrawdown : float64;
  MaxDrawdownPct : float64;
  WinRate : float64;
  TotalTrades : Z;
  WinningTrades : Z;
  LosingTrades : Z;
  AverageWin : float64;
  AverageLoss : float64;
  SharpeRatio : float64;
  Trades : list Trade;
  DailyReturns : list float64;
  EquityCurve : list float64;
  Duration : Z;
  BuyAndHoldReturn : float64;
  BuyAndHoldReturnPct : float64
}.

(** [RunBacktest] on the klines the client returned ([None]: the fetch
    failed).  [None] is the error return. *)
Definition RunBacktest (be : BacktestEngine) (fetched : option (list Kline))
  : option (BacktestResult * BacktestEngine) :=
  match fetched with
  | None => None
  | Some [] => None
  | Some klines =>
    let prices := pricesOf klines in
    let be0 :=
      {| config := config be; portfolio := portfolio be; trades := trades be;
         startTime := nth 0 (map OpenTime klines) 0%Z;
         endTime := nth (length klines - 1) (map CloseTime klines) 0%Z |} in
    let st := runLoop be0 klines in
    let be1 := engine st in
    let finalValue := GetPortfolioValue be1 in
    let totalReturn := finalValue - InitialBalance (config be1) in
    let totalReturnPct := (totalReturn / InitialBalance (config be1)) * Fin 100 in
    let maxDrawdownPct := (maxDrawdown st / maxValue st) * Fin 100 in
    let firstPrice := nth 0 prices (Fin 0) in
    let lastPrice := nth (length prices - 1) prices (Fin 0) in
    let buyAndHoldReturn :=
      ((lastPrice - firstPrice) / firstPrice) * InitialBalance (config be1) in
    let buyAndHoldReturnPct := ((lastPrice - firstPrice) / firstPrice) * Fin 100 in
    let stats :=
      fold_left pairTrade (trades be1)
        {| buyTrades := []; winningTrades := 0; losingTrades := 0;
           totalWins := Fin 0; totalLosses := Fin 0 |} in
    let totalCompletedTrades := (winningTrades stats + losingTrades stats)%Z in
    let winRate :=
      if (0 <? totalCompletedTrades)%Z
      then (ofZ (winningTrades stats) / ofZ totalCompletedTrades) * Fin 100
      else Fin 0 in
    let avgWin :=
      if (0 <? winningTrades stats)%Z
      then totalWins stats / ofZ (winningTrades stats) else Fin 0 in
    let avgLoss :=
      if (0 <? losingTrades stats)%Z
      then totalLosses stats / ofZ (losingTrades stats) else Fin 0 in
    Some
      ({| ResultSymbol := Symbol (config be1);
          ResultInitialBalance := InitialBalance (config be1);
          FinalBalance := Cash (portfolio be1);
          FinalValue := finalValue;
          TotalReturn := totalReturn;
          TotalReturnPct := totalReturnPct;
          MaxDrawdown := maxDrawdown st;
          MaxDrawdownPct := maxDrawdownPct;
          WinRate := winRate;
          TotalTrades := Z.of_nat (length (trades be1));
          WinningTrades := winningTrades stats;
          LosingTrades := losingTrades stats;
          AverageWin := avgWin;
          AverageLoss := avgLoss;
          SharpeRatio := sharpeRatioOf (dailyReturns st);
          Trades := trades be1;
          DailyReturns := dailyReturns st;
          EquityCurve := equityCurve st;
          Duration := (endTime be1 - startTime be1)%Z;
          BuyAndHoldReturn := buyAndHoldReturn;
          BuyAndHoldReturnPct := buyAndHoldReturnPct |},
       be1)
  end.

End Run.

End Backtest.

(* ===================================================================== *)
(** ** ml_strategy.go *)
(* ===================================================================== *)

Module MLStrategy.
Import Techan.

Local Open Scope float_scope.

Record MLConfig : Type := {
  LookbackPeriod : Z;
  TrainingRatio : float64;
  MinTrainingPeriod : Z;
  RetrainingPeriod : Z;
  FeatureWindow : Z
}.

Record TradingFeatures : Type := {
  PriceChange1 : float64;
  PriceChange5 : float64;
  PriceChange10 : float64;
  RSI : float64;
  EMA9 : float64;
  EMA21 : float64;
  EMASpread : float64;
  MACD : float64;
  MACDSignal : float64;
  MACDHistogram : float64;
  VolumeRatio : float64;
  VolumeMA : float64;
  ATR : float64;
  BollingerWidth : float64;
  BollingerPosition : float64;
  HighLowRatio : float64;
  CandleBody : float64;
  CandleWick : float64;
  HourOfDay : float64;
  DayOfWeek : float64;
  FutureReturn : float64;
  FutureDirection : Z
}.

Record FeatureStats : Type := {
  Mean : float64;
  StdDev : float64;
  Min : float64;
  Max : float64
}.

Record ModelPerformance : Type := {
  Accuracy : float64;
  Precision : float64;
  Recall : float64;
  F1Score : float64;
  ProfitabilityScore : float64;
  SharpeRatio : float64;
  TrainingLoss : float64;
  ValidationLoss : float64
}.

Record PredictionResult : Type := {
  Direction : string;
  Confidence : float64;
  ExpectedReturn : float64;
  Features : TradingFeatures
}.

Record MLModel : Type := {
  config : MLConfig;
  features : list TradingFeatures;
  trainedWeights : gmap string float64;
  featureStats : gmap string FeatureStats;
  lastTraining : Time;
  trainingCount : Z;
  performance : ModelPerformance;
  l2Lambda : float64
}.

Definition zeroFeatures : TradingFeatures :=
  {| PriceChange1 := Fin 0; PriceChange5 := Fin 0; PriceChange10 := Fin 0;
     RSI := Fin 0; EMA9 := Fin 0; EMA21 := Fin 0; EMASpread := Fin 0;
     MACD := Fin 0; MACDSignal := Fin 0; MACDHistogram := Fin 0;
     VolumeRatio := Fin 0; VolumeMA := Fin 0; ATR := Fin 0;
     BollingerWidth := Fin 0; BollingerPosition := Fin 0;
     HighLowRatio := Fin 0; CandleBody := Fin 0; CandleWick := Fin 0;
     HourOfDay := Fin 0; DayOfWeek := Fin 0; FutureReturn := Fin 0;
     FutureDirection := 0 |}.

Definition zeroPerformance : ModelPerformance :=
  {| Accuracy := Fin 0; Precision := Fin 0; Recall := Fin 0; F1Score := Fin 0;
     ProfitabilityScore := Fin 0; SharpeRatio := Fin 0;
     TrainingLoss := Fin 0; ValidationLoss := Fin 0 |}.

Definition NewMLModel (cfg : MLConfig) : MLModel :=
  {| config := cfg; features := []; trainedWeights := ∅; featureStats := ∅;
     lastTraining := 0%Z; trainingCount := 0; performance := zeroPerformance;
     l2Lambda := Fin (1 / 10000) |}.

(** [for i := start; i < start + n; i++]. *)
Definition indexRange (start : Z) (n : Z) : list Z :=
  map (fun k => (start + Z.of_nat k)%Z) (seq 0 (Z.to_nat n)).

(** [calculateSMA]. *)
Definition calculateSMA (indicator : Indicator) (index period : Z) : float64 :=
  if (index <? period - 1)%Z then Fin 0
  else
    let sum :=
      fold_left (fun sum i => sum + ofQ (indicator i))
                (indexRange (index - period + 1) period) (Fin 0) in
    sum / ofZ period.

(** [calculateStdDev] (population deviation over the window). *)
Definition calculateStdDev (indicator : Indicator) (index period : Z) : float64 :=
  if (index <? period - 1)%Z then Fin 0
  else
    let mean := calculateSMA indicator index period in
    let sumSquares :=
      fold_left (fun acc i => let diff := ofQ (indicator i) - mean in acc + diff * diff)
                (indexRange (index - period + 1) period) (Fin 0) in
    let variance := sumSquares / ofZ period in
    if variance <? Fin 0 then Fin 0 else fsqrt variance.

(** [calculateATR]. *)
Definition calculateATR (ts : TimeSeries) (index period : Z) : float64 :=
  if (index <? period)%Z then Fin 0
  else
    let closePrices := NewClosePriceIndicator ts in
    let highPrices := NewHighPriceIndicator ts in
    let lowPrices := NewLowPriceIndicator ts in
    let trSum :=
      fold_left
        (fun trSum i =>
           let high := ofQ (highPrices i) in
           let low := ofQ (lowPrices i) in
           let prevClose := ofQ (closePrices (i - 1)%Z) in
           let tr1 := high - low in
           let tr2 := fabs (high - prevClose) in
           let tr3 := fabs (low - prevClose) in
           trSum + fmax tr1 (fmax tr2 tr3))
        (indexRange (index - period + 1) period) (Fin 0) in
    trSum / ofZ period.

Definition sanitize (v : float64) : float64 :=
  if IsNaN v || IsInf v then Fin 0 else v.

(** [sanitizeFeatures]. *)
Definition sanitizeFeatures (f : TradingFeatures) : TradingFeatures :=
  {| PriceChange1 := sanitize (PriceChange1 f);
     PriceChange5 := sanitize (PriceChange5 f);
     PriceChange10 := sanitize (PriceChange10 f);
     RSI := sanitize (RSI f);
     EMA9 := sanitize (EMA9 f);
     EMA21 := sanitize (EMA21 f);
     EMASpread := sanitize (EMASpread f);
     MACD := sanitize (MACD f);
     MACDSignal := sanitize (MACDSignal f);
     MACDHistogram := sanitize (MACDHistogram f);
     VolumeRatio := sanitize (VolumeRatio f);
     VolumeMA := sanitize (VolumeMA f);
     ATR := sanitize (ATR f);
     BollingerWidth := sanitize (BollingerWidth f);
     BollingerPosition := sanitize (BollingerPosition f);
     HighLowRatio := sanitize (HighLowRatio f);
     CandleBody := sanitize (CandleBody f);
     CandleWick := sanitize (CandleWick f);
     HourOfDay := sanitize (HourOfDay f);
     DayOfWeek := sanitize (DayOfWeek f);
     FutureReturn := sanitize (FutureReturn f);
     FutureDirection := FutureDirection f |}.

(** [(currentPrice - prevPrice) / prevPrice], guarded by [prevPrice != 0]. *)
Definition priceChange (closePrices : Indicator) (index back : Z) : float64 :=
  if (back <=? index)%Z then
    let currentPrice := ofQ (closePrices index) in
    let prevPrice := ofQ (closePrices (index - back)%Z) in
    if prevPrice !=? Fin 0 then (currentPrice - prevPrice) / prevPrice else Fin 0
  else Fin 0.

Section Extraction.
Context {lib : Library}.

(** The body of [ExtractFeatures] up to the sanitize step; [now] is the
    value of [time.Now()]. *)
Definition rawFeatures (ts : TimeSeries) (index : Z) (now : Time) : TradingFeatures :=
  let closePrices := NewClosePriceIndicator ts in
  let highPrices := NewHighPriceIndicator ts in
  let lowPrices := NewLowPriceIndicator ts in
  let volumeIndicator := NewVolumeIndicator ts in
  let currentPrice := ofQ (closePrices index) in
  let rsi := NewRelativeStrengthIndexIndicator closePrices 14 in
  let ema9 := NewEMAIndicator closePrices 9 in
  let ema21 := NewEMAIndicator closePrices 21 in
  let macd := NewMACDIndicator closePrices 12 26 in
  let macdSignal := NewEMAIndicator macd 9 in
  let fEMA9 := ofQ (ema9 index) in
  let fEMA21 := ofQ (ema21 index) in
  let fMACD := ofQ (macd index) in
  let fMACDSignal := ofQ (macdSignal index) in
  let volMA := calculateSMA volumeIndicator index 20 in
  let currentVol := ofQ (volumeIndicator index) in
  let atr := calculateATR ts index 14 in
  let sma := calculateSMA closePrices index 20 in
  let stdDev := calculateStdDev closePrices index 20 in
  let upperBB := sma + (Fin 2 * stdDev) in
  let lowerBB := sma - (Fin 2 * stdDev) in
  let bandWidth := upperBB - lowerBB in
  let highPrice := ofQ (highPrices index) in
  let lowPrice := ofQ (lowPrices index) in
  let openPrice := ofQ (OpenPrice (candleAt ts index)) in
  let upperWick := fmax (highPrice - currentPrice) (highPrice - openPrice) in
  let lowerWick := fmax (currentPrice - lowPrice) (openPrice - lowPrice) in
  {| PriceChange1 := priceChange closePrices index 1;
     PriceChange5 := priceChange closePrices index 5;
     PriceChange10 := priceChange closePrices index 10;
     RSI := ofQ (rsi index);
     EMA9 := fEMA9;
     EMA21 := fEMA21;
     EMASpread := if fEMA21 !=? Fin 0 then (fEMA9 - fEMA21) / fEMA21 else Fin 0;
     MACD := fMACD;
     MACDSignal := fMACDSignal;
     MACDHistogram := fMACD - fMACDSignal;
     VolumeRatio := if volMA >? Fin 0 then currentVol / volMA else Fin 1;
     VolumeMA := volMA;
     ATR := atr;
     BollingerWidth := if sma !=? Fin 0 then bandWidth / sma else Fin 0;
     BollingerPosition :=
       if bandWidth !=? Fin 0 then (currentPrice - lowerBB) / bandWidth else Fin 0;
     HighLowRatio :=
       if currentPrice !=? Fin 0 then (highPrice - lowPrice) / currentPrice else Fin 0;
     CandleBody :=
       if currentPrice !=? Fin 0
       then fabs (currentPrice - openPrice) / currentPrice else Fin 0;
     CandleWick :=
       if currentPrice !=? Fin 0
       then (upperWick + lowerWick) / currentPrice else Fin 0;
     HourOfDay := ofZ (Hour now) / Fin 24;
     DayOfWeek := ofZ (Weekday now) / Fin 7;
     FutureReturn := Fin 0;
     FutureDirection := 0 |}.

(** [ExtractFeatures]: [None] is the nil return. *)
Definition ExtractFeatures (ml : MLModel) (ts : TimeSeries) (index : Z) (now : Time)
  : option TradingFeatures :=
  if (index <? FeatureWindow (config ml))%Z then None
  else Some (sanitizeFeatures (rawFeatures ts index now)).

End Extraction.

(** *** The training buffer and normalization *)

Definition withFeatures (ml : MLModel) (l : list TradingFeatures) : MLModel :=
  {| config := config ml; features := l; trainedWeights := trainedWeights ml;
     featureStats := featureStats ml; lastTraining := lastTraining ml;
     trainingCount := trainingCount ml; performance := performance ml;
     l2Lambda := l2Lambda ml |}.

Definition withWeights (ml : MLModel) (w : gmap string float64) : MLModel :=
  {| config := config ml; features := features ml; trainedWeights := w;
     featureStats := featureStats ml; lastTraining := lastTraining ml;
     trainingCount := trainingCount ml; performance := performance ml;
     l2Lambda := l2Lambda ml |}.

Definition withStats (ml : MLModel) (st : gmap string FeatureStats) : MLModel :=
  {| config := config ml; features := features ml; trainedWeights := trainedWeights ml;
     featureStats := st; lastTraining := lastTraining ml;
     trainingCount := trainingCount ml; performance := performance ml;
     l2Lambda := l2Lambda ml |}.

Definition withPerformance (ml : MLModel) (perf : ModelPerformance) : MLModel :=
  {| config := config ml; features := features ml; trainedWeights := trainedWeights ml;
     featureStats := featureStats ml; lastTraining := lastTraining ml;
     trainingCount := trainingCount ml; performance := perf;
     l2Lambda := l2Lambda ml |}.

(** [AddTrainingData]. *)
Definition AddTrainingData (ml : MLModel) (f : TradingFeatures) : MLModel :=
  let l := features ml ++ [sanitizeFeatures f] in
  if (LookbackPeriod (config ml) <? Z.of_nat (length l))%Z
  then withFeatures ml (skipn 1 l)
  else withFeatures ml l.

(** [getFeatureValues]. *)
Definition featureValue (featureName : string) (f : TradingFeatures) : float64 :=
  if String.eqb featureName "PriceChange1" then PriceChange1 f
  else if String.eqb featureName "PriceChange5" then PriceChange5 f
  else if String.eqb featureName "PriceChange10" then PriceChange10 f
  else if String.eqb featureName "RSI" then RSI f
  else if String.eqb featureName "EMASpread" then EMASpread f
  else if String.eqb featureName "MACDHistogram" then MACDHistogram f
  else if String.eqb featureName "ATR" then ATR f
  else if String.eqb featureName "BollingerWidth" then BollingerWidth f
  else if String.eqb featureName "BollingerPosition" then BollingerPosition f
  else if String.eqb featureName "VolumeRatio" then VolumeRatio f
  else Fin 0.

Definition getFeatureValues (ml : MLModel) (featureName : string) : list float64 :=
  map (featureValue featureName) (features ml).

(** [calculateStats]. *)
Definition calculateStats (values : list float64) : FeatureStats :=
  match values with
  | [] => {| Mean := Fin 0; StdDev := Fin 0; Min := Fin 0; Max := Fin 0 |}
  | v0 :: _ =>
    let sum := fold_left fadd values (Fin 0) in
    let mean := sum / ofZ (Z.of_nat (length values)) in
    let sumSquares :=
      fold_left (fun acc v => let diff := v - mean in acc + diff * diff)
                values (Fin 0) in
    let minVal := fold_left (fun m v => if v <? m then v else m) values v0 in
    let maxVal := fold_left (fun m v => if v >? m then v else m) values v0 in
    {| Mean := mean;
       StdDev := fsqrt (sumSquares / ofZ (Z.of_nat (length values)));
       Min := minVal; Max := maxVal |}
  end.

Definition featureNames : list string :=
  ["PriceChange1"; "PriceChange5"; "PriceChange10"; "RSI"; "EMASpread";
   "MACDHistogram"; "ATR"; "BollingerWidth"; "BollingerPosition"; "VolumeRatio"].

(** [calculateFeatureStats]. *)
Definition calculateFeatureStats (ml : MLModel) : MLModel :=
  if (length (features ml) <? 10)%nat then ml
  else
    withStats ml
      (fold_left
         (fun st name => <[name := calculateStats (getFeatureValues ml name)]> st)
         featureNames (featureStats ml)).

(** [normalize]: the z-score, 0 whenever it is not defined. *)
Definition normalize (ml : MLModel) (featureName : string) (value : float64) : float64 :=
  match featureStats ml !! featureName with
  | None => Fin 0
  | Some stats =>
    if (StdDev stats =? Fin 0) || IsNaN value || IsInf value then Fin 0
    else
      let normalized := (value - Mean stats) / StdDev stats in
      if IsNaN normalized || IsInf normalized then Fin 0 else normalized
  end.

(** [NormalizeFeatures]: the model (its statistics are computed on first use)
    and the normalized copy. *)
Definition NormalizeFeatures (ml : MLModel) (f : TradingFeatures)
  : MLModel * TradingFeatures :=
  let ml1 := if (size (featureStats ml) =? 0)%nat then calculateFeatureStats ml else ml in
  (ml1,
   {| PriceChange1 := normalize ml1 "PriceChange1" (PriceChange1 f);
      PriceChange5 := normalize ml1 "PriceChange5" (PriceChange5 f);
      PriceChange10 := normalize ml1 "PriceChange10" (PriceChange10 f);
      RSI := normalize ml1 "RSI" (RSI f);
      EMA9 := EMA9 f;
      EMA21 := EMA21 f;
      EMASpread := normalize ml1 "EMASpread" (EMASpread f);
      MACD := MACD f;
      MACDSignal := MACDSignal f;
      MACDHistogram := normalize ml1 "MACDHistogram" (MACDHistogram f);
      VolumeRatio := normalize ml1 "VolumeRatio" (VolumeRatio f);
      VolumeMA := VolumeMA f;
      ATR := normalize ml1 "ATR" (ATR f);
      BollingerWidth := normalize ml1 "BollingerWidth" (BollingerWidth f);
      BollingerPosition := normalize ml1 "BollingerPosition" (BollingerPosition f);
      HighLowRatio := HighLowRatio f;
      CandleBody := CandleBody f;
      CandleWick := CandleWick f;
      HourOfDay := HourOfDay f;
      DayOfWeek := DayOfWeek f;
      FutureReturn := FutureReturn f;
      FutureDirection := FutureDirection f |}).

(** Reading the weight map: 0 for an absent name. *)
Definition weight (w : gmap string float64) (name : string) : float64 :=
  default (Fin 0) (w !! name).

(** [predictValue]. *)
Definition predictValue (ml : MLModel) (f : TradingFeatures) : float64 :=
  let w := trainedWeights ml in
  weight w "bias"
  + weight w "PriceChange1" * PriceChange1 f
  + weight w "PriceChange5" * PriceChange5 f
  + weight w "PriceChange10" * PriceChange10 f
  + weight w "RSI" * RSI f
  + weight w "EMASpread" * EMASpread f
  + weight w "MACDHistogram" * MACDHistogram f
  + weight w "ATR" * ATR f
  + weight w "BollingerPosition" * BollingerPosition f
  + weight w "VolumeRatio" * VolumeRatio f.

(** *** Training *)

Definition learningRate : float64 := Fin (1 / 10000).

Definition clip (error : float64) : float64 :=
  if error >? Fin 1 then Fin 1
  else if error <? Fin (-1) then Fin (-1) else error.

(** The closure [update] of the training loop. *)
Definition update (error : float64) (w : gmap string float64) (name : string)
    (value : float64) : gmap string float64 :=
  if IsNaN value || IsInf value then w
  else <[name := weight w name + learningRate * error * value]> w.

(** One sample of one epoch: the model and the running squared error. *)
Definition trainSample (acc : MLModel * float64) (data : TradingFeatures)
  : MLModel * float64 :=
  let '(ml, totalError) := acc in
  let '(ml1, normalized) := NormalizeFeatures ml data in
  let prediction := predictValue ml1 normalized in
  let error := clip (FutureReturn data - prediction) in
  let w := trainedWeights ml1 in
  let w := update error w "PriceChange1" (PriceChange1 normalized) in
  let w := update error w "PriceChange5" (PriceChange5 normalized) in
  let w := update error w "PriceChange10" (PriceChange10 normalized) in
  let w := update error w "RSI" (RSI normalized) in
  let w := update error w "EMASpread" (EMASpread normalized) in
  let w := update error w "MACDHistogram" (MACDHistogram normalized) in
  let w := update error w "ATR" (ATR normalized) in
  let w := update error w "BollingerPosition" (BollingerPosition normalized) in
  let w := update error w "VolumeRatio" (VolumeRatio normalized) in
  let w := <["bias" := weight w "bias" + learningRate * error]> w in
  (withWeights ml1 w, totalError + error * error).

Definition finiteWeight (w : float64) : bool := negb (IsNaN w) && negb (IsInf w).

(** The L2 term: the sum of squares of the finite weights, bias excluded.
    (Go ranges over the map in an unspecified order; the sum of finite
    reals does not depend on it.) *)
Definition l2Term (w : gmap string float64) : float64 :=
  map_fold
    (fun name v reg =>
       if String.eqb name "bias" then reg
       else if finiteWeight v then reg + v * v else reg)
    (Fin 0) w.

(** Weight decay of every finite weight but the bias. *)
Definition decayWeights (l2 : float64) (w : gmap string float64) : gmap string float64 :=
  map_imap
    (fun name v =>
       Some (if String.eqb name "bias" then v
             else if finiteWeight v then
               let decay := learningRate * l2 * v in
               if finiteWeight decay then v - decay else v
             else v))
    w.

Definition withTrainingLoss (perf : ModelPerformance) (loss : float64) : ModelPerformance :=
  {| Accuracy := Accuracy perf; Precision := Precision perf; Recall := Recall perf;
     F1Score := F1Score perf; ProfitabilityScore := ProfitabilityScore perf;
     SharpeRatio := SharpeRatio perf; TrainingLoss := loss;
     ValidationLoss := ValidationLoss perf |}.

(** One epoch. *)
Definition trainEpoch (trainData : list TradingFeatures) (ml : MLModel) : MLModel :=
  let '(ml1, totalError) := fold_left trainSample trainData (ml, Fin 0) in
  let reg := l2Term (trainedWeights ml1) in
  let ml2 := withWeights ml1 (decayWeights (l2Lambda ml1) (trainedWeights ml1)) in
  if (0 <? length trainData)%nat
  then withPerformance ml2
         (withTrainingLoss (performance ml2)
            (totalError / ofZ (Z.of_nat (length trainData)) + l2Lambda ml2 * reg))
  else ml2.

(** The epoch loop with its early stop. *)
Fixpoint trainEpochs (epochs : nat) (trainData : list TradingFeatures) (ml : MLModel)
  : MLModel :=
  match epochs with
  | O => ml
  | S n =>
    let ml1 := trainEpoch trainData ml in
    if TrainingLoss (performance ml1) <? Fin (1 / 10000) then ml1
    else trainEpochs n trainData ml1
  end.

(** [trainLinearModel]; it never returns an error. *)
Definition trainLinearModel (ml : MLModel) (trainData : list TradingFeatures) : MLModel :=
  let w := trainedWeights ml in
  let w := <["PriceChange1" := Fin (1 / 10)]> w in
  let w := <["PriceChange5" := Fin (15 / 100)]> w in
  let w := <["PriceChange10" := Fin (1 / 10)]> w in
  let w := <["RSI" := Fin (5 / 100)]> w in
  let w := <["EMASpread" := Fin (2 / 10)]> w in
  let w := <["MACDHistogram" := Fin (15 / 100)]> w in
  let w := <["ATR" := Fin (- (1 / 10))]> w in
  let w := <["BollingerPosition" := Fin (1 / 10)]> w in
  let w := <["bias" := Fin 0]> w in
  trainEpochs 100 trainData (withWeights ml w).

(** *** Evaluation *)

Definition direction (v : float64) : Z :=
  if v >? Fin (1 / 1000) then 1
  else if v <? Fin (- (1 / 1000)) then (-1) else 0.

Record EvalCounts : Type := {
  correct : Z;
  totalError : float64;
  truePositives : Z;
  falsePositives : Z;
  falseNegatives : Z
}.

Definition evalSample (acc : MLModel * EvalCounts) (data0 : TradingFeatures)
  : MLModel * EvalCounts :=
  let '(ml, c) := acc in
  let data := sanitizeFeatures data0 in
  let '(ml1, normalized) := NormalizeFeatures ml data in
  let prediction := predictValue ml1 normalized in
  let error := FutureReturn data - prediction in
  let predictedDirection := direction prediction in
  let actualDirection := direction (FutureReturn data) in
  (ml1,
   {| correct := if (predictedDirection =? actualDirection)%Z
                 then (correct c + 1)%Z else correct c;
      totalError := totalError c + error * error;
      truePositives :=
        if (predictedDirection =? 1)%Z && (actualDirection =? 1)%Z
        then (truePositives c + 1)%Z else truePositives c;
      falsePositives :=
        if (predictedDirection =? 1)%Z && negb (actualDirection =? 1)%Z
        then (falsePositives c + 1)%Z else falsePositives c;
      falseNegatives :=
        if negb (predictedDirection =? 1)%Z && (actualDirection =? 1)%Z
        then (falseNegatives c + 1)%Z else falseNegatives c |}).

(** [evaluateModel]. *)
Definition evaluateModel (ml : MLModel) (validationData : list TradingFeatures) : MLModel :=
  match validationData with
  | [] => ml
  | _ =>
    let '(ml1, c) :=
      fold_left evalSample validationData
        (ml, {| correct := 0; totalError := Fin 0; truePositives := 0;
                falsePositives := 0; falseNegatives := 0 |}) in
    let n := ofZ (Z.of_nat (length validationData)) in
    let perf := performance ml1 in
    let precision :=
      if (0 <? truePositives c + falsePositives c)%Z
      then ofZ (truePositives c) / ofZ (truePositives c + falsePositives c)
      else Precision perf in
    let recall :=
      if (0 <? truePositives c + falseNegatives c)%Z
      then ofZ (truePositives c) / ofZ (truePositives c + falseNegatives c)
      else Recall perf in
    let f1 :=
      if precision + recall >? Fin 0
      then Fin 2 * (precision * recall) / (precision + recall)
      else F1Score perf in
    withPerformance ml1
      {| Accuracy := ofZ (correct c) / n;
         Precision := precision; Recall := recall; F1Score := f1;
         ProfitabilityScore := ProfitabilityScore perf;
         SharpeRatio := SharpeRatio perf;
         TrainingLoss := TrainingLoss perf;
         ValidationLoss := totalError c / n |}
  end.

Inductive TrainError : Type :=
| InsufficientData (have need : Z)
| TrainingFailed.

(** [TrainModel]: the returned error ([None] for nil) and the model after
    the call; [now] is the value of [time.Now()]. *)
Definition TrainModel (ml : MLModel) (now : Time) : option TrainError * MLModel :=
  let n := Z.of_nat (length (features ml)) in
  if (n <? MinTrainingPeriod (config ml))%Z
  then (Some (InsufficientData n (MinTrainingPeriod (config ml))), ml)
  else
    let ml1 := calculateFeatureStats ml in
    let trainSize := toInt (ofZ n * TrainingRatio (config ml1)) in
    let trainSize :=
      if (trainSize <=? 0)%Z || (n <=? trainSize)%Z then
        let t := toInt (ofZ n * Fin (8 / 10)) in
        if (t <=? 0)%Z then (n - 1)%Z else t
      else trainSize in
    let trainData := firstn (Z.to_nat trainSize) (features ml1) in
    let validationData := skipn (Z.to_nat trainSize) (features ml1) in
    let ml2 := withWeights ml1 ∅ in
    let ml3 := trainLinearModel ml2 trainData in
    let ml4 := evaluateModel ml3 validationData in
    (None,
     {| config := config ml4; features := features ml4;
        trainedWeights := trainedWeights ml4; featureStats := featureStats ml4;
        lastTraining := now; trainingCount := (trainingCount ml4 + 1)%Z;
        performance := performance ml4; l2Lambda := l2Lambda ml4 |}).

(** *** Prediction *)

(** [Predict]: the result and the model (normalization may compute the
    statistics). *)
Definition Predict (ml : MLModel) (f : TradingFeatures) : PredictionResult * MLModel :=
  if (size (trainedWeights ml) =? 0)%nat then
    ({| Direction := "HOLD"; Confidence := Fin 0; ExpectedReturn := Fin 0;
        Features := zeroFeatures |}, ml)
  else
    let '(ml1, normalizedFeatures) := NormalizeFeatures ml f in
    let expectedReturn := predictValue ml1 normalizedFeatures in
    let threshold := Fin (1 / 1000) in
    if expectedReturn >? threshold then
      ({| Direction := "BUY";
          Confidence := fmin (fabs expectedReturn * Fin 100) (Fin 1);
          ExpectedReturn := expectedReturn; Features := f |}, ml1)
    else if expectedReturn <? fneg threshold then
      ({| Direction := "SELL";
          Confidence := fmin (fabs expectedReturn * Fin 100) (Fin 1);
          ExpectedReturn := expectedReturn; Features := f |}, ml1)
    else
      ({| Direction := "HOLD"; Confidence := Fin 0;
          ExpectedReturn := expectedReturn; Features := f |}, ml1).

(** [ShouldRetrain]. *)
Definition ShouldRetrain (ml : MLModel) (now : Time) : bool :=
  let enough := (MinTrainingPeriod (config ml) <=? Z.of_nat (length (features ml)))%Z in
  if (size (trainedWeights ml) =? 0)%nat then enough
  else
    let timeSinceTraining := (now - lastTraining ml)%Z in
    let retrainingInterval := (RetrainingPeriod (config ml) * 60000)%Z in
    (retrainingInterval <? timeSinceTraining)%Z && enough.

End MLStrategy.

(* ===================================================================== *)
(** ** ml_cli.go *)
(* ===================================================================== *)

Module MLCli.
Import Techan Backtest MLStrategy.

Local Open Scope float_scope.

Definition zeroKline : Kline :=
  {| OpenTime := 0; Open := 0; High := 0; Low := 0; Close := 0; CloseTime := 0 |}.

(** [strconv.ParseFloat(klines[i].Close, 64)]; every use below is inside
    the bounds of the slice. *)
Definition closeAt (klines : list Kline) (i : Z) : float64 :=
  ofQ (Close (nth (Z.to_nat i) klines zeroKline)).

(** [features.FutureReturn = v]. *)
Definition withFutureReturn (f : TradingFeatures) (v : float64) : TradingFeatures :=
  {| PriceChange1 := PriceChange1 f; PriceChange5 := PriceChange5 f;
     PriceChange10 := PriceChange10 f; RSI := RSI f; EMA9 := EMA9 f;
     EMA21 := EMA21 f; EMASpread := EMASpread f; MACD := MACD f;
     MACDSignal := MACDSignal f; MACDHistogram := MACDHistogram f;
     VolumeRatio := VolumeRatio f; VolumeMA := VolumeMA f; ATR := ATR f;
     BollingerWidth := BollingerWidth f; BollingerPosition := BollingerPosition f;
     HighLowRatio := HighLowRatio f; CandleBody := CandleBody f;
     CandleWick := CandleWick f; HourOfDay := HourOfDay f;
     DayOfWeek := DayOfWeek f; FutureReturn := v;
     FutureDirection := FutureDirection f |}.

(** The state of the trading simulation of [runMLComparison]. *)
Record SimState : Type := {
  model : MLModel;
  cash : float64;
  position : float64;
  mlTrades : Z;
  mlWins : Z
}.

(** The state of the prediction test of [runMLTesting]. *)
Record TestState : Type := {
  tested : MLModel;
  correct : Z;
  totalReturns : float64;
  predictedReturns : float64
}.

(** What [runMLComparison] reports for the model-based strategy. *)
Record MLOutcome : Type := {
  mlFinalValue : float64;
  mlReturn : float64;
  mlWinRate : float64;
  outcomeTrades : Z;
  outcomeWins : Z
}.

(** One iteration of "Test predictions" in [runMLTesting]. *)
Definition testStep (st : TestState) (testFeatures : TradingFeatures) : TestState :=
  let '(prediction, ml1) := Predict (tested st) testFeatures in
  let actualDirection :=
    if FutureReturn testFeatures >? Fin (1 / 1000) then 1%Z
    else if FutureReturn testFeatures <? Fin (- (1 / 1000)) then (-1)%Z else 0%Z in
  let predictedDirection :=
    if String.eqb (Direction prediction) "BUY" then 1%Z
    else if String.eqb (Direction prediction) "SELL" then (-1)%Z else 0%Z in
  {| tested := ml1;
     correct := if (predictedDirection =? actualDirection)%Z
                then (correct st + 1)%Z else correct st;
     totalReturns := totalReturns st + FutureReturn testFeatures;
     predictedReturns :=
       if String.eqb (Direction prediction) "BUY" && (FutureReturn testFeatures >? Fin 0)
       then predictedReturns st + FutureReturn testFeatures
       else if String.eqb (Direction prediction) "SELL"
               && (FutureReturn testFeatures <? Fin 0)
       then predictedReturns st + fneg (FutureReturn testFeatures)
       else predictedReturns st |}.

(** The loop over [testData]. *)
Definition testPredictions (ml : MLModel) (testData : list TradingFeatures) : TestState :=
  fold_left testStep testData
    {| tested := ml; correct := 0; totalReturns := Fin 0; predictedReturns := Fin 0 |}.

Section Comparison.
Context {lib : Library}.

(** The reading of [time.Now()] inside the call of [ExtractFeatures] for
    the index [i]. *)
Variable clock : Z -> Time.

(** One iteration of "Train ML model first" in [runMLComparison]. *)
Definition collectStep (klines : list Kline) (ts : TimeSeries) (ml : MLModel) (i : Z)
  : MLModel :=
  match ExtractFeatures ml ts i (clock i) with
  | None => ml
  | Some features =>
    let features1 :=
      if (i + 5 <? Z.of_nat (length klines))%Z then
        let currentPrice := closeAt klines i in
        let futurePrice := closeAt klines (i + 5) in
        withFutureReturn features ((futurePrice - currentPrice) / currentPrice)
      else features in
    AddTrainingData ml features1
  end.

(** One iteration of "Simulate ML trading on remaining data". *)
Definition tradeStep (klines : list Kline) (ts : TimeSeries) (st : SimState) (i : Z)
  : SimState :=
  match ExtractFeatures (model st) ts i (clock i) with
  | None => st
  | Some features =>
    let '(prediction, ml1) := Predict (model st) features in
    let currentPrice := closeAt klines i in
    if String.eqb (Direction prediction) "BUY" && (position st =? Fin 0) then
      {| model := ml1; cash := Fin 0; position := cash st / currentPrice;
         mlTrades := (mlTrades st + 1)%Z; mlWins := mlWins st |}
    else if String.eqb (Direction prediction) "SELL" && (position st >? Fin 0) then
      let cash1 := position st * currentPrice in
      {| model := ml1; cash := cash1; position := Fin 0;
         mlTrades := (mlTrades st + 1)%Z;
         mlWins := if cash1 >? Fin 10000 then (mlWins st + 1)%Z else mlWins st |}
    else
      {| model := ml1; cash := cash st; position := position st;
         mlTrades := mlTrades st; mlWins := mlWins st |}
  end.

(** The model-based half of [runMLComparison] on the fetched klines;
    [trainTime] is the reading of the clock in [TrainModel] and [None] is
    the exit through [log.Fatalf]. *)
Definition simulateML (lookbackPeriod minTrainingPeriod : Z) (klines : list Kline)
    (trainTime : Time) : option MLOutcome :=
  let mlConfig :=
    {| LookbackPeriod := lookbackPeriod; TrainingRatio := Fin (8 / 10);
       MinTrainingPeriod := minTrainingPeriod; RetrainingPeriod := 60;
       FeatureWindow := 30 |} in
  let ts := seriesOf klines in
  let n := Z.of_nat (length klines) in
  let collected :=
    fold_left (collectStep klines ts)
              (indexRange (FeatureWindow mlConfig) (n / 2 - FeatureWindow mlConfig))
              (NewMLModel mlConfig) in
  match TrainModel collected trainTime with
  | (Some _, _) => None
  | (None, trained) =>
    let st :=
      fold_left (tradeStep klines ts) (indexRange (n / 2) (n - 5 - n / 2))
        {| model := trained; cash := Fin 10000; position := Fin 0;
           mlTrades := 0; mlWins := 0 |} in
    let cash1 :=
      if position st >? Fin 0 then position st * closeAt klines (n - 1) else cash st in
    Some {| mlFinalValue := cash1;
            mlReturn := (cash1 - Fin 10000) / Fin 10000 * Fin 100;
            mlWinRate :=
              if (0 <? mlTrades st)%Z
              then ofZ (mlWins st) / ofZ (mlTrades st) * Fin 100 else Fin 0;
            outcomeTrades := mlTrades st; outcomeWins := mlWins st |}
  end.

End Comparison.

End MLCli.

(* ===================================================================== *)
(** ** Sample inputs *)
(* ===================================================================== *)

Module Samples.
Import Techan.

(** A candle whose four prices are [p]. *)
Definition flatCandle (p : Z) : Candle :=
  {| Period := {| Start := 0%Z; End := 0%Z |};
     OpenPrice := inject_Z p; ClosePrice := inject_Z p;
     MaxPrice := inject_Z p; MinPrice := inject_Z p; Volume := 0%Q |}.

Definition seriesOfCloses (l : list Z) : TimeSeries := map flatCandle l.

Fixpoint falling (n : nat) (p : Z) : list Z :=
  match n with
  | O => []
  | S n' => p :: falling n' (p - 2)%Z
  end.

(** 74 closes: sixty falling 320, 318, ..., 202, then a rise in zigzag. *)
Definition recoveryCloses : list Z :=
  falling 60 320 ++
  [200; 206; 203; 209; 206; 212; 209; 215; 212; 218; 215; 221; 218; 224]%Z.

Definition recovery : TimeSeries := seriesOfCloses recoveryCloses.

Fixpoint rising (n : nat) (p : Z) : list Z :=
  match n with
  | O => []
  | S n' => p :: rising n' (p + 2)%Z
  end.

(** 74 closes: sixty rising 200, 202, ..., 318, then a fall in zigzag. *)
Definition toppingCloses : list Z :=
  rising 60 200 ++
  [320; 314; 317; 311; 314; 308; 311; 305; 308; 302; 305; 299; 302; 296]%Z.

Definition topping : TimeSeries := seriesOfCloses toppingCloses.

Definition flatKline (t : Z) (p : Z) : Backtest.Kline :=
  {| Backtest.OpenTime := t; Backtest.Open := inject_Z p; Backtest.High := inject_Z p;
     Backtest.Low := inject_Z p; Backtest.Close := inject_Z p;
     Backtest.CloseTime := (t + 1)%Z |}.

Definition flatKlines (n : nat) (p : Z) : list Backtest.Kline :=
  map (fun k => flatKline (Z.of_nat k) p) (seq 0 n).

Definition sampleConfig : Backtest.BacktestConfig :=
  {| Backtest.Symbol := "BTCUSDT"; Backtest.InitialBalance := Fin 10000;
     Backtest.TransactionFee := Fin (1 / 1000);
     Backtest.StartDate := 0%Z; Backtest.EndDate := 0%Z;
     Backtest.Interval := "15m"; Backtest.DataLimit := 500%Z |}.

(** The same configuration with nothing to invest. *)
Definition emptyPurseConfig : Backtest.BacktestConfig :=
  {| Backtest.Symbol := "BTCUSDT"; Backtest.InitialBalance := Fin 0;
     Backtest.TransactionFee := Fin (1 / 1000);
     Backtest.StartDate := 0%Z; Backtest.EndDate := 0%Z;
     Backtest.Interval := "15m"; Backtest.DataLimit := 500%Z |}.

Definition sampleMLConfig : MLStrategy.MLConfig :=
  {| MLStrategy.LookbackPeriod := 1000; MLStrategy.TrainingRatio := Fin (8 / 10);
     MLStrategy.MinTrainingPeriod := 100; MLStrategy.RetrainingPeriod := 60;
     MLStrategy.FeatureWindow := 30 |}.

(** A model whose only weight is a bias of 1 and whose buffer is empty. *)
Definition biasedModel : MLStrategy.MLModel :=
  MLStrategy.withWeights (MLStrategy.NewMLModel sampleMLConfig) {[ "bias" := Fin 1 ]}.

(** A model with 50 buffered samples and a minimum of 100. *)
Definition model50 : MLStrategy.MLModel :=
  MLStrategy.withFeatures (MLStrategy.NewMLModel sampleMLConfig)
    (repeat MLStrategy.zeroFeatures 50).

(** A model with 100 buffered samples, as many as its minimum. *)
Definition model100 : MLStrategy.MLModel :=
  MLStrategy.withFeatures (MLStrategy.NewMLModel sampleMLConfig)
    (repeat MLStrategy.zeroFeatures 100).

(** An empty model whose feature window is 20 bars. *)
Definition window20Model : MLStrategy.MLModel :=
  MLStrategy.NewMLModel
    {| MLStrategy.LookbackPeriod := 1000; MLStrategy.TrainingRatio := Fin (8 / 10);
       MLStrategy.MinTrainingPeriod := 100; MLStrategy.RetrainingPeriod := 60;
       MLStrategy.FeatureWindow := 20 |}.

(** [n] bars at the price 100. *)
Definition flatSeries (n : nat) : TimeSeries := seriesOfCloses (repeat 100%Z n).

End Samples.

(* ===================================================================== *)
(** ** Notions used in the statements *)
(* ===================================================================== *)

Module Notions.
Import Techan.

Section Rules.
Context {lib : Library}.

Local Open Scope Q_scope.

(** The signal line of the MACD: its 9-period EMA. *)
Definition signalLine (ts : TimeSeries) : Indicator :=
  NewEMAIndicator (NewMACDIndicator (NewClosePriceIndicator ts) 12 26) 9.

(** EMA9 was at or below EMA21 on the previous bar and is above it now. *)
Definition crossesAbove (ts : TimeSeries) : Prop :=
  let c := NewClosePriceIndicator ts in
  let i := LastIndex ts in
  NewEMAIndicator c 9 (i - 1)%Z <= NewEMAIndicator c 21 (i - 1)%Z /\
  NewEMAIndicator c 21 i < NewEMAIndicator c 9 i.

(** EMA9 was at or above EMA21 on the previous bar and is below it now. *)
Definition crossesBelow (ts : TimeSeries) : Prop :=
  let c := NewClosePriceIndicator ts in
  let i := LastIndex ts in
  NewEMAIndicator c 21 (i - 1)%Z <= NewEMAIndicator c 9 (i - 1)%Z /\
  NewEMAIndicator c 9 i < NewEMAIndicator c 21 i.

Definition rsiNow (ts : TimeSeries) : Q :=
  NewRelativeStrengthIndexIndicator (NewClosePriceIndicator ts) 14 (LastIndex ts).

Definition macdNow (ts : TimeSeries) : Q :=
  NewMACDIndicator (NewClosePriceIndicator ts) 12 26 (LastIndex ts).

(** The BUY rule as the specification words it. *)
Definition specBuy (ts : TimeSeries) : Prop :=
  crossesAbove ts /\ rsiNow ts < 70 /\ signalLine ts (LastIndex ts) < macdNow ts.

(** The SELL rule as the specification words it. *)
Definition specSell (ts : TimeSeries) : Prop :=
  crossesBelow ts /\ 30 < rsiNow ts /\ macdNow ts < signalLine ts (LastIndex ts).
End Rules.

Section Loop.
Context {lib : Library}.
Import Backtest.

(** The loop state after the first [k] iterations (indices 26 .. 26+k-1). *)
Definition loopPrefix (UseMLAnalyze : bool) (be : BacktestEngine)
    (klines : list Kline) (k : nat) : LoopState :=
  fold_left (loopBody UseMLAnalyze klines (seriesOf klines) (pricesOf klines))
            (seq 26 k) (initialLoopState be).
End Loop.

(** The ledger of a run: finite non-negative cash, and either no position
    or one positive position in the configured symbol with no cash left. *)
Definition ledgerOk (be : Backtest.BacktestEngine) : Prop :=
  exists c : R,
    Backtest.Cash (Backtest.portfolio be) = Fin c /\ (0 <= c)%R /\
    (Backtest.Holdings (Backtest.portfolio be) = ∅ \/
     exists q : R,
       Backtest.Holdings (Backtest.portfolio be)
       = {[ Backtest.Symbol (Backtest.config be) := Fin q ]} /\
       (0 < q)%R /\ c = 0%R).

(** A freshly created engine, whatever its recorded start and end times. *)
Definition fresh (be : Backtest.BacktestEngine) : Prop :=
  Backtest.portfolio be
  = Backtest.portfolio (Backtest.NewBacktestEngine (Backtest.config be)) /\
  Backtest.trades be = [].

(** The execution rule of one step with fee rate [f]: what the signal does to
    the engine [be] (the engine of the step once the last price is refreshed),
    giving [be']. *)
Definition executionRule (f : R) (signal : string) (price : float64)
    (be be' : Backtest.BacktestEngine) : Prop :=
  let sym := Backtest.Symbol (Backtest.config be) in
  let pf := Backtest.portfolio be in
  let pf' := Backtest.portfolio be' in
  (* BUY with no holding: all the cash becomes quantity at price + price*f *)
  (signal = "BUY" -> Backtest.Holdings pf !! sym = None ->
   Backtest.Cash pf' = Fin 0 /\
   Backtest.mapGet (Backtest.Holdings pf') sym
   = (Backtest.Cash pf / (price + price * Fin f))%f64) /\
  (* SELL with a holding: the whole position is sold, the fee deducted *)
  (signal = "SELL" -> forall q : float64, Backtest.Holdings pf !! sym = Some q ->
   Backtest.Holdings pf' !! sym = None /\
   Backtest.Cash pf' = (Backtest.Cash pf + (q * price - q * price * Fin f))%f64 /\
   exists tr : Backtest.Trade,
     Backtest.trades be' = Backtest.trades be ++ [tr] /\
     Backtest.TradeType tr = "SELL" /\
     Backtest.Quantity tr = q /\
     Backtest.Fee tr = (q * price * Fin f)%f64) /\
  (* every other combination: nothing changes *)
  (~ (signal = "BUY" /\ Backtest.Holdings pf !! sym = None) ->
   ~ (signal = "SELL" /\ is_Some (Backtest.Holdings pf !! sym)) ->
   be' = be).

(** A trade log that alternates BUY, SELL, BUY, ... from a BUY; the flag
    tells whether its last entry is a BUY not yet followed by a SELL. *)
Inductive tradeLog : list Backtest.Trade -> bool -> Prop :=
| log_empty : tradeLog [] false
| log_buy (l : list Backtest.Trade) (tr : Backtest.Trade) :
    tradeLog l false -> Backtest.TradeType tr = "BUY" -> tradeLog (l ++ [tr]) true
| log_sell (l : list Backtest.Trade) (tr : Backtest.Trade) :
    tradeLog l true -> Backtest.TradeType tr = "SELL" -> tradeLog (l ++ [tr]) false.

(** The statistics of a loop state with initial balance [b]: a finite peak
    [M >= b], a finite drawdown between 0 and the peak, equity points
    between 0 and the peak, finite returns. *)
Definition statsOk (b : R) (st : Backtest.LoopState) : Prop :=
  exists M D : R,
    Backtest.maxValue st = Fin M /\ Backtest.maxDrawdown st = Fin D /\
    (0 <= D <= M)%R /\ (b <= M)%R /\
    Forall (fun v => exists x : R, v = Fin x /\ (0 <= x <= M)%R)
           (Backtest.equityCurve st) /\
    Forall (fun r => isFinite r = true) (Backtest.dailyReturns st).

(** The trade log matches the holdings: closed when nothing is held, open
    on a BUY when the position is held. *)
Definition logOk (be : Backtest.BacktestEngine) : Prop :=
  (Backtest.Holdings (Backtest.portfolio be) = ∅ /\
   tradeLog (Backtest.trades be) false) \/
  (Backtest.Holdings (Backtest.portfolio be) <> ∅ /\
   tradeLog (Backtest.trades be) true).

(** The engine as [RunBacktest] runs it: the start and end times are those
    of the first and last kline. *)
Definition timedEngine (be : Backtest.BacktestEngine) (klines : list Backtest.Kline)
  : Backtest.BacktestEngine :=
  {| Backtest.config := Backtest.config be;
     Backtest.portfolio := Backtest.portfolio be;
     Backtest.trades := Backtest.trades be;
     Backtest.startTime := nth 0 (map Backtest.OpenTime klines) 0%Z;
     Backtest.endTime := nth (length klines - 1) (map Backtest.CloseTime klines) 0%Z |}.

(** The statistics with which the pairing of trades starts. *)
Definition noStats : Backtest.TradeStats :=
  {| Backtest.buyTrades := []; Backtest.winningTrades := 0; Backtest.losingTrades := 0;
     Backtest.totalWins := Fin 0; Backtest.totalLosses := Fin 0 |}.

(** Every numeric field of a feature record is a finite number. *)
Definition finiteFeatures (f : MLStrategy.TradingFeatures) : Prop :=
  Forall (fun v => isFinite v = true)
    [MLStrategy.PriceChange1 f; MLStrategy.PriceChange5 f; MLStrategy.PriceChange10 f;
     MLStrategy.RSI f; MLStrategy.EMA9 f; MLStrategy.EMA21 f; MLStrategy.EMASpread f;
     MLStrategy.MACD f; MLStrategy.MACDSignal f; MLStrategy.MACDHistogram f;
     MLStrategy.VolumeRatio f; MLStrategy.VolumeMA f; MLStrategy.ATR f;
     MLStrategy.BollingerWidth f; MLStrategy.BollingerPosition f;
     MLStrategy.HighLowRatio f; MLStrategy.CandleBody f; MLStrategy.CandleWick f;
     MLStrategy.HourOfDay f; MLStrategy.DayOfWeek f; MLStrategy.FutureReturn f].

(** The features that [ExtractFeatures] computes itself, without the
    indicator library. *)
Definition localFeatures (f : MLStrategy.TradingFeatures) : list float64 :=
  [MLStrategy.PriceChange1 f; MLStrategy.PriceChange5 f; MLStrategy.PriceChange10 f;
   MLStrategy.VolumeRatio f; MLStrategy.VolumeMA f; MLStrategy.ATR f;
   MLStrategy.BollingerWidth f; MLStrategy.BollingerPosition f;
   MLStrategy.HighLowRatio f; MLStrategy.CandleBody f; MLStrategy.CandleWick f].

(** Every stored weight is a finite number. *)
Definition finiteWeights (w : gmap string float64) : Prop :=
  forall (name : string) (v : float64), w !! name = Some v -> isFinite v = true.

(** A finite number between 0 and 1. *)
Definition isRate (x : float64) : Prop :=
  exists r : R, x = Fin r /\ (0 <= r <= 1)%R.

(** A number that is not NaN and not negative (it may be +Inf). *)
Definition notNegative (x : float64) : Prop :=
  x = PInf \/ exists r : R, x = Fin r /\ (0 <= r)%R.

(** Weights as training leaves them: all finite, the bias among them. *)
Definition goodWeights (w : gmap string float64) : Prop :=
  finiteWeights w /\ is_Some (w !! "bias").

(** Two models that differ at most in weights, statistics and performance. *)
Definition sameBuffer (ml ml' : MLStrategy.MLModel) : Prop :=
  MLStrategy.config ml' = MLStrategy.config ml /\
  MLStrategy.features ml' = MLStrategy.features ml /\
  MLStrategy.lastTraining ml' = MLStrategy.lastTraining ml /\
  MLStrategy.trainingCount ml' = MLStrategy.trainingCount ml /\
  MLStrategy.l2Lambda ml' = MLStrategy.l2Lambda ml.

End Notions.

(* ===================================================================== *)
(** ** Facts about float64 *)
(* ===================================================================== *)

Module Float64Facts.

Local Open Scope R_scope.

Lemma Rltb_true (a b : R) : Rltb a b = true <-> a < b.
Proof. unfold Rltb. destruct (Rlt_dec a b); split; intros; try easy. Qed.

Lemma Rltb_false (a b : R) : Rltb a b = false <-> b <= a.
Proof.
  unfold Rltb. destruct (Rlt_dec a b); split; intros; try easy; lra.
Qed.

Lemma Reqb_true (a b : R) : Reqb a b = true <-> a = b.
Proof. unfold Reqb. destruct (Req_dec_T a b); split; intros; try easy. Qed.

Lemma Reqb_false (a b : R) : Reqb a b = false <-> a <> b.
Proof. unfold Reqb. destruct (Req_dec_T a b); split; intros; try easy. Qed.

Lemma fdiv_fin (a b : R) : b <> 0 -> fdiv (Fin a) (Fin b) = Fin (a / b).
Proof. intros H. simpl. apply Reqb_false in H. rewrite H. reflexivity. Qed.

Lemma flt_fin (a b : R) : flt (Fin a) (Fin b) = true <-> a < b.
Proof. simpl. apply Rltb_true. Qed.

Lemma flt_fin_false (a b : R) : flt (Fin a) (Fin b) = false <-> b <= a.
Proof. simpl. apply Rltb_false. Qed.

Lemma fgt_fin (a b : R) : fgt (Fin a) (Fin b) = true <-> b < a.
Proof. unfold fgt. apply flt_fin. Qed.

Lemma fgt_fin_false (a b : R) : fgt (Fin a) (Fin b) = false <-> a <= b.
Proof. unfold fgt. apply flt_fin_false. Qed.

Lemma feq_fin (a b : R) : feq (Fin a) (Fin b) = true <-> a = b.
Proof. simpl. apply Reqb_true. Qed.

Lemma fne_fin (a b : R) : fne (Fin a) (Fin b) = true <-> a <> b.
Proof. unfold fne. rewrite negb_true_iff. simpl. apply Reqb_false. Qed.

Lemma fne_fin_false (a b : R) : fne (Fin a) (Fin b) = false <-> a = b.
Proof. unfold fne. rewrite negb_false_iff. simpl. apply Reqb_true. Qed.

Lemma fle_fin (a b : R) : fle (Fin a) (Fin b) = true <-> a <= b.
Proof.
  unfold fle. rewrite orb_true_iff, flt_fin, feq_fin. lra.
Qed.

Lemma fle_fin_false (a b : R) : fle (Fin a) (Fin b) = false <-> b < a.
Proof.
  unfold fle. rewrite orb_false_iff, flt_fin_false. simpl. rewrite Reqb_false. lra.
Qed.

Lemma Fin_inj (a b : R) : Fin a = Fin b <-> a = b.
Proof. split; [intros H; injection H; auto | intros ->; reflexivity]. Qed.

Lemma sanitize_fin (r : R) : MLStrategy.sanitize (Fin r) = Fin r.
Proof. reflexivity. Qed.

Lemma sanitize_finite (x : float64) : isFinite (MLStrategy.sanitize x) = true.
Proof. destruct x; reflexivity. Qed.

Lemma sqrt252_pos : 0 < sqrt 252.
Proof. apply sqrt_lt_R0. lra. Qed.

Lemma sqrt252_gt_1 : 1 < sqrt 252.
Proof. rewrite <- sqrt_1 at 1. apply sqrt_lt_1; lra. Qed.

End Float64Facts.

(* ===================================================================== *)
(** ** Properties of the strategy (analyze.go) *)
(* ===================================================================== *)

Module AnalyzeProofs.
Import Techan Analyze Notions.

Local Open Scope Q_scope.

Lemma Qltb_lt (a b : Q) : Qltb a b = true <-> a < b.
Proof.
  unfold Qltb. rewrite negb_true_iff.
  split.
  - intros H. apply Qnot_le_lt. intros Hle.
    apply Qle_bool_iff in Hle. congruence.
  - intros H. destruct (Qle_bool b a) eqn:E; [|reflexivity].
    apply Qle_bool_iff in E. exfalso. apply (Qlt_not_le _ _ H E).
Qed.

Lemma LastIndex_lt_26 (ts : TimeSeries) :
  (LastIndex ts <? 26)%Z = true <-> (length ts < 27)%nat.
Proof. unfold LastIndex. rewrite Z.ltb_lt. lia. Qed.

Section Generic.
Context {lib : Library}.

(** Fewer than 27 bars: WAIT. *)
Lemma analyzeClassic_wait (symbol : string) (ts : TimeSeries) :
  (length ts < 27)%nat -> analyzeClassic symbol ts = "WAIT".
Proof.
  intros H. unfold analyzeClassic.
  apply LastIndex_lt_26 in H. rewrite H. reflexivity.
Qed.

(** The comparison of the MACD with [macdSignal], which is the histogram,
    is a sign test of the signal line. *)
Lemma histogram_below_macd (ts : TimeSeries) (i : Z) :
  let macd := NewMACDIndicator (NewClosePriceIndicator ts) 12 26 in
  Qltb (NewMACDHistogramIndicator macd 9 i) (macd i) = true <-> 0 < signalLine ts i.
Proof.
  cbv zeta. rewrite Qltb_lt. unfold NewMACDHistogramIndicator, NewDifferenceIndicator,
    signalLine. split; intros H; lra.
Qed.

Lemma histogram_above_macd (ts : TimeSeries) (i : Z) :
  let macd := NewMACDIndicator (NewClosePriceIndicator ts) 12 26 in
  Qltb (macd i) (NewMACDHistogramIndicator macd 9 i) = true <-> signalLine ts i < 0.
Proof.
  cbv zeta. rewrite Qltb_lt. unfold NewMACDHistogramIndicator, NewDifferenceIndicator,
    signalLine. split; intros H; lra.
Qed.

(** With 27 bars or more, BUY is returned exactly on an upward cross with
    RSI below 70 and a positive signal line. *)
Lemma analyzeClassic_buy_iff (symbol : string) (ts : TimeSeries) :
  (27 <= length ts)%nat ->
  analyzeClassic symbol ts = "BUY" <->
  crossesAbove ts /\ rsiNow ts < 70 /\ 0 < signalLine ts (LastIndex ts).
Proof.
  intros Hlen. unfold analyzeClassic.
  destruct (LastIndex ts <? 26)%Z eqn:E.
  { apply LastIndex_lt_26 in E. lia. }
  cbv zeta.
  pose proof (histogram_below_macd ts (LastIndex ts)) as Hh. cbv zeta in Hh.
  unfold crossesAbove, rsiNow. cbv zeta.
  rewrite <- Hh, <- !Qltb_lt, <- Qle_bool_iff.
  match goal with
  | |- (if ?c then _ else _) = _ <-> _ => destruct c eqn:Ec
  end.
  - rewrite !andb_true_iff in Ec. tauto.
  - split.
    + intros H.
      match type of H with
      | (if ?c then _ else _) = _ => destruct c; discriminate
      end.
    + intros [[H1 H2] [H3 H4]]. rewrite H1, H2, H3, H4 in Ec. discriminate.
Qed.

(** SELL is returned exactly on a downward cross with RSI above 30 and a
    negative signal line. *)
Lemma analyzeClassic_sell_iff (symbol : string) (ts : TimeSeries) :
  (27 <= length ts)%nat ->
  analyzeClassic symbol ts = "SELL" <->
  crossesBelow ts /\ 30 < rsiNow ts /\ signalLine ts (LastIndex ts) < 0.
Proof.
  intros Hlen. unfold analyzeClassic.
  destruct (LastIndex ts <? 26)%Z eqn:E.
  { apply LastIndex_lt_26 in E. lia. }
  cbv zeta.
  pose proof (histogram_above_macd ts (LastIndex ts)) as Hh. cbv zeta in Hh.
  unfold crossesBelow, rsiNow. cbv zeta.
  rewrite <- Hh, <- !Qltb_lt, <- Qle_bool_iff.
  match goal with
  | |- (if ?c then _ else _) = _ <-> _ => destruct c eqn:Ec
  end.
  - split; [discriminate|].
    intros [[H1 H2] [H3 H4]].
    rewrite !andb_true_iff in Ec. destruct Ec as [[[E1 E2] E3] E4].
    apply Qltb_lt in E1, H2. lra.
  - match goal with
    | |- (if ?c then _ else _) = _ <-> _ => destruct c eqn:Ec2
    end.
    + rewrite !andb_true_iff in Ec2. tauto.
    + split; [discriminate|].
      intros [[H1 H2] [H3 H4]]. rewrite H1, H2, H3, H4 in Ec2. discriminate.
Qed.

(** The strategy answers one of its four signals. *)
Lemma analyzeClassic_range (symbol : string) (ts : TimeSeries) :
  In (analyzeClassic symbol ts) ["WAIT"; "BUY"; "SELL"; "HOLD"].
Proof.
  unfold analyzeClassic.
  destruct (LastIndex ts <? 26)%Z; [simpl; tauto|]. cbv zeta.
  repeat match goal with
         | |- context [if ?c then _ else _] => destruct c
         end; simpl; tauto.
Qed.

End Generic.

(** C5 (defect).  On the 74-bar recovery series the specified BUY rule is met
    (EMA9 crosses above EMA21, RSI(14) < 70, MACD above its signal line), yet
    [analyzeClassic] answers HOLD: it compares the MACD with the MACD
    histogram, which tests the sign of the signal line, here negative. *)
Theorem analyzeClassic_tests_histogram_not_signal :
  @specBuy reference Samples.recovery /\
  (@signalLine reference Samples.recovery (LastIndex Samples.recovery) < 0) /\
  @analyzeClassic reference "BTCUSDT" Samples.recovery = "HOLD".
Proof.
  assert (Hc : (@crossesAbove reference Samples.recovery)).
  { unfold crossesAbove. cbv zeta. rewrite <- Qle_bool_iff, <- Qltb_lt.
    split; vm_compute; reflexivity. }
  assert (Hr : @rsiNow reference Samples.recovery < 70).
  { rewrite <- Qltb_lt. vm_compute. reflexivity. }
  assert (Hm : @signalLine reference Samples.recovery (LastIndex Samples.recovery)
               < @macdNow reference Samples.recovery).
  { rewrite <- Qltb_lt. vm_compute. reflexivity. }
  assert (Hs : @signalLine reference Samples.recovery (LastIndex Samples.recovery) < 0).
  { rewrite <- Qltb_lt. vm_compute. reflexivity. }
  split; [exact (conj Hc (conj Hr Hm))|].
  split; [exact Hs|].
  vm_compute. reflexivity.
Qed.

(** The mirror image: on the 74-bar topping series the specified SELL rule
    is met and the answer is HOLD, the signal line being positive. *)
Example analyzeClassic_misses_sell :
  @specSell reference Samples.topping /\
  (0 < @signalLine reference Samples.topping (LastIndex Samples.topping)) /\
  @analyzeClassic reference "BTCUSDT" Samples.topping = "HOLD".
Proof.
  assert (Hc : (@crossesBelow reference Samples.topping)).
  { unfold crossesBelow. cbv zeta. rewrite <- Qle_bool_iff, <- Qltb_lt.
    split; vm_compute; reflexivity. }
  assert (Hr : 30 < @rsiNow reference Samples.topping).
  { rewrite <- Qltb_lt. vm_compute. reflexivity. }
  assert (Hm : @macdNow reference Samples.topping
               < @signalLine reference Samples.topping (LastIndex Samples.topping)).
  { rewrite <- Qltb_lt. vm_compute. reflexivity. }
  assert (Hs : 0 < @signalLine reference Samples.topping (LastIndex Samples.topping)).
  { rewrite <- Qltb_lt. vm_compute. reflexivity. }
  split; [exact (conj Hc (conj Hr Hm))|].
  split; [exact Hs|].
  vm_compute. reflexivity.
Qed.

Example analyzeClassic_short_series :
  @analyzeClassic reference "BTCUSDT" (Samples.flatSeries 26) = "WAIT".
Proof. vm_compute. reflexivity. Qed.

Example analyzeClassic_flat_series :
  @analyzeClassic reference "BTCUSDT" (Samples.flatSeries 27) = "HOLD".
Proof. vm_compute. reflexivity. Qed.

Example refEMA_flat :
  refEMA (NewClosePriceIndicator (Samples.flatSeries 30)) 9%Z 29%Z == 100.
Proof. vm_compute. reflexivity. Qed.

Example refRSI_flat :
  refRSI (NewClosePriceIndicator (Samples.flatSeries 30)) 14%Z 29%Z == 100.
Proof. vm_compute. reflexivity. Qed.

End AnalyzeProofs.

(* ===================================================================== *)
(** ** Properties of the backtest engine (backtest.go) *)
(* ===================================================================== *)

Module BacktestProofs.
Import Techan Analyze Backtest Float64Facts Samples Notions.

Local Open Scope R_scope.

(** *** The sub-series of a step *)

Lemma fold_left_snoc {A B : Type} (g : B -> A) (l : list B) (init : list A) :
  fold_left (fun acc x => acc ++ [g x]) l init = init ++ map g l.
Proof.
  revert init. induction l as [|x l IH]; intros init; simpl.
  - rewrite app_nil_r. reflexivity.
  - rewrite IH, <- app_assoc. reflexivity.
Qed.

Lemma seriesOf_map (klines : list Kline) : seriesOf klines = map candleOf klines.
Proof. unfold seriesOf, AddCandle. apply (fold_left_snoc candleOf klines []). Qed.

Lemma pricesOf_map (klines : list Kline) :
  pricesOf klines = map (fun k => ofQ (Close k)) klines.
Proof. unfold pricesOf. apply (fold_left_snoc (fun k => ofQ (Close k)) klines []). Qed.

Lemma seriesOf_length (klines : list Kline) : length (seriesOf klines) = length klines.
Proof. rewrite seriesOf_map. apply length_map. Qed.

Lemma subSeries_map (ts : TimeSeries) (i : nat) :
  subSeries ts i = map (fun j => candleAt ts (Z.of_nat j)) (seq 0 (S i)).
Proof.
  unfold subSeries, AddCandle.
  apply (fold_left_snoc (fun j => candleAt ts (Z.of_nat j)) (seq 0 (S i)) []).
Qed.

Lemma candleAt_nat (ts : TimeSeries) (j : nat) :
  candleAt ts (Z.of_nat j) = nth j ts zeroCandle.
Proof.
  unfold candleAt. destruct (Z.of_nat j <? 0)%Z eqn:E.
  - apply Z.ltb_lt in E. lia.
  - rewrite Nat2Z.id. reflexivity.
Qed.

Lemma map_nth_seq {A : Type} (l : list A) (d : A) (n : nat) :
  (n <= length l)%nat -> map (fun j => nth j l d) (seq 0 n) = firstn n l.
Proof.
  revert l. induction n as [|n IH]; intros l Hn; [reflexivity|].
  destruct l as [|x l]; [simpl in Hn; lia|].
  simpl. f_equal. rewrite <- seq_shift, map_map. simpl.
  apply IH. simpl in Hn. lia.
Qed.

(** The sub-series of step [i] is the prefix of [i + 1] candles. *)
Lemma subSeries_firstn (ts : TimeSeries) (i : nat) :
  (i < length ts)%nat -> subSeries ts i = firstn (S i) ts.
Proof.
  intros H. rewrite subSeries_map.
  rewrite (map_ext _ (fun j => nth j ts zeroCandle)) by (intros; apply candleAt_nat).
  apply map_nth_seq. lia.
Qed.

Lemma loopIndices_in (klines : list Kline) (i : nat) :
  In i (loopIndices klines) <-> (26 <= i < length klines)%nat.
Proof. unfold loopIndices. rewrite in_seq. lia. Qed.



(** *** Rejected orders *)

(** C8.  A SELL for a symbol with no position, or with a position that is
    not positive, returns false and leaves the engine (cash, holdings, last
    prices and trade log) exactly as it was. *)
Theorem sell_without_holdings_is_noop (be : BacktestEngine) (symbol : string)
    (price : float64) (timestamp : Time) :
  (Holdings (portfolio be) !! symbol = None \/
   exists quantity, Holdings (portfolio be) !! symbol = Some quantity /\
                    fle quantity (Fin 0) = true) ->
  ExecuteTrade be symbol "SELL" price timestamp = (false, be).
Proof.
  intros H. unfold ExecuteTrade. cbn [String.eqb Ascii.eqb Bool.eqb].
  destruct H as [H | [q [H Hq]]]; rewrite H; [reflexivity|].
  rewrite Hq. reflexivity.
Qed.

Lemma sell_without_holdings_is_noop_witness :
  ExecuteTrade (NewBacktestEngine sampleConfig) "BTCUSDT" "SELL" (Fin 42750) 0%Z
  = (false, NewBacktestEngine sampleConfig).
Proof.
  apply sell_without_holdings_is_noop. left. reflexivity.
Defined.

(** *** All-in buying *)

Lemma cost_positive (p f : R) : 0 < p -> 0 <= f -> 0 < p + p * f.
Proof. intros. nra. Qed.

(** What a BUY does on finite inputs: rejected when the cash is not
    positive, otherwise the whole cash is converted. *)
Lemma buy_unfold (be : BacktestEngine) (symbol : string) (c p f : R) (t : Time) :
  Cash (portfolio be) = Fin c ->
  TransactionFee (config be) = Fin f -> 0 <= f -> 0 < p ->
  ExecuteTrade be symbol "BUY" (Fin p) t =
  if Rle_dec c 0 then (false, be)
  else
    let q := c / (p + p * f) in
    let pf :=
      {| Cash := Fin (c - (q * p + q * (p * f)));
         Holdings := <[symbol := fadd (mapGet (Holdings (portfolio be)) symbol) (Fin q)]>
                       (Holdings (portfolio be));
         LastPrices := <[symbol := Fin p]> (LastPrices (portfolio be)) |} in
    let be1 := withPortfolio be pf in
    (true,
     withTrades be1
       (trades be ++
        [{| TradeSymbol := symbol; TradeType := "BUY"; Price := Fin p;
            Quantity := Fin q; Timestamp := t; Fee := Fin (q * (p * f));
            Balance := Fin (c - (q * p + q * (p * f)));
            TotalValue := GetPortfolioValue be1 |}])).
Proof.
  intros Hc Hf Hf0 Hp.
  pose proof (cost_positive p f Hp Hf0) as Hcost.
  unfold ExecuteTrade. cbn [String.eqb Ascii.eqb Bool.eqb].
  rewrite Hc, Hf. cbn [fmul fadd].
  rewrite fdiv_fin by lra.
  destruct (Rle_dec c 0) as [Hle | Hgt].
  - assert (E : fle (Fin (c / (p + p * f))) (Fin 0) = true).
    { apply fle_fin. unfold Rdiv.
      assert (0 < / (p + p * f)) by (apply Rinv_0_lt_compat; lra). nra. }
    rewrite E. reflexivity.
  - assert (E : fle (Fin (c / (p + p * f))) (Fin 0) = false).
    { apply fle_fin_false. apply Rdiv_lt_0_compat; lra. }
    rewrite E. reflexivity.
Qed.

Lemma buy_rejected_without_cash (be : BacktestEngine) (symbol : string) (c p f : R)
    (t : Time) :
  Cash (portfolio be) = Fin c -> c <= 0 ->
  TransactionFee (config be) = Fin f -> 0 <= f -> 0 < p ->
  ExecuteTrade be symbol "BUY" (Fin p) t = (false, be).
Proof.
  intros Hc Hle Hf Hf0 Hp. rewrite (buy_unfold be symbol c p f t) by assumption.
  destruct (Rle_dec c 0); [reflexivity | contradiction].
Qed.

(** C10.  With finite cash, a fee rate [f >= 0] and a price [p > 0], a BUY
    that succeeds leaves the cash at exactly 0; every BUY that follows it
    directly computes a maximum quantity [<= 0] and is rejected; and nothing
    else stops a second purchase: on an engine that holds a position and has
    cash, BUY succeeds. *)
Theorem successful_buy_leaves_no_cash (be be' : BacktestEngine) (symbol : string)
    (c p f : R) (t : Time) :
  Cash (portfolio be) = Fin c ->
  TransactionFee (config be) = Fin f -> 0 <= f -> 0 < p ->
  ExecuteTrade be symbol "BUY" (Fin p) t = (true, be') ->
  Cash (portfolio be') = Fin 0 /\
  (forall (symbol2 : string) (p2 : R) (t2 : Time), 0 < p2 ->
     fle (fdiv (Cash (portfolio be'))
               (fadd (Fin p2) (fmul (Fin p2) (TransactionFee (config be')))))
         (Fin 0) = true /\
     ExecuteTrade be' symbol2 "BUY" (Fin p2) t2 = (false, be')) /\
  (forall (held : BacktestEngine) (q : float64) (c0 : R) (t0 : Time),
     config held = config be ->
     Holdings (portfolio held) !! symbol = Some q ->
     Cash (portfolio held) = Fin c0 -> 0 < c0 ->
     fst (ExecuteTrade held symbol "BUY" (Fin p) t0) = true).
Proof.
  intros Hc Hf Hf0 Hp Hex.
  pose proof (cost_positive p f Hp Hf0) as Hcost.
  rewrite (buy_unfold be symbol c p f t) in Hex by assumption.
  destruct (Rle_dec c 0) as [Hle | Hgt]; [discriminate|].
  cbv zeta in Hex. injection Hex as <-.
  assert (Hz : c - (c / (p + p * f) * p + c / (p + p * f) * (p * f)) = 0)
    by (field; lra).
  rewrite Hz. cbn [withTrades withPortfolio portfolio Cash config].
  split; [reflexivity|]. split.
  - intros symbol2 p2 t2 Hp2.
    pose proof (cost_positive p2 f Hp2 Hf0) as Hcost2.
    split.
    + rewrite Hf. cbn [fmul fadd]. rewrite fdiv_fin by lra. apply fle_fin.
      unfold Rdiv. lra.
    + apply (buy_rejected_without_cash _ symbol2 0 p2 f t2);
        [reflexivity | lra | exact Hf | exact Hf0 | exact Hp2].
  - intros held q c0 t0 Hcfg Hq Hc0 Hpos.
    rewrite (buy_unfold held symbol c0 p f t0); try assumption.
    + destruct (Rle_dec c0 0); [lra | reflexivity].
    + rewrite Hcfg. exact Hf.
Qed.

Lemma successful_buy_leaves_no_cash_witness :
  Cash (portfolio
          (snd (ExecuteTrade (NewBacktestEngine sampleConfig) "BTCUSDT" "BUY" (Fin 100) 0%Z)))
  = Fin 0.
Proof.
  refine (proj1 (successful_buy_leaves_no_cash (NewBacktestEngine sampleConfig) _
                   "BTCUSDT" 10000 100 (1 / 1000) 0%Z _ _ _ _ _)).
  - reflexivity.
  - reflexivity.
  - lra.
  - lra.
  - rewrite (buy_unfold _ "BTCUSDT" 10000 100 (1 / 1000) 0%Z);
      [| reflexivity | reflexivity | lra | lra].
    destruct (Rle_dec 10000 0); [lra|]. reflexivity.
Defined.

(** *** The simulation loop *)

Lemma tradeOnSignal_rule (be : BacktestEngine) (signal : string) (p f : R) (t : Time) :
  ledgerOk be ->
  TransactionFee (config be) = Fin f -> 0 <= f <= 1 -> 0 < p ->
  ledgerOk (tradeOnSignal be signal (Fin p) t) /\
  config (tradeOnSignal be signal (Fin p) t) = config be /\
  executionRule f signal (Fin p) be (tradeOnSignal be signal (Fin p) t).
Proof.
  intros Hok Hf [Hf0 Hf1] Hp.
  pose proof (cost_positive p f Hp Hf0) as Hcost.
  destruct Hok as [c [Hc [Hc0 Hh]]].
  unfold tradeOnSignal, executionRule. cbv zeta.
  destruct (String.eqb_spec signal "BUY") as [-> | Hnb].
  - (* BUY *)
    rewrite (buy_unfold be _ c p f t) by (try assumption).
    destruct (Rle_dec c 0) as [Hle | Hgt]; cbn [snd].
    + assert (c = 0) by lra. subst c.
      split; [exists 0; auto|]. split; [reflexivity|].
      split; [|split].
      * intros _ Hnone. split; [exact Hc|].
        unfold mapGet. rewrite Hnone, Hc. cbn [default fmul fadd].
        rewrite fdiv_fin by lra. apply Fin_inj. unfold Rdiv. lra.
      * intros Habs. discriminate Habs.
      * intros _ _. reflexivity.
    + destruct Hh as [Hempty | [q [_ [_ Hc00]]]]; [|lra].
      cbv zeta. cbn [withTrades withPortfolio portfolio config Cash Holdings trades].
      rewrite Hempty. unfold mapGet. rewrite lookup_empty. cbn [default fadd].
      rewrite insert_empty.
      split; [|split; [reflexivity|split; [|split]]].
      * exists (c - (c / (p + p * f) * p + c / (p + p * f) * (p * f))).
        split; [reflexivity|].
        assert (Hz : c - (c / (p + p * f) * p + c / (p + p * f) * (p * f)) = 0)
          by (field; lra).
        split; [lra|]. right. exists (0 + c / (p + p * f)).
        split; [reflexivity|]. split; [|exact Hz].
        assert (0 < c / (p + p * f)) by (apply Rdiv_lt_0_compat; lra). lra.
      * intros _ _. split.
        -- apply Fin_inj. field. lra.
        -- rewrite lookup_singleton_eq, Hc. cbn [default fmul fadd].
           rewrite fdiv_fin by lra. apply Fin_inj. lra.
      * intros Habs. discriminate Habs.
      * intros Hn _. exfalso. apply Hn. split; reflexivity.
  - destruct (String.eqb_spec signal "SELL") as [-> | Hns].
    + (* SELL *)
      unfold ExecuteTrade. cbn [String.eqb Ascii.eqb Bool.eqb].
      destruct Hh as [Hempty | [q [Hq [Hq0 Hc00]]]].
      * rewrite Hempty, lookup_empty. cbn [snd].
        split; [exists c; rewrite Hempty; auto|]. split; [reflexivity|].
        split; [|split].
        -- intros Habs. discriminate Habs.
        -- intros _ q Hq. discriminate Hq.
        -- intros _ _. reflexivity.
      * subst c. rewrite Hq, lookup_singleton_eq.
        assert (E : fle (Fin q) (Fin 0) = false) by (apply fle_fin_false; lra).
        rewrite E. cbn [snd withTrades withPortfolio portfolio config Cash Holdings trades].
        rewrite Hc, Hf, delete_singleton_eq. cbn [fmul fadd fsub fneg].
        split; [|split; [reflexivity|split; [|split]]].
        -- exists (0 + (q * p + - (q * (p * f)))).
           split; [reflexivity|].
           assert (0 <= q * p * (1 - f)) by (apply Rmult_le_pos; nra).
           split; [lra|]. left. reflexivity.
        -- intros Habs. discriminate Habs.
        -- intros _ q' Hq'. injection Hq' as <-. split; [apply lookup_empty|].
           cbn [fmul fadd fsub fneg]. split; [apply Fin_inj; ring|].
           eexists. split; [reflexivity|]. cbn [TradeType Quantity Fee].
           split; [reflexivity|]. split; [reflexivity|].
           cbn [fmul]. apply Fin_inj. ring.
        -- intros _ Hn. exfalso. apply Hn. split; [reflexivity|]. eauto.
    + (* HOLD, WAIT *)
      split; [exists c; auto|]. split; [reflexivity|].
      split; [|split].
      * intros Habs. contradiction.
      * intros Habs. contradiction.
      * intros _ _. reflexivity.
Qed.

Section LoopFacts.
Context {lib : Library}.
Variable UseMLAnalyze : bool.

Lemma loopPrefix_S (be : BacktestEngine) (klines : list Kline) (k : nat) :
  loopPrefix UseMLAnalyze be klines (S k)
  = loopBody UseMLAnalyze klines (seriesOf klines) (pricesOf klines)
             (loopPrefix UseMLAnalyze be klines k) (26 + k).
Proof. unfold loopPrefix. rewrite seq_S, fold_left_app. reflexivity. Qed.

Lemma runLoop_prefix (be : BacktestEngine) (klines : list Kline) :
  runLoop UseMLAnalyze be klines
  = loopPrefix UseMLAnalyze be klines (length klines - 26).
Proof. reflexivity. Qed.

Lemma equityCurve_length (be : BacktestEngine) (klines : list Kline) (k : nat) :
  length (equityCurve (loopPrefix UseMLAnalyze be klines k)) = k.
Proof.
  induction k as [|k IH]; [reflexivity|].
  rewrite loopPrefix_S. unfold loopBody. cbn [equityCurve].
  rewrite length_app, IH. simpl. lia.
Qed.

Lemma price_positive (klines : list Kline) (i : nat) :
  Forall (fun k => (0 < Close k)%Q) klines -> (i < length klines)%nat ->
  exists p : R, nth i (pricesOf klines) (Fin 0) = Fin p /\ 0 < p.
Proof.
  intros Hall Hi. rewrite pricesOf_map.
  destruct (nth_split klines {| OpenTime := 0; Open := 0; High := 0; Low := 0;
                                Close := 0; CloseTime := 0 |} Hi)
    as [l1 [l2 [Heq Hlen]]].
  set (k := nth i klines _) in *.
  rewrite Heq, map_app. cbn [map].
  rewrite <- Hlen. rewrite <- (length_map (fun k0 => ofQ (Close k0)) l1).
  rewrite nth_middle. exists (Q2R (Close k)). split; [reflexivity|].
  rewrite <- RMicromega.Q2R_0. apply Qlt_Rlt.
  rewrite Heq in Hall. apply Forall_app in Hall. destruct Hall as [_ Hall].
  inversion Hall; assumption.
Qed.

Lemma loop_step (be : BacktestEngine) (klines : list Kline) (f : R) (k : nat) :
TransactionFee (config be) = Fin f -> 0 <= f <= 1 ->
Forall (fun k => (0 < Close k)%Q) klines ->
(26 + k < length klines)%nat ->
let st := loopPrefix UseMLAnalyze be klines k in
let st' := loopBody UseMLAnalyze klines (seriesOf klines) (pricesOf klines)
                    st (26 + k) in
let price := nth (26 + k) (pricesOf klines) (Fin 0) in
ledgerOk (engine st) -> config (engine st) = config be ->
ledgerOk (engine st') /\ config (engine st') = config be /\
executionRule f
  (signalAt UseMLAnalyze (Symbol (config be)) (seriesOf klines) (26 + k))
  price (setLastPrice (engine st) (Symbol (config be)) price) (engine st').
Proof.
intros Hf Hfr Hall Hk st st' price Hok Hcfg.
destruct (price_positive klines (26 + k) Hall Hk) as [p [Hp Hp0]].
subst st' price. unfold loopBody. cbn [engine]. rewrite Hp.
change (config (setLastPrice (engine st) (Symbol (config (engine st))) (Fin p)))
  with (config (engine st)).
rewrite Hcfg.
set (be0 := setLastPrice (engine st) (Symbol (config be)) (Fin p)).
assert (Hok0 : ledgerOk be0) by exact Hok.
assert (Hcfg0 : config be0 = config be) by exact Hcfg.
destruct (tradeOnSignal_rule be0
            (signalAt UseMLAnalyze (Symbol (config be)) (seriesOf klines) (26 + k))
            p f (nth (26 + k) (map OpenTime klines) 0%Z) Hok0)
  as [H1 [H2 H3]]; [rewrite Hcfg0; exact Hf | exact Hfr | exact Hp0 |].
split; [exact H1|]. split; [rewrite H2; exact Hcfg0|]. exact H3.
Qed.

Lemma loop_invariant (be : BacktestEngine) (klines : list Kline) (b f : R) (k : nat) :
  fresh be -> InitialBalance (config be) = Fin b -> 0 <= b ->
  TransactionFee (config be) = Fin f -> 0 <= f <= 1 ->
  Forall (fun k => (0 < Close k)%Q) klines ->
  (26 + k <= length klines)%nat ->
  ledgerOk (engine (loopPrefix UseMLAnalyze be klines k)) /\
  config (engine (loopPrefix UseMLAnalyze be klines k)) = config be.
Proof.
  intros [Hfresh _] Hb Hb0 Hf Hfr Hall.
  induction k as [|k IH]; intros Hk.
  - split; [|reflexivity]. exists b. cbn [loopPrefix fold_left seq initialLoopState engine].
    unfold loopPrefix. cbn [seq fold_left initialLoopState engine].
    rewrite Hfresh. cbn [NewBacktestEngine portfolio Cash Holdings]. auto.
  - destruct IH as [Hok Hcfg]; [lia|].
    rewrite loopPrefix_S.
    destruct (loop_step be klines f k Hf Hfr Hall) as [H1 [H2 _]];
      [lia | exact Hok | exact Hcfg |].
    split; assumption.
Qed.

End LoopFacts.


Lemma flatKlines_positive (n : nat) (p : Z) :
  (0 < p)%Z -> Forall (fun k => (0 < Close k)%Q) (flatKlines n p).
Proof.
  intros Hp. unfold flatKlines. apply List.Forall_forall. intros k Hk.
  apply in_map_iff in Hk. destruct Hk as [j [<- _]].
  cbn [flatKline Close]. unfold Qlt. simpl. lia.
Qed.


(** *** Sharpe ratio *)

Lemma sharpe_few_returns (returns : list float64) :
  (length returns < 2)%nat -> sharpeRatioOf returns = Fin 0.
Proof.
  intros H. unfold sharpeRatioOf.
  destruct (1 <? length returns)%nat eqn:E; [|reflexivity].
  apply Nat.ltb_lt in E. lia.
Qed.

Lemma sharpe_zero_deviation (returns : list float64) :
  calculateStdDev returns (calculateMean returns) = Fin 0 ->
  sharpeRatioOf returns = Fin 0.
Proof.
  intros H. unfold sharpeRatioOf. rewrite H.
  destruct (1 <? length returns)%nat; [|reflexivity].
  assert (E : fgt (Fin 0) (Fin 0) = false) by (apply fgt_fin_false; lra).
  rewrite E. reflexivity.
Qed.

Lemma fold_fadd_zeros (l : list float64) (a : R) :
  Forall (fun v => v = Fin 0) l -> fold_left fadd l (Fin a) = Fin a.
Proof.
  intros H. revert a. induction H as [|v l -> _ IH]; intros a; [reflexivity|].
  cbn [fold_left fadd]. rewrite IH. apply Fin_inj. lra.
Qed.

Lemma fold_squares_zeros (l : list float64) (a : R) :
  Forall (fun v => v = Fin 0) l ->
  fold_left (fun acc v => fadd acc (fmul (fsub v (Fin 0)) (fsub v (Fin 0)))) l (Fin a)
  = Fin a.
Proof.
  intros H. revert a. induction H as [|v l -> _ IH]; intros a; [reflexivity|].
  cbn [fold_left fadd fsub fmul fneg]. rewrite IH. apply Fin_inj. lra.
Qed.

(** A series of zero returns has Sharpe ratio 0: the mean and the deviation
    are the finite number 0, and the division is not executed. *)
Lemma sharpe_all_zero (returns : list float64) :
  Forall (fun v => v = Fin 0) returns -> sharpeRatioOf returns = Fin 0.
Proof.
  intros H.
  destruct (lt_dec (length returns) 2) as [Hlt | Hge].
  { apply sharpe_few_returns. exact Hlt. }
  apply sharpe_zero_deviation.
  assert (Hm : calculateMean returns = Fin 0).
  { unfold calculateMean. destruct returns as [|v l]; [reflexivity|].
    rewrite fold_fadd_zeros by exact H. unfold ofZ.
    rewrite fdiv_fin.
    - apply Fin_inj. unfold Rdiv. lra.
    - apply not_0_IZR. simpl length. lia. }
  rewrite Hm. unfold calculateStdDev.
  destruct (length returns <=? 1)%nat eqn:E; [reflexivity|].
  rewrite fold_squares_zeros by exact H. unfold ofZ.
  rewrite fdiv_fin.
  - replace (0 / IZR (Z.of_nat (length returns) - 1)) with 0 by (unfold Rdiv; lra).
    cbn [fsqrt]. assert (E0 : Rltb 0 0 = false) by (apply Rltb_false; lra).
    rewrite E0, sqrt_0. reflexivity.
  - apply not_0_IZR. lia.
Qed.

(** With a finite mean [m] and a positive finite deviation [s], the code
    reports [m / s]: the factor sqrt(252) is applied to the numerator and to
    the denominator, and cancels.  The specified value is [m / s * sqrt 252]. *)
Lemma sharpe_on_finite (returns : list float64) (m s : R) :
  (1 < length returns)%nat ->
  calculateMean returns = Fin m ->
  calculateStdDev returns (Fin m) = Fin s ->
  0 < s ->
  sharpeRatioOf returns = Fin (m / s) /\
  specSharpe returns = Fin (m / s * sqrt 252).
Proof.
  intros Hlen Hm Hs Hpos. pose proof sqrt252_pos as Hq.
  unfold sharpeRatioOf, specSharpe. apply Nat.ltb_lt in Hlen. rewrite Hlen, Hm, Hs.
  assert (E : fgt (Fin s) (Fin 0) = true) by (apply fgt_fin; lra).
  rewrite E. cbn [fsqrt].
  assert (E0 : Rltb 252 0 = false) by (apply Rltb_false; lra).
  rewrite E0. cbn [fmul]. rewrite !fdiv_fin by nra.
  cbn [fmul]. split; apply Fin_inj; [field; lra | reflexivity].
Qed.

(** The Sharpe ratio of a result is that block applied to its returns. *)
Lemma RunBacktest_sharpe {lib : Library} (UseMLAnalyze : bool) (be be' : BacktestEngine)
    (fetched : option (list Kline)) (r : BacktestResult) :
  RunBacktest UseMLAnalyze be fetched = Some (r, be') ->
  SharpeRatio r = sharpeRatioOf (DailyReturns r).
Proof.
  unfold RunBacktest. destruct fetched as [[|k klines]|]; try discriminate.
  intros H. injection H as <- _. reflexivity.
Qed.

(** C2 (defect).  For the returns 0, 1, 2 (mean 1, sample deviation 1) the
    reported Sharpe ratio is 1, the specified one is sqrt(252): the code
    computes (mean * sqrt 252) / (stdDev * sqrt 252), which is not
    annualized. *)
Theorem sharpe_ratio_is_not_annualized :
  sharpeRatioOf [Fin 0; Fin 1; Fin 2] = Fin 1 /\
  specSharpe [Fin 0; Fin 1; Fin 2] = Fin (sqrt 252) /\
  sharpeRatioOf [Fin 0; Fin 1; Fin 2] <> specSharpe [Fin 0; Fin 1; Fin 2].
Proof.
  assert (Hm : calculateMean [Fin 0; Fin 1; Fin 2] = Fin 1).
  { unfold calculateMean, ofZ. cbn [fold_left fadd length].
    change (Z.of_nat 3) with 3%Z. rewrite fdiv_fin by lra. apply Fin_inj. lra. }
  assert (Hs : calculateStdDev [Fin 0; Fin 1; Fin 2] (Fin 1) = Fin 1).
  { unfold calculateStdDev, ofZ.
    cbn [length Nat.leb fold_left fadd fsub fmul fneg].
    change (Z.of_nat 3 - 1)%Z with 2%Z. rewrite fdiv_fin by lra.
    replace ((0 + (0 + - (1)) * (0 + - (1)) + (1 + - (1)) * (1 + - (1))
              + (2 + - (1)) * (2 + - (1))) / 2) with 1 by lra.
    cbn [fsqrt]. assert (E0 : Rltb 1 0 = false) by (apply Rltb_false; lra).
    rewrite E0, sqrt_1. reflexivity. }
  destruct (sharpe_on_finite [Fin 0; Fin 1; Fin 2] 1 1) as [Hcode Hspec];
    [simpl; lia | exact Hm | exact Hs | lra |].
  replace (1 / 1) with 1 in Hcode by lra.
  replace (1 / 1 * sqrt 252) with (sqrt 252) in Hspec by lra.
  split; [exact Hcode|]. split; [exact Hspec|].
  rewrite Hcode, Hspec. intros H. apply Fin_inj in H.
  pose proof sqrt252_gt_1. lra.
Qed.

End BacktestProofs.

(* ===================================================================== *)
(** ** Properties of the predictor (ml_strategy.go) *)
(* ===================================================================== *)

Module MLProofs.
Import Techan Analyze MLStrategy Float64Facts Samples Notions.

Local Open Scope R_scope.

(** *** Training on too little data *)

(** C7.  When the buffer holds fewer samples than [MinTrainingPeriod],
    [TrainModel] returns the insufficient-data error and the model it leaves
    is the model it was given: weights, feature statistics, training count,
    last-training time and performance are untouched. *)
Theorem train_insufficient_data_is_atomic (ml : MLModel) (now : Time) :
  (Z.of_nat (length (features ml)) < MinTrainingPeriod (config ml))%Z ->
  TrainModel ml now
  = (Some (InsufficientData (Z.of_nat (length (features ml)))
                            (MinTrainingPeriod (config ml))), ml) /\
  trainedWeights (snd (TrainModel ml now)) = trainedWeights ml /\
  featureStats (snd (TrainModel ml now)) = featureStats ml /\
  trainingCount (snd (TrainModel ml now)) = trainingCount ml /\
  lastTraining (snd (TrainModel ml now)) = lastTraining ml /\
  performance (snd (TrainModel ml now)) = performance ml.
Proof.
  intros H. apply Z.ltb_lt in H.
  assert (E : TrainModel ml now
              = (Some (InsufficientData (Z.of_nat (length (features ml)))
                                        (MinTrainingPeriod (config ml))), ml)).
  { unfold TrainModel. rewrite H. reflexivity. }
  rewrite E. cbn [snd]. repeat split; reflexivity.
Qed.

Lemma train_insufficient_data_is_atomic_witness :
  TrainModel model50 1000%Z = (Some (InsufficientData 50 100), model50).
Proof.
  refine (proj1 (train_insufficient_data_is_atomic model50 1000%Z _)).
  vm_compute. reflexivity.
Defined.

(** With enough data the call succeeds and stamps the time. *)
Lemma train_enough_data (ml : MLModel) (now : Time) :
  (MinTrainingPeriod (config ml) <= Z.of_nat (length (features ml)))%Z ->
  fst (TrainModel ml now) = None /\ lastTraining (snd (TrainModel ml now)) = now.
Proof.
  intros H. apply Z.ltb_ge in H. unfold TrainModel. rewrite H.
  split; reflexivity.
Qed.

(** *** Prediction and the model-based mode *)

Lemma biasedModel_normalize (name : string) (v : float64) :
  normalize biasedModel name v = Fin 0.
Proof. unfold normalize. cbn [biasedModel withWeights NewMLModel featureStats].
  rewrite lookup_empty. reflexivity. Qed.

(** The sample model predicts BUY on every feature vector. *)
Lemma biasedModel_predicts_buy (f : TradingFeatures) :
  Direction (fst (Predict biasedModel f)) = "BUY".
Proof.
  unfold Predict.
  assert (Hsize : size (trainedWeights biasedModel) = 1%nat).
  { cbn [biasedModel withWeights trainedWeights]. apply map_size_singleton. }
  rewrite Hsize. cbn [Nat.eqb].
  assert (Hn : NormalizeFeatures biasedModel f
               = (biasedModel,
                  snd (NormalizeFeatures biasedModel f))).
  { unfold NormalizeFeatures. cbn [snd]. f_equal. }
  rewrite Hn.
  assert (Hv : predictValue biasedModel (snd (NormalizeFeatures biasedModel f))
               = Fin (1 + 0 * 0 + 0 * 0 + 0 * 0 + 0 * 0 + 0 * 0 + 0 * 0 + 0 * 0
                      + 0 * 0 + 0 * 0)).
  { unfold NormalizeFeatures. cbn [snd].
    assert (Hstat : (if (size (featureStats biasedModel) =? 0)%nat
                     then calculateFeatureStats biasedModel else biasedModel)
                    = biasedModel) by reflexivity.
    rewrite Hstat. unfold predictValue.
    cbn [PriceChange1 PriceChange5 PriceChange10 RSI EMASpread MACDHistogram ATR
         BollingerPosition VolumeRatio].
    rewrite !biasedModel_normalize.
    unfold weight. cbn [biasedModel withWeights trainedWeights].
    rewrite lookup_singleton_eq.
    rewrite !lookup_singleton_ne by discriminate.
    reflexivity. }
  rewrite Hv.
  assert (E : fgt (Fin (1 + 0 * 0 + 0 * 0 + 0 * 0 + 0 * 0 + 0 * 0 + 0 * 0 + 0 * 0
                        + 0 * 0 + 0 * 0)) (Fin (1 / 1000)) = true)
    by (apply fgt_fin; lra).
  rewrite E. reflexivity.
Qed.

(** C3 as stated fails: on a 31-bar series the feature vector of the last
    index exists, the predictor answers BUY on it, and the model-based
    [analyze] answers HOLD. *)
Lemma model_mode_ignores_predictor_counterexample :
  exists f : TradingFeatures,
    @ExtractFeatures reference biasedModel (flatSeries 31)
      (LastIndex (flatSeries 31)) 0%Z = Some f /\
    Direction (fst (Predict biasedModel f)) = "BUY" /\
    @analyze reference true "BTCUSDT" (flatSeries 31) = "HOLD" /\
    @analyze reference true "BTCUSDT" (flatSeries 31) <> "BUY".
Proof.
  eexists. split; [reflexivity|].
  split; [apply biasedModel_predicts_buy|].
  split; [reflexivity|]. discriminate.
Qed.

(** C3 (amended).  In model-based mode the dispatch does not consult the
    predictor: [analyze] goes to the placeholder [analyzeML], which answers
    HOLD for every series, whatever the predictor would answer. *)
Theorem model_mode_always_holds {lib : Library} (symbol : string) (ts : TimeSeries)
    (ml : MLModel) (f : TradingFeatures) :
  analyze true symbol ts = analyzeML symbol ts /\
  analyze true symbol ts = "HOLD" /\
  (Direction (fst (Predict ml f)) = "BUY" \/
   Direction (fst (Predict ml f)) = "SELL" \/
   Direction (fst (Predict ml f)) = "HOLD").
Proof.
  split; [reflexivity|]. split; [reflexivity|].
  unfold Predict.
  destruct (size (trainedWeights ml) =? 0)%nat; [right; right; reflexivity|].
  destruct (NormalizeFeatures ml f) as [ml1 nf].
  destruct (fgt (predictValue ml1 nf) (Fin (1 / 1000))); [left; reflexivity|].
  destruct (flt (predictValue ml1 nf) (fneg (Fin (1 / 1000))));
    [right; left; reflexivity | right; right; reflexivity].
Qed.

(** *** Time features *)

Lemma Hour_bounds (t : Time) : (0 <= Hour t < 24)%Z.
Proof. unfold Hour. apply Z.mod_pos_bound. lia. Qed.

Lemma Weekday_bounds (t : Time) : (0 <= Weekday t < 7)%Z.
Proof. unfold Weekday. apply Z.mod_pos_bound. lia. Qed.

Example Hour_one_am : Hour 3600000%Z = 1%Z.
Proof. reflexivity. Qed.

Example Weekday_epoch : Weekday 0%Z = 4%Z.
Proof. reflexivity. Qed.

Section TimeFeatures.
Context {lib : Library}.

(** The time fields are those of the clock reading [now], whatever the
    series and the index. *)
Lemma time_features_of_clock (ts : TimeSeries) (index : Z) (now : Time) :
  HourOfDay (sanitizeFeatures (rawFeatures ts index now)) = Fin (IZR (Hour now) / 24) /\
  DayOfWeek (sanitizeFeatures (rawFeatures ts index now)) = Fin (IZR (Weekday now) / 7).
Proof.
  cbn [sanitizeFeatures rawFeatures HourOfDay DayOfWeek]. unfold ofZ.
  rewrite !fdiv_fin by lra. split; reflexivity.
Qed.

(** They lie in [0, 1). *)
Lemma time_features_unit_interval (now : Time) :
  0 <= IZR (Hour now) / 24 < 1 /\ 0 <= IZR (Weekday now) / 7 < 1.
Proof.
  pose proof (Hour_bounds now) as [H1 H2]. pose proof (Weekday_bounds now) as [W1 W2].
  apply IZR_le in H1, W1. apply IZR_lt in H2, W2. lra.
Qed.

(** With the same clock reading, extraction is a function of its
    arguments. *)
Lemma extract_deterministic (ml : MLModel) (ts : TimeSeries) (index : Z) (now : Time)
    (f1 f2 : TradingFeatures) :
  ExtractFeatures ml ts index now = Some f1 ->
  ExtractFeatures ml ts index now = Some f2 -> f1 = f2.
Proof. intros H1 H2. rewrite H1 in H2. injection H2. auto. Qed.
End TimeFeatures.

(** C4 (defect).  The time-of-day and day-of-week fields are read from the
    wall clock, not from the bar: two extractions at the same index of the
    same series, one hour apart, give different vectors, and moving the bar's
    own timestamp changes nothing. *)
Theorem extract_reads_wall_clock :
  @ExtractFeatures reference biasedModel (flatSeries 31) 30 0%Z
  <> @ExtractFeatures reference biasedModel (flatSeries 31) 30 3600000%Z /\
  (forall (ts : TimeSeries) (index : Z) (now : Time),
     HourOfDay (sanitizeFeatures (@rawFeatures reference ts index now))
     = Fin (IZR (Hour now) / 24) /\
     DayOfWeek (sanitizeFeatures (@rawFeatures reference ts index now))
     = Fin (IZR (Weekday now) / 7)).
Proof.
  split; [|apply time_features_of_clock].
  unfold ExtractFeatures. cbn [biasedModel withWeights NewMLModel config sampleMLConfig
    FeatureWindow]. change (30 <? 30)%Z with false. cbv iota.
  intros H. apply (inj Some) in H.
  apply (f_equal HourOfDay) in H.
  destruct (@time_features_of_clock reference (flatSeries 31) 30 0%Z) as [H0 _].
  destruct (@time_features_of_clock reference (flatSeries 31) 30 3600000%Z) as [H1 _].
  rewrite H0, H1 in H. apply Fin_inj in H.
  change (Hour 0%Z) with 0%Z in H. change (Hour 3600000%Z) with 1%Z in H. lra.
Qed.

(** *** The window indicators read no bar after the index *)

Lemma indexRange_in (start n i : Z) :
  In i (indexRange start n) -> (start <= i < start + n)%Z.
Proof.
  unfold indexRange. rewrite in_map_iff. intros [k [<- Hk]].
  apply in_seq in Hk. lia.
Qed.

Lemma indexRange_length (start n : Z) : length (indexRange start n) = Z.to_nat n.
Proof. unfold indexRange. rewrite length_map, length_seq. reflexivity. Qed.

Lemma fold_left_ext_in {A B : Type} (f g : A -> B -> A) (l : list B) (a : A) :
  (forall x, In x l -> forall acc, f acc x = g acc x) ->
  fold_left f l a = fold_left g l a.
Proof.
  revert a. induction l as [|x l IH]; intros a H; [reflexivity|].
  cbn [fold_left]. rewrite (H x) by (left; reflexivity).
  apply IH. intros y Hy. apply H. right. exact Hy.
Qed.

(** [calculateSMA] at [index] depends on the indicator at [0..index] only. *)
Lemma calculateSMA_causal (ind1 ind2 : Indicator) (index period : Z) :
  (forall i, (0 <= i <= index)%Z -> ind1 i = ind2 i) ->
  calculateSMA ind1 index period = calculateSMA ind2 index period.
Proof.
  intros H. unfold calculateSMA.
  destruct (index <? period - 1)%Z eqn:E; [reflexivity|]. apply Z.ltb_ge in E.
  f_equal. apply fold_left_ext_in. intros i Hi acc.
  apply indexRange_in in Hi. rewrite H by lia. reflexivity.
Qed.

Lemma calculateStdDev_causal (ind1 ind2 : Indicator) (index period : Z) :
  (forall i, (0 <= i <= index)%Z -> ind1 i = ind2 i) ->
  MLStrategy.calculateStdDev ind1 index period
  = MLStrategy.calculateStdDev ind2 index period.
Proof.
  intros H. unfold MLStrategy.calculateStdDev.
  destruct (index <? period - 1)%Z eqn:E; [reflexivity|]. apply Z.ltb_ge in E.
  cbv zeta. rewrite (calculateSMA_causal ind1 ind2 index period H).
  rewrite (fold_left_ext_in _
             (fun acc i =>
                fadd acc (fmul (fsub (ofQ (ind2 i)) (calculateSMA ind2 index period))
                               (fsub (ofQ (ind2 i)) (calculateSMA ind2 index period)))));
    [reflexivity|].
  intros i Hi acc. apply indexRange_in in Hi. rewrite H by lia. reflexivity.
Qed.

Lemma candleAt_app (ts extra : TimeSeries) (i : Z) :
  (0 <= i < Z.of_nat (length ts))%Z -> candleAt (ts ++ extra) i = candleAt ts i.
Proof.
  intros Hi. unfold candleAt.
  destruct (i <? 0)%Z; [reflexivity|]. apply app_nth1. lia.
Qed.

(** [calculateATR] at an index of the series ignores the bars appended
    after the series. *)
Lemma calculateATR_causal (ts extra : TimeSeries) (index period : Z) :
  (0 <= index < Z.of_nat (length ts))%Z ->
  calculateATR (ts ++ extra) index period = calculateATR ts index period.
Proof.
  intros Hi. unfold calculateATR.
  destruct (index <? period)%Z eqn:E; [reflexivity|]. apply Z.ltb_ge in E.
  f_equal. apply fold_left_ext_in. intros i Hin acc.
  apply indexRange_in in Hin.
  unfold NewHighPriceIndicator, NewLowPriceIndicator, NewClosePriceIndicator.
  rewrite !candleAt_app by lia. reflexivity.
Qed.

(** So are the Bollinger inputs of [ExtractFeatures]. *)
Lemma bollinger_inputs_causal (ts extra : TimeSeries) (index : Z) :
  (0 <= index < Z.of_nat (length ts))%Z ->
  calculateSMA (NewClosePriceIndicator (ts ++ extra)) index 20
  = calculateSMA (NewClosePriceIndicator ts) index 20 /\
  MLStrategy.calculateStdDev (NewClosePriceIndicator (ts ++ extra)) index 20
  = MLStrategy.calculateStdDev (NewClosePriceIndicator ts) index 20.
Proof.
  intros Hi.
  assert (H : forall i, (0 <= i <= index)%Z ->
              NewClosePriceIndicator (ts ++ extra) i = NewClosePriceIndicator ts i).
  { intros i Hle. unfold NewClosePriceIndicator. rewrite candleAt_app by lia.
    reflexivity. }
  split; [apply calculateSMA_causal | apply calculateStdDev_causal]; exact H.
Qed.

(** *** Bollinger features on a flat series *)

Lemma fold_sum_const (ind : Indicator) (v : R) (l : list Z) (a : R) :
  (forall i, In i l -> Q2R (ind i) = v) ->
  fold_left (fun sum i => fadd sum (ofQ (ind i))) l (Fin a)
  = Fin (a + IZR (Z.of_nat (length l)) * v).
Proof.
  revert a. induction l as [|i l IH]; intros a H.
  - cbn [fold_left length]. change (Z.of_nat 0) with 0%Z. apply Fin_inj. lra.
  - cbn [fold_left]. unfold ofQ at 2. cbn [fadd]. rewrite IH.
    + apply Fin_inj. rewrite (H i) by (left; reflexivity).
      cbn [length]. rewrite Nat2Z.inj_succ, succ_IZR. ring.
    + intros j Hj. apply H. right. exact Hj.
Qed.

Lemma fold_squares_const (ind : Indicator) (v : R) (l : list Z) (a : R) :
  (forall i, In i l -> Q2R (ind i) = v) ->
  fold_left (fun acc i => let diff := fsub (ofQ (ind i)) (Fin v) in
                          fadd acc (fmul diff diff)) l (Fin a)
  = Fin a.
Proof.
  revert a. induction l as [|i l IH]; intros a H; [reflexivity|].
  change (fold_left (fun acc i => let diff := fsub (ofQ (ind i)) (Fin v) in
                                  fadd acc (fmul diff diff)) l
            (Fin (a + (Q2R (ind i) + - v) * (Q2R (ind i) + - v))) = Fin a).
  rewrite IH.
  - apply Fin_inj. rewrite (H i) by (left; reflexivity). ring.
  - intros j Hj. apply H. right. exact Hj.
Qed.

Lemma close_of_flat (ts : TimeSeries) (p : Q) (i : Z) :
  Forall (fun c => (ClosePrice c == p)%Q) ts ->
  (0 <= i < Z.of_nat (length ts))%Z ->
  Q2R (NewClosePriceIndicator ts i) = Q2R p.
Proof.
  intros Hall Hi. unfold NewClosePriceIndicator, candleAt.
  destruct (i <? 0)%Z eqn:E; [apply Z.ltb_lt in E; lia|].
  apply Qeq_eqR. rewrite List.Forall_forall in Hall. apply Hall.
  apply nth_In. lia.
Qed.

(** On a flat series the 20-bar average is the price once 20 bars exist,
    and 0 before. *)
Lemma sma_of_flat (ts : TimeSeries) (p : Q) (index : Z) :
  Forall (fun c => (ClosePrice c == p)%Q) ts ->
  (0 <= index < Z.of_nat (length ts))%Z ->
  calculateSMA (NewClosePriceIndicator ts) index 20
  = Fin (if (index <? 19)%Z then 0 else Q2R p).
Proof.
  intros Hall Hi. unfold calculateSMA. change (20 - 1)%Z with 19%Z.
  destruct (index <? 19)%Z eqn:E; [reflexivity|]. apply Z.ltb_ge in E.
  rewrite (fold_sum_const _ (Q2R p)).
  - rewrite indexRange_length. change (Z.of_nat (Z.to_nat 20)) with 20%Z.
    unfold ofZ. rewrite fdiv_fin by lra. apply Fin_inj. field.
  - intros i Hin. apply indexRange_in in Hin.
    apply (close_of_flat ts p i Hall). lia.
Qed.

(** and the deviation over the window is the finite number 0. *)
Lemma stddev_of_flat (ts : TimeSeries) (p : Q) (index : Z) :
  Forall (fun c => (ClosePrice c == p)%Q) ts ->
  (0 <= index < Z.of_nat (length ts))%Z ->
  MLStrategy.calculateStdDev (NewClosePriceIndicator ts) index 20 = Fin 0.
Proof.
  intros Hall Hi. unfold MLStrategy.calculateStdDev.
  rewrite (sma_of_flat ts p index Hall Hi). change (20 - 1)%Z with 19%Z.
  destruct (index <? 19)%Z eqn:E; [reflexivity|]. apply Z.ltb_ge in E.
  rewrite (fold_squares_const _ (Q2R p)).
  - unfold ofZ. rewrite fdiv_fin by lra.
    replace (0 / 20) with 0 by lra.
    assert (E0 : flt (Fin 0) (Fin 0) = false) by (apply flt_fin_false; lra).
    rewrite E0. cbn [fsqrt].
    assert (E1 : Rltb 0 0 = false) by (apply Rltb_false; lra).
    rewrite E1, sqrt_0. reflexivity.
  - intros i Hin. apply indexRange_in in Hin.
    apply (close_of_flat ts p i Hall). lia.
Qed.

(** With a zero deviation the band has zero width: the position guard
    skips its division, and the width is 0 whether or not the mean is. *)
Lemma bollinger_zero_band (m : R) (currentPrice : float64) :
  let sma := Fin m in
  let stdDev := Fin 0 in
  let upperBB := fadd sma (fmul (Fin 2) stdDev) in
  let lowerBB := fsub sma (fmul (Fin 2) stdDev) in
  let bandWidth := fsub upperBB lowerBB in
  bandWidth = Fin 0 /\
  (if fne sma (Fin 0) then fdiv bandWidth sma else Fin 0) = Fin 0 /\
  (if fne bandWidth (Fin 0) then fdiv (fsub currentPrice lowerBB) bandWidth else Fin 0)
  = Fin 0.
Proof.
  cbv zeta. cbn [fmul fadd fsub fneg].
  replace (m + 2 * 0 + - (m + - (2 * 0))) with 0 by ring.
  split; [reflexivity|]. split.
  - destruct (fne (Fin m) (Fin 0)) eqn:E; [|reflexivity].
    apply fne_fin in E. rewrite fdiv_fin by exact E.
    apply Fin_inj. unfold Rdiv. ring.
  - assert (E : fne (Fin 0) (Fin 0) = false) by (apply fne_fin_false; reflexivity).
    rewrite E. reflexivity.
Qed.


Lemma flatSeries_closes (n : nat) :
  Forall (fun c => (ClosePrice c == 100)%Q) (flatSeries n).
Proof.
  unfold flatSeries, seriesOfCloses. induction n as [|n IH]; simpl; constructor.
  - reflexivity.
  - exact IH.
Qed.


End MLProofs.

(* ===================================================================== *)
(** ** Further properties of the backtest engine *)
(* ===================================================================== *)

Module BacktestMore.
Import Techan Analyze Backtest Float64Facts Samples Notions BacktestProofs.

Local Open Scope R_scope.

(** *** Portfolio value *)

(** The portfolio value is the cash when nothing is held, the cash plus
    quantity times last price for a single priced holding, and the cash
    alone when the holding has no last price. *)
Lemma portfolio_value_cases (be : BacktestEngine) (symbol : string) (q : float64) :
  (Holdings (portfolio be) = ∅ -> GetPortfolioValue be = Cash (portfolio be)) /\
  (Holdings (portfolio be) = {[ symbol := q ]} ->
   forall price : float64, LastPrices (portfolio be) !! symbol = Some price ->
   GetPortfolioValue be = fadd (Cash (portfolio be)) (fmul q price)) /\
  (Holdings (portfolio be) = {[ symbol := q ]} ->
   LastPrices (portfolio be) !! symbol = None ->
   GetPortfolioValue be = Cash (portfolio be)).
Proof.
  unfold GetPortfolioValue. repeat split.
  - intros ->. apply map_fold_empty.
  - intros -> price Hp. rewrite map_fold_singleton, Hp. reflexivity.
  - intros -> Hp. rewrite map_fold_singleton, Hp. reflexivity.
Qed.

(** *** One step of the loop, case by case *)

Lemma tradeOnSignal_cases (be : BacktestEngine) (signal : string) (p f : R) (t : Time) :
  ledgerOk be ->
  TransactionFee (config be) = Fin f -> 0 <= f <= 1 -> 0 < p ->
  let be' := tradeOnSignal be signal (Fin p) t in
  let sym := Symbol (config be) in
  config be' = config be /\
  (be' = be \/
   (signal = "BUY" /\ exists c : R,
      0 < c /\ Cash (portfolio be) = Fin c /\ Holdings (portfolio be) = ∅ /\
      Cash (portfolio be') = Fin 0 /\
      Holdings (portfolio be') = {[ sym := Fin (c / (p + p * f)) ]} /\
      LastPrices (portfolio be') = <[ sym := Fin p ]> (LastPrices (portfolio be)) /\
      exists tr : Trade,
        trades be' = trades be ++ [tr] /\ TradeType tr = "BUY" /\
        Price tr = Fin p /\ Quantity tr = Fin (c / (p + p * f)) /\
        Fee tr = Fin (c / (p + p * f) * (p * f))) \/
   (signal = "SELL" /\ exists q : R,
      0 < q /\ Cash (portfolio be) = Fin 0 /\
      Holdings (portfolio be) = {[ sym := Fin q ]} /\
      Cash (portfolio be') = Fin (q * p - q * (p * f)) /\
      Holdings (portfolio be') = ∅ /\
      LastPrices (portfolio be') = <[ sym := Fin p ]> (LastPrices (portfolio be)) /\
      exists tr : Trade,
        trades be' = trades be ++ [tr] /\ TradeType tr = "SELL" /\
        Price tr = Fin p /\ Quantity tr = Fin q /\ Fee tr = Fin (q * (p * f)))).
Proof.
  intros Hok Hf [Hf0 Hf1] Hp.
  pose proof (cost_positive p f Hp Hf0) as Hcost.
  destruct Hok as [c [Hc [Hc0 Hh]]].
  cbv zeta. unfold tradeOnSignal.
  destruct (String.eqb_spec signal "BUY") as [-> | Hnb].
  - rewrite (buy_unfold be _ c p f t) by (try assumption).
    destruct (Rle_dec c 0) as [Hle | Hgt]; cbn [snd].
    + split; [reflexivity|]. left. reflexivity.
    + destruct Hh as [Hempty | [q [_ [_ Hc00]]]]; [|lra].
      cbv zeta. cbn [withTrades withPortfolio portfolio config Cash Holdings
                     LastPrices trades].
      split; [reflexivity|]. right. left. split; [reflexivity|].
      exists c. split; [lra|]. split; [exact Hc|]. split; [exact Hempty|].
      split; [apply Fin_inj; field; lra|].
      split.
      { rewrite Hempty. unfold mapGet. rewrite lookup_empty. cbn [default fadd].
        rewrite insert_empty. replace (0 + c / (p + p * f)) with (c / (p + p * f)) by lra.
        reflexivity. }
      split; [reflexivity|].
      eexists. split; [reflexivity|]. cbn [TradeType Price Quantity Fee].
      repeat split; reflexivity.
  - destruct (String.eqb_spec signal "SELL") as [-> | Hns].
    + unfold ExecuteTrade. cbn [String.eqb Ascii.eqb Bool.eqb].
      destruct Hh as [Hempty | [q [Hq [Hq0 Hc00]]]].
      * rewrite Hempty, lookup_empty. cbn [snd]. split; [reflexivity|].
        left. reflexivity.
      * subst c. rewrite Hq, lookup_singleton_eq.
        assert (E : fle (Fin q) (Fin 0) = false) by (apply fle_fin_false; lra).
        rewrite E. cbn [snd withTrades withPortfolio portfolio config Cash Holdings
                        LastPrices trades].
        split; [reflexivity|]. right. right. split; [reflexivity|].
        exists q. split; [exact Hq0|]. split; [exact Hc|]. split; [reflexivity|].
        rewrite Hc, Hf, delete_singleton_eq. cbn [fmul fadd fsub fneg].
        split; [apply Fin_inj; ring|]. split; [reflexivity|]. split; [reflexivity|].
        eexists. split; [reflexivity|]. cbn [TradeType Price Quantity Fee].
        repeat split; reflexivity.
    + split; [reflexivity|]. left. reflexivity.
Qed.

(** *** What a run maintains *)

Lemma value_of_ledger (be : BacktestEngine) (p : R) :
  ledgerOk be ->
  LastPrices (portfolio be) !! Symbol (config be) = Some (Fin p) -> 0 < p ->
  exists v : R, GetPortfolioValue be = Fin v /\ 0 <= v.
Proof.
  intros [c [Hc [Hc0 Hh]]] Hlast Hp.
  destruct (portfolio_value_cases be (Symbol (config be)) (Fin 0)) as [He _].
  destruct Hh as [Hempty | [q [Hq [Hq0 Hc00]]]].
  - exists c. rewrite He by exact Hempty. auto.
  - destruct (portfolio_value_cases be (Symbol (config be)) (Fin q)) as [_ [Hs _]].
    exists (c + q * p). rewrite (Hs Hq (Fin p) Hlast), Hc. split; [reflexivity|]. nra.
Qed.

Lemma singleton_not_empty (k : string) (v : float64) :
  ({[ k := v ]} : gmap string float64) <> ∅.
Proof.
  intros H. apply (f_equal (fun m => m !! k)) in H.
  rewrite lookup_singleton_eq, lookup_empty in H. discriminate.
Qed.

Lemma nth_Forall {A : Type} (P : A -> Prop) (l : list A) (d : A) (n : nat) :
  Forall P l -> P d -> P (nth n l d).
Proof.
  intros Hl Hd. revert n. induction Hl as [|x l Hx _ IH]; intros [|n]; simpl; auto.
Qed.

Section RunFacts.
Context {lib : Library}.
Variable UseMLAnalyze : bool.

(** One iteration keeps the ledger, the shape of the log and the
    statistics. *)
Lemma loop_step_keeps (be : BacktestEngine) (klines : list Kline) (b f : R) (k : nat) :
  TransactionFee (config be) = Fin f -> 0 <= f <= 1 ->
  Forall (fun k => (0 < Close k)%Q) klines ->
  (26 + k < length klines)%nat ->
  let st := loopPrefix UseMLAnalyze be klines k in
  let st' := loopPrefix UseMLAnalyze be klines (S k) in
  ledgerOk (engine st) -> config (engine st) = config be ->
  logOk (engine st) -> statsOk b st ->
  ledgerOk (engine st') /\ config (engine st') = config be /\
  logOk (engine st') /\ statsOk b st'.
Proof.
  intros Hf Hfr Hall Hk st st' Hok Hcfg Hlog Hstats.
  destruct (price_positive klines (26 + k) Hall Hk) as [p [Hp Hp0]].
  subst st'. rewrite loopPrefix_S. fold st.
  unfold loopBody. rewrite Hp.
  change (config (setLastPrice (engine st) (Symbol (config (engine st))) (Fin p)))
    with (config (engine st)).
  rewrite Hcfg.
  set (be0 := setLastPrice (engine st) (Symbol (config be)) (Fin p)).
  set (signal := signalAt UseMLAnalyze (Symbol (config be)) (seriesOf klines) (26 + k)).
  set (t := nth (26 + k) (map OpenTime klines) 0%Z).
  assert (Hok0 : ledgerOk be0) by exact Hok.
  assert (Hcfg0 : config be0 = config be) by exact Hcfg.
  assert (Hf0 : TransactionFee (config be0) = Fin f) by (rewrite Hcfg0; exact Hf).
  assert (Hlast0 : LastPrices (portfolio be0) !! Symbol (config be0) = Some (Fin p)).
  { rewrite Hcfg0. subst be0. cbn [setLastPrice withPortfolio portfolio LastPrices].
    apply lookup_insert_eq. }
  destruct (tradeOnSignal_rule be0 signal p f t Hok0 Hf0 Hfr Hp0) as [Hok1 [Hcfg1 _]].
  destruct (tradeOnSignal_cases be0 signal p f t Hok0 Hf0 Hfr Hp0) as [_ Hcases].
  cbv zeta in Hcases.
  set (be1 := tradeOnSignal be0 signal (Fin p) t) in *.
  assert (Hlast1 : LastPrices (portfolio be1) !! Symbol (config be1) = Some (Fin p)).
  { rewrite Hcfg1.
    destruct Hcases as [-> | [[_ [c [_ [_ [_ [_ [_ [HL _]]]]]]]]
                             | [_ [q [_ [_ [_ [_ [_ [HL _]]]]]]]]]].
    - exact Hlast0.
    - rewrite HL. apply lookup_insert_eq.
    - rewrite HL. apply lookup_insert_eq. }
  assert (Hlog1 : logOk be1).
  { destruct Hcases as [-> | [[_ [c [_ [_ [He [_ [Hh [_ [tr [Htr [Hty _]]]]]]]]]]]
                             | [_ [q [_ [_ [Hh0 [_ [Hh [_ [tr [Htr [Hty _]]]]]]]]]]]]].
    - exact Hlog.
    - right. split; [rewrite Hh; apply singleton_not_empty|].
      rewrite Htr. apply log_buy; [|exact Hty].
      destruct Hlog as [[_ Hl] | [Hne _]]; [exact Hl | contradiction].
    - left. split; [exact Hh|]. rewrite Htr. apply log_sell; [|exact Hty].
      destruct Hlog as [[He _] | [_ Hl]]; [|exact Hl].
      exfalso. change (Holdings (portfolio be0)) with (Holdings (portfolio (engine st))) in Hh0.
      rewrite He in Hh0. symmetry in Hh0. exact (singleton_not_empty _ _ Hh0). }
  destruct (value_of_ledger be1 p Hok1 Hlast1 Hp0) as [v [Hv Hv0]].
  cbn [engine equityCurve dailyReturns maxValue maxDrawdown].
  split; [exact Hok1|]. split; [rewrite Hcfg1; exact Hcfg0|]. split; [exact Hlog1|].
  destruct Hstats as [M [D [HM [HD [[HD0 HDM] [HbM [Hec Hdr]]]]]]].
  unfold statsOk. cbn [engine equityCurve dailyReturns maxValue maxDrawdown].
  rewrite Hv, HM, HD.
  assert (HecW : forall M', M <= M' ->
            Forall (fun w => exists x : R, w = Fin x /\ 0 <= x <= M') (equityCurve st)).
  { intros M' HM'. eapply Forall_impl; [exact Hec|].
    intros w [x [-> Hx]]. exists x. split; [reflexivity|]. lra. }
  assert (Hret : Forall (fun r => isFinite r = true)
            (if (1 <? length (equityCurve st ++ [Fin v]))%nat
             then
               if fgt (nth (length (equityCurve st ++ [Fin v]) - 2)
                           (equityCurve st ++ [Fin v]) (Fin 0)) (Fin 0)
               then dailyReturns st ++
                    [fdiv (fsub (Fin v)
                                (nth (length (equityCurve st ++ [Fin v]) - 2)
                                     (equityCurve st ++ [Fin v]) (Fin 0)))
                          (nth (length (equityCurve st ++ [Fin v]) - 2)
                               (equityCurve st ++ [Fin v]) (Fin 0))]
               else dailyReturns st
             else dailyReturns st)).
  { destruct (1 <? length (equityCurve st ++ [Fin v]))%nat; [|exact Hdr].
    assert (Hprev : exists x, nth (length (equityCurve st ++ [Fin v]) - 2)
                                  (equityCurve st ++ [Fin v]) (Fin 0) = Fin x).
    { apply (nth_Forall (fun w => exists x, w = Fin x)).
      - apply Forall_app. split.
        + eapply Forall_impl; [exact Hec|]. intros w [x [-> _]]. eauto.
        + constructor; [eauto | constructor].
      - eauto. }
    destruct Hprev as [x ->].
    destruct (fgt (Fin x) (Fin 0)) eqn:E; [|exact Hdr].
    apply fgt_fin in E. apply Forall_app. split; [exact Hdr|].
    constructor; [|constructor]. cbn [fsub fneg fadd].
    rewrite fdiv_fin by lra. reflexivity. }
  destruct (fgt (Fin v) (Fin M)) eqn:EM.
  - apply fgt_fin in EM. cbn [fsub fneg fadd].
    assert (ED : fgt (Fin (v + - v)) (Fin D) = false) by (apply fgt_fin_false; lra).
    rewrite ED.
    exists v, D. split; [reflexivity|]. split; [reflexivity|].
    split; [lra|]. split; [lra|]. split; [|exact Hret].
    apply Forall_app. split; [apply HecW; lra|].
    constructor; [|constructor]. exists v. split; [reflexivity|]. lra.
  - apply fgt_fin_false in EM. cbn [fsub fneg fadd].
    destruct (fgt (Fin (M + - v)) (Fin D)) eqn:ED.
    + exists M, (M + - v). split; [reflexivity|]. split; [reflexivity|].
      split; [lra|]. split; [lra|]. split; [|exact Hret].
      apply Forall_app. split; [apply HecW; lra|].
      constructor; [|constructor]. exists v. split; [reflexivity|]. lra.
    + exists M, D. split; [reflexivity|]. split; [reflexivity|].
      split; [lra|]. split; [lra|]. split; [|exact Hret].
      apply Forall_app. split; [apply HecW; lra|].
      constructor; [|constructor]. exists v. split; [reflexivity|]. lra.
Qed.

Lemma run_invariant (be : BacktestEngine) (klines : list Kline) (b f : R) (k : nat) :
  fresh be -> InitialBalance (config be) = Fin b -> 0 <= b ->
  TransactionFee (config be) = Fin f -> 0 <= f <= 1 ->
  Forall (fun k => (0 < Close k)%Q) klines ->
  (k <= length klines - 26)%nat ->
  let st := loopPrefix UseMLAnalyze be klines k in
  ledgerOk (engine st) /\ config (engine st) = config be /\
  logOk (engine st) /\ statsOk b st.
Proof.
  intros Hfresh Hb Hb0 Hf Hfr Hall. cbv zeta.
  induction k as [|k IH]; intros Hk.
  - destruct Hfresh as [Hpf Htr].
    unfold loopPrefix. cbn [seq fold_left initialLoopState engine].
    split.
    { exists b. rewrite Hpf. cbn [NewBacktestEngine portfolio Cash Holdings]. auto. }
    split; [reflexivity|]. split.
    + left. rewrite Hpf, Htr. cbn [NewBacktestEngine portfolio Holdings].
      split; [reflexivity | constructor].
    + exists b, 0. cbn [maxValue maxDrawdown equityCurve dailyReturns].
      split; [exact Hb|]. split; [reflexivity|]. split; [lra|]. split; [lra|].
      split; constructor.
  - destruct IH as [Hok [Hcfg [Hlog Hstats]]]; [lia|].
    apply (loop_step_keeps be klines b f k Hf Hfr Hall); try assumption; lia.
Qed.

Lemma timedEngine_fresh (be : BacktestEngine) (klines : list Kline) :
  fresh be -> fresh (timedEngine be klines).
Proof. intros [H1 H2]. split; [exact H1 | exact H2]. Qed.

(** The fields of a result, read off the final loop state. *)
Lemma RunBacktest_fields (be be1 : BacktestEngine) (klines : list Kline)
    (r : BacktestResult) :
  RunBacktest UseMLAnalyze be (Some klines) = Some (r, be1) ->
  let st := runLoop UseMLAnalyze (timedEngine be klines) klines in
  klines <> [] /\ be1 = engine st /\
  Trades r = trades (engine st) /\
  TotalTrades r = Z.of_nat (length (trades (engine st))) /\
  WinningTrades r = winningTrades (fold_left pairTrade (trades (engine st)) noStats) /\
  LosingTrades r = losingTrades (fold_left pairTrade (trades (engine st)) noStats) /\
  EquityCurve r = equityCurve st /\ DailyReturns r = dailyReturns st /\
  MaxDrawdown r = maxDrawdown st /\
  MaxDrawdownPct r = fmul (fdiv (maxDrawdown st) (maxValue st)) (Fin 100) /\
  FinalBalance r = Cash (portfolio (engine st)) /\
  FinalValue r = GetPortfolioValue (engine st) /\
  TotalReturn r = fsub (GetPortfolioValue (engine st)) (InitialBalance (config (engine st))) /\
  TotalReturnPct r
  = fmul (fdiv (fsub (GetPortfolioValue (engine st)) (InitialBalance (config (engine st))))
               (InitialBalance (config (engine st)))) (Fin 100) /\
  SharpeRatio r = sharpeRatioOf (dailyReturns st).
Proof.
  unfold RunBacktest. destruct klines as [|k0 klines]; [discriminate|].
  intros H. injection H as <- <-. cbv zeta.
  split; [discriminate|]. repeat split; reflexivity.
Qed.

(** [RunBacktest] fails exactly when the fetch failed or returned nothing. *)
Lemma RunBacktest_runs (be : BacktestEngine) (klines : list Kline) :
  klines <> [] -> exists r be1, RunBacktest UseMLAnalyze be (Some klines) = Some (r, be1).
Proof.
  intros H. unfold RunBacktest. destruct klines as [|k0 klines]; [contradiction|].
  eexists. eexists. reflexivity.
Qed.

End RunFacts.

(** *** Pairing of trades *)

Lemma pairTrade_log (l : list Trade) (open : bool) :
  tradeLog l open ->
  let s := fold_left pairTrade l noStats in
  length (buyTrades s) = (if open then 1 else 0)%nat /\
  (0 <= winningTrades s)%Z /\ (0 <= losingTrades s)%Z /\
  Z.of_nat (length l)
  = (2 * (winningTrades s + losingTrades s) + (if open then 1 else 0))%Z.
Proof.
  intros H. cbv zeta. induction H as [| l tr _ IH Hty | l tr _ IH Hty].
  - cbn. repeat split; lia.
  - rewrite fold_left_app. cbn [fold_left].
    set (s := fold_left pairTrade l noStats) in *.
    destruct IH as [Hb [Hw [Hl Hn]]].
    unfold pairTrade. rewrite Hty. cbn [String.eqb Ascii.eqb Bool.eqb].
    cbn [buyTrades winningTrades losingTrades].
    rewrite !length_app, Hb. cbn [length]. repeat split; lia.
  - rewrite fold_left_app. cbn [fold_left].
    set (s := fold_left pairTrade l noStats) in *.
    destruct IH as [Hb [Hw [Hl Hn]]].
    unfold pairTrade. rewrite Hty. cbn [String.eqb Ascii.eqb Bool.eqb].
    rewrite Hb. cbn [Nat.ltb Nat.leb andb].
    destruct (buyTrades s) as [|x [|y r]] eqn:Eb; simpl in Hb; try discriminate.
    cbn [last removelast].
    rewrite length_app. cbn [length].
    destruct (fgt _ _); cbn [buyTrades winningTrades losingTrades length];
      repeat split; lia.
Qed.

(** *** Finite statistics *)

Lemma fold_fadd_finite (l : list float64) (a : R) :
  Forall (fun v => isFinite v = true) l ->
  exists s : R, fold_left fadd l (Fin a) = Fin s.
Proof.
  intros H. revert a. induction H as [|v l Hv _ IH]; intros a; [eauto|].
  destruct v as [x| | |]; try discriminate. cbn [fold_left fadd]. apply IH.
Qed.

Lemma fold_squares_finite (l : list float64) (m a : R) :
  Forall (fun v => isFinite v = true) l -> 0 <= a ->
  exists s : R,
    fold_left (fun acc v => fadd acc (fmul (fsub v (Fin m)) (fsub v (Fin m))))
              l (Fin a) = Fin s /\ 0 <= s.
Proof.
  intros H. revert a. induction H as [|v l Hv _ IH]; intros a Ha; [eauto|].
  destruct v as [x| | |]; try discriminate.
  cbn [fold_left fsub fneg fadd fmul].
  apply IH. pose proof (Rle_0_sqr (x + - m)) as Hsq. unfold Rsqr in Hsq. lra.
Qed.

Lemma mean_finite (l : list float64) :
  Forall (fun v => isFinite v = true) l -> exists m : R, calculateMean l = Fin m.
Proof.
  intros H. unfold calculateMean. destruct l as [|v l]; [eauto|].
  destruct (fold_fadd_finite (v :: l) 0 H) as [s ->].
  unfold ofZ. rewrite fdiv_fin; [eauto|].
  apply not_0_IZR. simpl length. lia.
Qed.

Lemma stddev_finite (l : list float64) (m : R) :
  Forall (fun v => isFinite v = true) l ->
  exists s : R, Backtest.calculateStdDev l (Fin m) = Fin s /\ 0 <= s.
Proof.
  intros H. unfold Backtest.calculateStdDev.
  destruct (length l <=? 1)%nat eqn:E; [exists 0; split; [reflexivity | lra]|].
  apply Nat.leb_gt in E.
  destruct (fold_squares_finite l m 0 H) as [s [-> Hs]]; [lra|].
  unfold ofZ.
  assert (Hn : 0 < IZR (Z.of_nat (length l) - 1)) by (apply IZR_lt; lia).
  rewrite fdiv_fin by lra. cbn [fsqrt].
  assert (Hq : 0 <= s / IZR (Z.of_nat (length l) - 1)).
  { apply Rmult_le_pos; [exact Hs|]. apply Rlt_le, Rinv_0_lt_compat. exact Hn. }
  assert (E0 : Rltb (s / IZR (Z.of_nat (length l) - 1)) 0 = false)
    by (apply Rltb_false; exact Hq).
  rewrite E0. eexists. split; [reflexivity|]. apply sqrt_pos.
Qed.

Lemma sharpe_finite (l : list float64) :
  Forall (fun v => isFinite v = true) l -> isFinite (sharpeRatioOf l) = true.
Proof.
  intros H. unfold sharpeRatioOf.
  destruct (1 <? length l)%nat; [|reflexivity].
  destruct (mean_finite l H) as [m ->].
  destruct (stddev_finite l m H) as [s [-> Hs]].
  destruct (fgt (Fin s) (Fin 0)) eqn:E; [|reflexivity].
  apply fgt_fin in E. pose proof sqrt252_pos as Hq.
  cbn [fsqrt]. assert (E0 : Rltb 252 0 = false) by (apply Rltb_false; lra).
  rewrite E0. cbn [fmul]. rewrite fdiv_fin by nra. reflexivity.
Qed.



(** The Sharpe ratio is the finite number 0 when fewer than two
    returns exist, when the sample deviation is 0, and in particular when
    every return is 0. *)
Theorem sharpe_zero_cases (returns : list float64) :
  (length returns < 2)%nat \/
  Backtest.calculateStdDev returns (calculateMean returns) = Fin 0 \/
  Forall (fun v => v = Fin 0) returns ->
  sharpeRatioOf returns = Fin 0.
Proof.
  intros [H | [H | H]].
  - apply sharpe_few_returns. exact H.
  - apply sharpe_zero_deviation. exact H.
  - apply sharpe_all_zero. exact H.
Qed.

Lemma sharpe_zero_cases_witness :
  sharpeRatioOf [Fin 0; Fin 0; Fin 0] = Fin 0.
Proof.
  apply sharpe_zero_cases. right. right. repeat constructor.
Defined.

(** *** Results of a run *)

Lemma repeat_snoc {A : Type} (x : A) (n : nat) : repeat x (S n) = repeat x n ++ [x].
Proof. induction n as [|n IH]; [reflexivity|]. simpl in *. rewrite <- IH. reflexivity. Qed.

Section Results.
Context {lib : Library}.


(** The invariants at the end of a run of [RunBacktest]. *)
Lemma result_invariant (UseMLAnalyze : bool) (be : BacktestEngine)
    (klines : list Kline) (b f : R) :
  fresh be -> InitialBalance (config be) = Fin b -> 0 <= b ->
  TransactionFee (config be) = Fin f -> 0 <= f <= 1 ->
  Forall (fun k => (0 < Close k)%Q) klines ->
  let st := runLoop UseMLAnalyze (timedEngine be klines) klines in
  ledgerOk (engine st) /\ logOk (engine st) /\ statsOk b st.
Proof.
  intros Hfresh Hb Hb0 Hf Hfr Hall st.
  assert (Hfresh' : fresh (timedEngine be klines))
    by (apply timedEngine_fresh; exact Hfresh).
  destruct (run_invariant UseMLAnalyze (timedEngine be klines) klines b f
              (length klines - 26) Hfresh' Hb Hb0 Hf Hfr Hall)
    as [H1 [_ [H2 H3]]]; [lia|].
  subst st. rewrite runLoop_prefix. auto.
Qed.





(** X12.  When the loop ran, the final value of the result is the last
    point of its equity curve. *)
Theorem final_value_is_last_equity_point (UseMLAnalyze : bool) (be be1 : BacktestEngine)
    (klines : list Kline) (r : BacktestResult) :
  (26 < length klines)%nat ->
  RunBacktest UseMLAnalyze be (Some klines) = Some (r, be1) ->
  last (EquityCurve r) = Some (FinalValue r) /\
  length (EquityCurve r) = (length klines - 26)%nat.
Proof.
  intros Hlen Hrun.
  destruct (RunBacktest_fields UseMLAnalyze be be1 klines r Hrun)
    as [_ [_ [_ [_ [_ [_ [-> [_ [_ [_ [_ [-> _]]]]]]]]]]]].
  split.
  - rewrite runLoop_prefix.
    replace (length klines - 26)%nat with (S (length klines - 27)) by lia.
    rewrite loopPrefix_S. unfold loopBody. cbn [equityCurve engine].
    rewrite last_snoc. reflexivity.
  - rewrite runLoop_prefix. apply equityCurve_length.
Qed.

(** X2.  With at most 26 klines the loop does not run: a fresh engine
    reports no trade, an empty equity curve, no return, a Sharpe ratio and a
    drawdown of 0, and a final value equal to the initial balance. *)
Theorem short_series_does_nothing (UseMLAnalyze : bool) (be be1 : BacktestEngine)
    (klines : list Kline) (r : BacktestResult) :
  fresh be -> (length klines <= 26)%nat ->
  RunBacktest UseMLAnalyze be (Some klines) = Some (r, be1) ->
  Trades r = [] /\ TotalTrades r = 0%Z /\ EquityCurve r = [] /\
  DailyReturns r = [] /\ SharpeRatio r = Fin 0 /\ MaxDrawdown r = Fin 0 /\
  FinalBalance r = InitialBalance (config be) /\
  FinalValue r = InitialBalance (config be).
Proof.
  intros [Hpf Htr] Hlen Hrun.
  destruct (RunBacktest_fields UseMLAnalyze be be1 klines r Hrun)
    as [_ [_ [H1 [H2 [_ [_ [H3 [H4 [H5 [_ [H6 [H7 [_ [_ H8]]]]]]]]]]]]]].
  rewrite H1, H2, H3, H4, H5, H6, H7, H8. rewrite runLoop_prefix.
  replace (length klines - 26)%nat with 0%nat by lia.
  unfold loopPrefix. cbn [seq fold_left initialLoopState engine equityCurve
                          dailyReturns maxDrawdown timedEngine trades portfolio].
  rewrite Htr. unfold GetPortfolioValue.
  cbn [timedEngine portfolio]. rewrite Hpf.
  cbn [NewBacktestEngine portfolio Cash Holdings LastPrices].
  rewrite map_fold_empty. repeat split; reflexivity.
Qed.

(** In ML mode every step only records the last price. *)
Lemma ml_mode_loop (be : BacktestEngine) (klines : list Kline) (k : nat) :
  let st := loopPrefix true be klines k in
  Cash (portfolio (engine st)) = Cash (portfolio be) /\
  Holdings (portfolio (engine st)) = Holdings (portfolio be) /\
  trades (engine st) = trades be /\
  config (engine st) = config be /\
  (Holdings (portfolio be) = ∅ ->
   equityCurve st = repeat (Cash (portfolio be)) k).
Proof.
  cbv zeta. induction k as [|k IH].
  - unfold loopPrefix. cbn. repeat split; reflexivity.
  - destruct IH as [Hc [Hh [Ht [Hcfg Heq]]]].
    rewrite loopPrefix_S. unfold loopBody.
    cbn [engine equityCurve signalAt analyze analyzeML tradeOnSignal
         String.eqb Ascii.eqb Bool.eqb setLastPrice withPortfolio portfolio Cash
         Holdings trades config].
    split; [exact Hc|]. split; [exact Hh|]. split; [exact Ht|]. split; [exact Hcfg|].
    intros He. rewrite (Heq He), repeat_snoc. f_equal. f_equal.
    unfold GetPortfolioValue, setLastPrice, withPortfolio.
    cbn [portfolio Cash Holdings LastPrices].
    rewrite Hh, He, map_fold_empty. exact Hc.
Qed.

(** X1.  With the model-based mode switched on, a backtest never trades:
    whatever the prices, the trade log stays empty, the cash stays the
    initial balance, and every equity point and the final value equal it. *)
Theorem ml_mode_never_trades (be be1 : BacktestEngine) (klines : list Kline)
    (r : BacktestResult) :
  fresh be ->
  RunBacktest true be (Some klines) = Some (r, be1) ->
  Trades r = [] /\ TotalTrades r = 0%Z /\
  WinningTrades r = 0%Z /\ LosingTrades r = 0%Z /\
  FinalBalance r = InitialBalance (config be) /\
  FinalValue r = InitialBalance (config be) /\
  EquityCurve r = repeat (InitialBalance (config be)) (length klines - 26).
Proof.
  intros [Hpf Htr] Hrun.
  destruct (RunBacktest_fields true be be1 klines r Hrun)
    as [_ [_ [H1 [H2 [H3 [H4 [H5 [_ [_ [_ [H6 [H7 _]]]]]]]]]]]].
  rewrite H1, H2, H3, H4, H5, H6, H7. rewrite runLoop_prefix.
  destruct (ml_mode_loop (timedEngine be klines) klines (length klines - 26))
    as [Hc [Hh [Ht [_ Heq]]]].
  cbn [timedEngine portfolio trades] in Hc, Hh, Ht, Heq.
  rewrite Hpf in Hc, Hh, Heq. cbn [NewBacktestEngine portfolio Cash Holdings] in Hc, Hh, Heq.
  rewrite Ht, Htr, Hc, (Heq eq_refl). cbn [fold_left length Z.of_nat noStats
    winningTrades losingTrades].
  unfold GetPortfolioValue. rewrite Hh, Hc, map_fold_empty.
  repeat split; reflexivity.
Qed.

(** With a zero balance no order is ever filled. *)
Lemma zero_balance_loop (UseMLAnalyze : bool) (be : BacktestEngine)
    (klines : list Kline) (f : R) (k : nat) :
  fresh be -> InitialBalance (config be) = Fin 0 ->
  TransactionFee (config be) = Fin f -> 0 <= f <= 1 ->
  Forall (fun k => (0 < Close k)%Q) klines ->
  (k <= length klines - 26)%nat ->
  let st := loopPrefix UseMLAnalyze be klines k in
  Cash (portfolio (engine st)) = Fin 0 /\
  Holdings (portfolio (engine st)) = ∅ /\
  trades (engine st) = [] /\ config (engine st) = config be /\
  maxValue st = Fin 0 /\ maxDrawdown st = Fin 0.
Proof.
  intros Hfresh Hb Hf Hfr Hall. cbv zeta.
  induction k as [|k IH]; intros Hk.
  - destruct Hfresh as [Hpf Htr]. unfold loopPrefix.
    cbn [seq fold_left initialLoopState engine maxValue maxDrawdown].
    rewrite Hpf, Htr, Hb. cbn [NewBacktestEngine portfolio Cash Holdings].
    rewrite Hb. repeat split; reflexivity.
  - destruct IH as [Hc [Hh [Ht [Hcfg [HM HD]]]]]; [lia|].
    assert (Hk' : (26 + k < length klines)%nat) by lia.
    destruct (price_positive klines (26 + k) Hall Hk') as [p [Hp Hp0]].
    rewrite loopPrefix_S. unfold loopBody. rewrite Hp.
    set (st := loopPrefix UseMLAnalyze be klines k) in *.
    set (be0 := setLastPrice (engine st) (Symbol (config (engine st))) (Fin p)).
    assert (Hok0 : ledgerOk be0).
    { exists 0. split; [exact Hc|]. split; [lra|]. left. exact Hh. }
    assert (Hf0 : TransactionFee (config be0) = Fin f).
    { change (config be0) with (config (engine st)). rewrite Hcfg. exact Hf. }
    destruct (tradeOnSignal_cases be0
                (signalAt UseMLAnalyze (Symbol (config be0)) (seriesOf klines) (26 + k))
                p f (nth (26 + k) (map OpenTime klines) 0%Z) Hok0 Hf0 Hfr Hp0)
      as [_ Hcases].
    cbv zeta in Hcases.
    destruct Hcases as [Hsame | [[_ [c [Hc0 [Hcc _]]]] | [_ [q [_ [_ [Hq _]]]]]]].
    + cbn [engine maxValue maxDrawdown]. rewrite Hsame.
      assert (Hv : GetPortfolioValue be0 = Fin 0).
      { unfold GetPortfolioValue. subst be0. unfold setLastPrice, withPortfolio.
        cbn [portfolio Cash Holdings LastPrices].
        rewrite Hh, map_fold_empty. exact Hc. }
      rewrite Hv, HM, HD.
      assert (E1 : fgt (Fin 0) (Fin 0) = false) by (apply fgt_fin_false; lra).
      rewrite E1. cbn [fsub fneg fadd].
      assert (E2 : fgt (Fin (0 + - 0)) (Fin 0) = false) by (apply fgt_fin_false; lra).
      rewrite E2.
      split; [exact Hc|]. split; [exact Hh|]. split; [exact Ht|].
      split; [exact Hcfg|]. split; reflexivity.
    + exfalso. change (Cash (portfolio be0)) with (Cash (portfolio (engine st))) in Hcc.
      rewrite Hc in Hcc. apply Fin_inj in Hcc. lra.
    + exfalso. change (Holdings (portfolio be0)) with (Holdings (portfolio (engine st))) in Hq.
      rewrite Hh in Hq. symmetry in Hq. exact (singleton_not_empty _ _ Hq).
Qed.

(** X9.  A backtest started with a balance of 0 makes no trade and reports
    its two percentages as NaN: the divisions by the initial balance and by
    the peak value are not guarded. *)
Theorem zero_balance_reports_nan (UseMLAnalyze : bool) (be be1 : BacktestEngine)
    (klines : list Kline) (r : BacktestResult) (f : R) :
  fresh be -> InitialBalance (config be) = Fin 0 ->
  TransactionFee (config be) = Fin f -> 0 <= f <= 1 ->
  Forall (fun k => (0 < Close k)%Q) klines ->
  RunBacktest UseMLAnalyze be (Some klines) = Some (r, be1) ->
  Trades r = [] /\ TotalReturn r = Fin 0 /\
  TotalReturnPct r = NaN /\ MaxDrawdownPct r = NaN.
Proof.
  intros Hfresh Hb Hf Hfr Hall Hrun.
  destruct (RunBacktest_fields UseMLAnalyze be be1 klines r Hrun)
    as [_ [_ [H1 [_ [_ [_ [_ [_ [_ [H2 [_ [_ [H3 H4]]]]]]]]]]]]].
  assert (Hfresh' : fresh (timedEngine be klines))
    by (apply timedEngine_fresh; exact Hfresh).
  destruct (zero_balance_loop UseMLAnalyze (timedEngine be klines) klines f
              (length klines - 26) Hfresh' Hb Hf Hfr Hall)
    as [Hc [Hh [Ht [Hcfg [HM HD]]]]]; [lia|].
  destruct H4 as [H4 _]. rewrite H1, H2, H3, H4, runLoop_prefix.
  unfold GetPortfolioValue. rewrite Hh, map_fold_empty, Hc, Ht, Hcfg, HM, HD.
  change (config (timedEngine be klines)) with (config be). rewrite Hb.
  cbn [fsub fneg fadd fdiv].
  assert (E0 : Reqb 0 0 = true) by (apply Reqb_true; reflexivity).
  rewrite E0. unfold signedInf.
  assert (E1 : Rltb 0 (0 + - 0) = false) by (apply Rltb_false; lra).
  assert (E2 : Rltb (0 + - 0) 0 = false) by (apply Rltb_false; lra).
  assert (E3 : Rltb 0 0 = false) by (apply Rltb_false; lra).
  rewrite E1, E2, E3. cbn [fmul].
  split; [reflexivity|]. split; [apply Fin_inj; lra|]. split; reflexivity.
Qed.

(** The counters of the pairing never go below zero. *)
Lemma pairTrade_counts (l : list Trade) (s : TradeStats) :
  (0 <= winningTrades s)%Z -> (0 <= losingTrades s)%Z ->
  (0 <= winningTrades (fold_left pairTrade l s))%Z /\
  (0 <= losingTrades (fold_left pairTrade l s))%Z.
Proof.
  revert s. induction l as [|tr l IH]; intros s Hw Hl; [auto|].
  cbn [fold_left]. apply IH; unfold pairTrade;
    destruct (last (buyTrades s));
    repeat match goal with
           | |- context [if ?c then _ else _] => destruct c
           end;
    cbn [winningTrades losingTrades]; lia.
Qed.

Lemma RunBacktest_winrate (UseMLAnalyze : bool) (be be1 : BacktestEngine)
    (klines : list Kline) (r : BacktestResult) :
  RunBacktest UseMLAnalyze be (Some klines) = Some (r, be1) ->
  WinRate r
  = if (0 <? WinningTrades r + LosingTrades r)%Z
    then fmul (fdiv (ofZ (WinningTrades r)) (ofZ (WinningTrades r + LosingTrades r)))
              (Fin 100)
    else Fin 0.
Proof.
  unfold RunBacktest. destruct klines as [|k0 klines]; [discriminate|].
  intros H. injection H as <- <-. reflexivity.
Qed.

(** X13.  The win rate of a result is a finite percentage between 0 and
    100, and it is 0 when no trade was completed: the division by the number
    of completed trades is guarded. *)
Theorem run_win_rate_bounds (UseMLAnalyze : bool) (be be1 : BacktestEngine)
    (klines : list Kline) (r : BacktestResult) :
  RunBacktest UseMLAnalyze be (Some klines) = Some (r, be1) ->
  exists w : R,
    WinRate r = Fin w /\ 0 <= w <= 100 /\
    ((WinningTrades r + LosingTrades r = 0)%Z -> w = 0).
Proof.
  intros Hrun. rewrite (RunBacktest_winrate UseMLAnalyze be be1 klines r Hrun).
  destruct (RunBacktest_fields UseMLAnalyze be be1 klines r Hrun)
    as [_ [_ [_ [_ [HW [HL _]]]]]].
  destruct (pairTrade_counts
              (trades (engine (runLoop UseMLAnalyze (timedEngine be klines) klines)))
              noStats) as [Hw Hl]; [cbn; lia | cbn; lia |].
  rewrite <- HW in Hw. rewrite <- HL in Hl.
  destruct (0 <? WinningTrades r + LosingTrades r)%Z eqn:E.
  - apply Z.ltb_lt in E. unfold ofZ.
    assert (Hpos : 0 < IZR (WinningTrades r + LosingTrades r)) by (apply IZR_lt; exact E).
    rewrite fdiv_fin by lra. cbn [fmul]. eexists. split; [reflexivity|].
    assert (H0 : 0 <= IZR (WinningTrades r)) by (apply IZR_le; exact Hw).
    assert (H1 : IZR (WinningTrades r) <= IZR (WinningTrades r + LosingTrades r))
      by (apply IZR_le; lia).
    assert (Hq0 : 0 <= IZR (WinningTrades r) / IZR (WinningTrades r + LosingTrades r)).
    { apply Rmult_le_pos; [exact H0 | apply Rlt_le, Rinv_0_lt_compat; exact Hpos]. }
    assert (Hq1 : IZR (WinningTrades r) / IZR (WinningTrades r + LosingTrades r) <= 1).
    { apply (Rmult_le_reg_r (IZR (WinningTrades r + LosingTrades r))); [exact Hpos|].
      unfold Rdiv. rewrite Rmult_assoc, Rinv_l by lra. lra. }
    split; [lra|]. intros H0'. lia.
  - exists 0. split; [reflexivity|]. split; [lra|]. reflexivity.
Qed.

(** The value at the end of the loop is finite and not negative. *)
Lemma final_value_finite (UseMLAnalyze : bool) (be : BacktestEngine)
    (klines : list Kline) (b f : R) :
  fresh be -> InitialBalance (config be) = Fin b -> 0 <= b ->
  TransactionFee (config be) = Fin f -> 0 <= f <= 1 ->
  Forall (fun k => (0 < Close k)%Q) klines ->
  exists v : R,
    GetPortfolioValue (engine (runLoop UseMLAnalyze be klines)) = Fin v /\ 0 <= v.
Proof.
  intros Hfresh Hb Hb0 Hf Hfr Hall. rewrite runLoop_prefix.
  destruct (le_lt_dec (length klines) 26) as [Hle | Hgt].
  - replace (length klines - 26)%nat with 0%nat by lia.
    destruct Hfresh as [Hpf _]. unfold loopPrefix.
    cbn [seq fold_left initialLoopState engine]. unfold GetPortfolioValue.
    rewrite Hpf. cbn [NewBacktestEngine portfolio Cash Holdings LastPrices].
    rewrite map_fold_empty. exists b. auto.
  - destruct (run_invariant UseMLAnalyze be klines b f (length klines - 26)
                Hfresh Hb Hb0 Hf Hfr Hall) as [_ [_ [_ Hstats]]]; [lia|].
    destruct Hstats as [M [D [_ [_ [_ [_ [Hec _]]]]]]].
    revert Hec.
    replace (length klines - 26)%nat with (S (length klines - 27)) by lia.
    rewrite loopPrefix_S. unfold loopBody. cbn [engine equityCurve].
    intros Hec. apply Forall_app in Hec. destruct Hec as [_ Hlast].
    inversion Hlast as [|x l [v [Hv Hv0]] _]. exists v. split; [exact Hv | lra].
Qed.



End Results.

(** *** The theorems on sample runs *)

Lemma flatKlines_nonempty (n : nat) (p : Z) : flatKlines (S n) p <> [].
Proof. unfold flatKlines. simpl. discriminate. Qed.






Lemma final_value_is_last_equity_point_witness :
  exists (r : BacktestResult) (be1 : BacktestEngine),
    @RunBacktest reference false (NewBacktestEngine sampleConfig)
                 (Some (flatKlines 30 100)) = Some (r, be1) /\
    last (EquityCurve r) = Some (FinalValue r).
Proof.
  destruct (@RunBacktest_runs reference false (NewBacktestEngine sampleConfig)
              (flatKlines 30 100) (flatKlines_nonempty 29 100)) as [r [be1 E]].
  exists r, be1. split; [exact E|].
  apply (@final_value_is_last_equity_point reference false
           (NewBacktestEngine sampleConfig) be1 (flatKlines 30 100) r).
  - unfold flatKlines. rewrite length_map, length_seq. lia.
  - exact E.
Defined.

Lemma short_series_does_nothing_witness :
  exists (r : BacktestResult) (be1 : BacktestEngine),
    @RunBacktest reference false (NewBacktestEngine sampleConfig)
                 (Some (flatKlines 20 100)) = Some (r, be1) /\
    Trades r = [] /\ EquityCurve r = [] /\ FinalValue r = Fin 10000.
Proof.
  destruct (@RunBacktest_runs reference false (NewBacktestEngine sampleConfig)
              (flatKlines 20 100) (flatKlines_nonempty 19 100)) as [r [be1 E]].
  exists r, be1. split; [exact E|].
  destruct (@short_series_does_nothing reference false (NewBacktestEngine sampleConfig)
              be1 (flatKlines 20 100) r) as [H1 [_ [H2 [_ [_ [_ [_ H3]]]]]]].
  - split; reflexivity.
  - unfold flatKlines. rewrite length_map, length_seq. lia.
  - exact E.
  - split; [exact H1|]. split; [exact H2 | exact H3].
Defined.

Lemma ml_mode_never_trades_witness :
  exists (r : BacktestResult) (be1 : BacktestEngine),
    @RunBacktest reference true (NewBacktestEngine sampleConfig)
                 (Some (flatKlines 30 100)) = Some (r, be1) /\
    Trades r = [] /\ FinalValue r = Fin 10000.
Proof.
  destruct (@RunBacktest_runs reference true (NewBacktestEngine sampleConfig)
              (flatKlines 30 100) (flatKlines_nonempty 29 100)) as [r [be1 E]].
  exists r, be1. split; [exact E|].
  destruct (@ml_mode_never_trades reference (NewBacktestEngine sampleConfig)
              be1 (flatKlines 30 100) r) as [H1 [_ [_ [_ [_ [H2 _]]]]]].
  - split; reflexivity.
  - exact E.
  - split; [exact H1 | exact H2].
Defined.

Lemma zero_balance_reports_nan_witness :
  exists (r : BacktestResult) (be1 : BacktestEngine),
    @RunBacktest reference false (NewBacktestEngine emptyPurseConfig)
                 (Some (flatKlines 30 100)) = Some (r, be1) /\
    TotalReturnPct r = NaN /\ MaxDrawdownPct r = NaN.
Proof.
  destruct (@RunBacktest_runs reference false (NewBacktestEngine emptyPurseConfig)
              (flatKlines 30 100) (flatKlines_nonempty 29 100)) as [r [be1 E]].
  exists r, be1. split; [exact E|].
  destruct (@zero_balance_reports_nan reference false (NewBacktestEngine emptyPurseConfig)
              be1 (flatKlines 30 100) r (1 / 1000)) as [_ [_ [H1 H2]]].
  - split; reflexivity.
  - reflexivity.
  - reflexivity.
  - lra.
  - apply flatKlines_positive. lia.
  - exact E.
  - split; [exact H1 | exact H2].
Defined.

Lemma run_win_rate_bounds_witness :
  exists (r : BacktestResult) (be1 : BacktestEngine),
    @RunBacktest reference false (NewBacktestEngine sampleConfig)
                 (Some (flatKlines 30 100)) = Some (r, be1) /\
    exists w : R, WinRate r = Fin w /\ 0 <= w <= 100.
Proof.
  destruct (@RunBacktest_runs reference false (NewBacktestEngine sampleConfig)
              (flatKlines 30 100) (flatKlines_nonempty 29 100)) as [r [be1 E]].
  exists r, be1. split; [exact E|].
  destruct (@run_win_rate_bounds reference false (NewBacktestEngine sampleConfig)
              be1 (flatKlines 30 100) r E) as [w [Hw [Hr _]]].
  exists w. split; [exact Hw | exact Hr].
Defined.



End BacktestMore.

(* ===================================================================== *)
(** ** Further properties of the signal *)
(* ===================================================================== *)

Module AnalyzeMore.
Import Techan Analyze Notions AnalyzeProofs.

Local Open Scope Q_scope.

Lemma close_indicator_of_closes (ts ts' : TimeSeries) :
  map ClosePrice ts = map ClosePrice ts' ->
  NewClosePriceIndicator ts = NewClosePriceIndicator ts'.
Proof.
  intros H. apply functional_extensionality. intros i.
  unfold NewClosePriceIndicator, candleAt.
  destruct (i <? 0)%Z; [reflexivity|].
  rewrite <- (map_nth ClosePrice ts zeroCandle), <- (map_nth ClosePrice ts' zeroCandle).
  rewrite H. reflexivity.
Qed.

Section Generic.
Context {lib : Library}.

(** X14.  The classic signal reads the closing prices and nothing else: two
    series with the same closes get the same answer, whatever their symbols,
    periods, opens, highs, lows and volumes. *)
Theorem analyzeClassic_reads_closes_only (symbol symbol' : string)
    (ts ts' : TimeSeries) :
  map ClosePrice ts = map ClosePrice ts' ->
  analyzeClassic symbol ts = analyzeClassic symbol' ts'.
Proof.
  intros H. unfold analyzeClassic.
  rewrite (close_indicator_of_closes ts ts' H).
  assert (Hlen : LastIndex ts = LastIndex ts').
  { unfold LastIndex. apply (f_equal (@length Q)) in H.
    rewrite !length_map in H. rewrite H. reflexivity. }
  rewrite Hlen. reflexivity.
Qed.

(** X15.  The signal is one of WAIT, BUY, SELL and HOLD; the classic rule
    answers WAIT exactly when the series has fewer than 27 bars, and the
    model-based mode answers HOLD even then. *)
Theorem analyze_answers (symbol : string) (ts : TimeSeries) :
  (forall mode : bool, In (analyze mode symbol ts) ["WAIT"; "BUY"; "SELL"; "HOLD"]) /\
  (analyze false symbol ts = "WAIT" <-> (length ts < 27)%nat) /\
  analyze true symbol ts = "HOLD".
Proof.
  split.
  - intros [|]; [simpl; tauto | apply analyzeClassic_range].
  - split; [|reflexivity]. cbn [analyze]. split.
    + intros H. apply LastIndex_lt_26. unfold analyzeClassic in H.
      destruct (LastIndex ts <? 26)%Z; [reflexivity|]. cbv zeta in H.
      repeat match type of H with
             | context [if ?c then _ else _] => destruct c
             end; discriminate.
    + apply analyzeClassic_wait.
Qed.

(** X16.  On a series of at least 27 bars the code answers BUY exactly when
    EMA9 crosses above EMA21, the RSI is below 70 and the signal line of the
    MACD is positive, and SELL exactly when EMA9 crosses below EMA21, the
    RSI is above 30 and the signal line is negative; the two never hold
    together. *)
Theorem classic_rules_as_coded (symbol : string) (ts : TimeSeries) :
  (27 <= length ts)%nat ->
  (analyzeClassic symbol ts = "BUY" <->
   crossesAbove ts /\ rsiNow ts < 70 /\ 0 < signalLine ts (LastIndex ts)) /\
  (analyzeClassic symbol ts = "SELL" <->
   crossesBelow ts /\ 30 < rsiNow ts /\ signalLine ts (LastIndex ts) < 0) /\
  ~ ((crossesAbove ts /\ rsiNow ts < 70 /\ 0 < signalLine ts (LastIndex ts)) /\
     (crossesBelow ts /\ 30 < rsiNow ts /\ signalLine ts (LastIndex ts) < 0)).
Proof.
  intros Hlen.
  split; [apply analyzeClassic_buy_iff; exact Hlen|].
  split; [apply analyzeClassic_sell_iff; exact Hlen|].
  intros [[_ [_ H1]] [_ [_ H2]]]. lra.
Qed.

End Generic.

Lemma analyzeClassic_reads_closes_only_witness :
  @analyzeClassic reference "BTCUSDT" (Samples.flatSeries 27)
  = @analyzeClassic reference "ETHUSDT"
      (map (fun c => {| Period := Period c; OpenPrice := 1; ClosePrice := ClosePrice c;
                        MaxPrice := 500; MinPrice := 1; Volume := 7 |})
           (Samples.flatSeries 27)).
Proof.
  apply (@analyzeClassic_reads_closes_only reference).
  reflexivity.
Defined.

Lemma classic_rules_as_coded_witness :
  @analyzeClassic reference "BTCUSDT" Samples.recovery = "BUY" <->
  @crossesAbove reference Samples.recovery /\
  @rsiNow reference Samples.recovery < 70 /\
  0 < @signalLine reference Samples.recovery (LastIndex Samples.recovery).
Proof.
  refine (proj1 (@classic_rules_as_coded reference "BTCUSDT" Samples.recovery _)).
  unfold Samples.recovery, Samples.seriesOfCloses, Samples.recoveryCloses.
  rewrite length_map, length_app. simpl. lia.
Defined.

End AnalyzeMore.

(* ===================================================================== *)
(** ** Further properties of the predictor *)
(* ===================================================================== *)

Module MLMore.
Import Techan Analyze Backtest MLStrategy Float64Facts Samples Notions.
Import BacktestProofs MLProofs.

Local Open Scope R_scope.

(** *** Features are finite *)

Lemma sanitized_is_finite (f : TradingFeatures) : finiteFeatures (sanitizeFeatures f).
Proof.
  unfold finiteFeatures. cbn [sanitizeFeatures PriceChange1 PriceChange5 PriceChange10
    RSI EMA9 EMA21 EMASpread MACD MACDSignal MACDHistogram VolumeRatio VolumeMA ATR
    BollingerWidth BollingerPosition HighLowRatio CandleBody CandleWick HourOfDay
    DayOfWeek FutureReturn].
  repeat (constructor; [apply sanitize_finite|]). constructor.
Qed.

Lemma sanitize_of_finite (v : float64) : isFinite v = true -> sanitize v = v.
Proof. destruct v; [reflexivity | discriminate..]. Qed.

Lemma AddTrainingData_fields (ml : MLModel) (f : TradingFeatures) :
  config (AddTrainingData ml f) = config ml /\
  trainedWeights (AddTrainingData ml f) = trainedWeights ml /\
  featureStats (AddTrainingData ml f) = featureStats ml /\
  trainingCount (AddTrainingData ml f) = trainingCount ml /\
  lastTraining (AddTrainingData ml f) = lastTraining ml.
Proof.
  unfold AddTrainingData. cbv zeta.
  destruct (LookbackPeriod (config ml) <? _)%Z; repeat split; reflexivity.
Qed.

Lemma AddTrainingData_features (ml : MLModel) (f : TradingFeatures) :
  features (AddTrainingData ml f)
  = if (LookbackPeriod (config ml) <? Z.of_nat (S (length (features ml))))%Z
    then skipn 1 (features ml ++ [sanitizeFeatures f])
    else features ml ++ [sanitizeFeatures f].
Proof.
  unfold AddTrainingData. cbv zeta. rewrite length_app. cbn [length].
  replace (length (features ml) + 1)%nat with (S (length (features ml))) by lia.
  destruct (LookbackPeriod (config ml) <? _)%Z; reflexivity.
Qed.

Section Extraction.
Context {lib : Library}.

(** X17.  [ExtractFeatures] never returns a NaN or an infinity: every
    numeric field of the record it returns is a finite number, and the two
    time fields lie in [0, 1). *)
Theorem extracted_features_are_finite (ml : MLModel) (ts : TimeSeries) (index : Z)
    (now : Time) (f : TradingFeatures) :
  ExtractFeatures ml ts index now = Some f ->
  finiteFeatures f /\
  (exists h d : R, HourOfDay f = Fin h /\ DayOfWeek f = Fin d /\
                   0 <= h < 1 /\ 0 <= d < 1).
Proof.
  unfold ExtractFeatures. destruct (index <? FeatureWindow (config ml))%Z; [discriminate|].
  intros H. injection H as <-. split; [apply sanitized_is_finite|].
  destruct (time_features_of_clock ts index now) as [Hh Hd].
  destruct (time_features_unit_interval now) as [Hh' Hd'].
  eexists. eexists. split; [exact Hh|]. split; [exact Hd|]. split; assumption.
Qed.

End Extraction.

Lemma extracted_features_are_finite_witness :
  exists f : TradingFeatures,
    @ExtractFeatures reference window20Model (flatSeries 30) 29 0%Z = Some f /\
    finiteFeatures f.
Proof.
  eexists. split; [reflexivity|].
  apply (proj1 (@extracted_features_are_finite reference window20Model (flatSeries 30)
                  29 0%Z _ eq_refl)).
Defined.

(** *** Volume features *)

Lemma volume_of_built_series (klines : list Kline) (i : Z) :
  NewVolumeIndicator (seriesOf klines) i = 0%Q.
Proof.
  unfold NewVolumeIndicator, candleAt. destruct (i <? 0)%Z; [reflexivity|].
  rewrite seriesOf_map.
  destruct (nth_in_or_default (Z.to_nat i) (map candleOf klines) zeroCandle) as [H | ->];
    [|reflexivity].
  apply in_map_iff in H. destruct H as [k [<- _]]. reflexivity.
Qed.

Lemma Q2R_zero : Q2R 0 = 0.
Proof. unfold Q2R. simpl. lra. Qed.

Section Volume.
Context {lib : Library}.

(** X19.  On a series built from klines the two volume features carry no
    information: the candles are built with volume 0, so [VolumeMA] is 0
    and [VolumeRatio] is 1 at every index. *)
Theorem volume_features_are_constant (ml : MLModel) (klines : list Kline)
    (index : Z) (now : Time) (f : TradingFeatures) :
  (0 <= index < Z.of_nat (length klines))%Z ->
  ExtractFeatures ml (seriesOf klines) index now = Some f ->
  VolumeRatio f = Fin 1 /\ VolumeMA f = Fin 0.
Proof.
  intros Hi. unfold ExtractFeatures.
  destruct (index <? FeatureWindow (config ml))%Z; [discriminate|].
  intros H. injection H as <-.
  cbn [sanitizeFeatures rawFeatures VolumeRatio VolumeMA].
  assert (Hsma : calculateSMA (NewVolumeIndicator (seriesOf klines)) index 20 = Fin 0).
  { unfold calculateSMA. destruct (index <? 20 - 1)%Z; [reflexivity|].
    rewrite (fold_sum_const _ 0).
    - unfold ofZ. rewrite fdiv_fin by lra. apply Fin_inj. field.
    - intros i _. rewrite volume_of_built_series. apply Q2R_zero. }
  rewrite Hsma.
  assert (E : fgt (Fin 0) (Fin 0) = false) by (apply fgt_fin_false; lra).
  rewrite E. split; reflexivity.
Qed.

(** *** No look-ahead in the local features *)

Lemma priceChange_causal (ind1 ind2 : Indicator) (index back : Z) :
  (0 <= back)%Z ->
  (forall i, (0 <= i <= index)%Z -> ind1 i = ind2 i) ->
  priceChange ind1 index back = priceChange ind2 index back.
Proof.
  intros Hb H. unfold priceChange.
  destruct (back <=? index)%Z eqn:E; [|reflexivity]. apply Z.leb_le in E.
  rewrite (H index), (H (index - back)%Z) by lia. reflexivity.
Qed.

(** X20.  The features that [ExtractFeatures] computes itself (price
    changes, volume, ATR, Bollinger band, candle shape) at an index of the
    series do not depend on the bars after that index. *)
Theorem local_features_have_no_lookahead (ml : MLModel) (ts extra : TimeSeries)
    (index : Z) (now : Time) :
  (0 <= index < Z.of_nat (length ts))%Z ->
  option_map localFeatures (ExtractFeatures ml (ts ++ extra) index now)
  = option_map localFeatures (ExtractFeatures ml ts index now).
Proof.
  intros Hi. unfold ExtractFeatures.
  destruct (index <? FeatureWindow (config ml))%Z; [reflexivity|].
  cbn [option_map]. f_equal.
  assert (Hc : forall i, (0 <= i <= index)%Z ->
             NewClosePriceIndicator (ts ++ extra) i = NewClosePriceIndicator ts i).
  { intros i Hle. unfold NewClosePriceIndicator. rewrite candleAt_app by lia.
    reflexivity. }
  assert (Hv : forall i, (0 <= i <= index)%Z ->
             NewVolumeIndicator (ts ++ extra) i = NewVolumeIndicator ts i).
  { intros i Hle. unfold NewVolumeIndicator. rewrite candleAt_app by lia.
    reflexivity. }
  assert (Hh : NewHighPriceIndicator (ts ++ extra) index = NewHighPriceIndicator ts index).
  { unfold NewHighPriceIndicator. rewrite candleAt_app by lia. reflexivity. }
  assert (Hl : NewLowPriceIndicator (ts ++ extra) index = NewLowPriceIndicator ts index).
  { unfold NewLowPriceIndicator. rewrite candleAt_app by lia. reflexivity. }
  destruct (bollinger_inputs_causal ts extra index Hi) as [Hsma Hsd].
  unfold localFeatures.
  cbn [sanitizeFeatures rawFeatures PriceChange1 PriceChange5 PriceChange10
       VolumeRatio VolumeMA ATR BollingerWidth BollingerPosition HighLowRatio
       CandleBody CandleWick].
  rewrite (priceChange_causal _ _ index 1 ltac:(lia) Hc),
          (priceChange_causal _ _ index 5 ltac:(lia) Hc),
          (priceChange_causal _ _ index 10 ltac:(lia) Hc),
          (calculateSMA_causal _ _ index 20 Hv),
          (calculateATR_causal ts extra index 14 Hi),
          Hsma, Hsd, Hh, Hl, (Hc index ltac:(lia)), (Hv index ltac:(lia)),
          (candleAt_app ts extra index Hi).
  reflexivity.
Qed.

End Volume.

Lemma flatSeries_is_built (n : nat) :
  seriesOf (flatKlines n 100)
  = map (fun k => candleOf (flatKline (Z.of_nat k) 100)) (seq 0 n).
Proof. rewrite seriesOf_map. unfold flatKlines. apply map_map. Qed.

Lemma volume_features_are_constant_witness :
  exists f : TradingFeatures,
    @ExtractFeatures reference window20Model (seriesOf (flatKlines 30 100)) 29 0%Z
    = Some f /\ VolumeRatio f = Fin 1 /\ VolumeMA f = Fin 0.
Proof.
  eexists. split; [reflexivity|].
  apply (@volume_features_are_constant reference window20Model (flatKlines 30 100)
           29 0%Z _).
  - unfold flatKlines. rewrite length_map, length_seq. lia.
  - reflexivity.
Defined.

Lemma local_features_have_no_lookahead_witness :
  option_map localFeatures
    (@ExtractFeatures reference window20Model (flatSeries 30 ++ flatSeries 5) 29 0%Z)
  = option_map localFeatures
      (@ExtractFeatures reference window20Model (flatSeries 30) 29 0%Z).
Proof.
  apply (@local_features_have_no_lookahead reference window20Model (flatSeries 30)
           (flatSeries 5) 29 0%Z).
  unfold flatSeries, seriesOfCloses. rewrite length_map, repeat_length. lia.
Defined.

(** *** Normalization and prediction *)

Lemma normalize_finite (ml : MLModel) (name : string) (v : float64) :
  isFinite (normalize ml name v) = true.
Proof.
  unfold normalize. destruct (featureStats ml !! name) as [st|]; [|reflexivity].
  destruct (feq (StdDev st) (Fin 0) || IsNaN v || IsInf v); [reflexivity|].
  cbv zeta. destruct (fdiv (fsub v (Mean st)) (StdDev st)); reflexivity.
Qed.

Lemma calculateFeatureStats_fields (ml : MLModel) :
  config (calculateFeatureStats ml) = config ml /\
  features (calculateFeatureStats ml) = features ml /\
  trainedWeights (calculateFeatureStats ml) = trainedWeights ml /\
  lastTraining (calculateFeatureStats ml) = lastTraining ml /\
  trainingCount (calculateFeatureStats ml) = trainingCount ml /\
  performance (calculateFeatureStats ml) = performance ml /\
  l2Lambda (calculateFeatureStats ml) = l2Lambda ml.
Proof.
  unfold calculateFeatureStats.
  destruct (length (features ml) <? 10)%nat; repeat split; reflexivity.
Qed.

Lemma NormalizeFeatures_fields (ml : MLModel) (f : TradingFeatures) :
  config (fst (NormalizeFeatures ml f)) = config ml /\
  features (fst (NormalizeFeatures ml f)) = features ml /\
  trainedWeights (fst (NormalizeFeatures ml f)) = trainedWeights ml /\
  lastTraining (fst (NormalizeFeatures ml f)) = lastTraining ml /\
  trainingCount (fst (NormalizeFeatures ml f)) = trainingCount ml /\
  performance (fst (NormalizeFeatures ml f)) = performance ml /\
  l2Lambda (fst (NormalizeFeatures ml f)) = l2Lambda ml.
Proof.
  unfold NormalizeFeatures. cbv zeta. cbn [fst].
  destruct (size (featureStats ml) =? 0)%nat;
    [apply calculateFeatureStats_fields | repeat split; reflexivity].
Qed.

Lemma normalized_is_finite (ml : MLModel) (f : TradingFeatures) :
  finiteFeatures f -> finiteFeatures (snd (NormalizeFeatures ml f)).
Proof.
  unfold finiteFeatures, NormalizeFeatures. cbv zeta.
  cbn [snd PriceChange1 PriceChange5 PriceChange10
    RSI EMA9 EMA21 EMASpread MACD MACDSignal MACDHistogram VolumeRatio VolumeMA ATR
    BollingerWidth BollingerPosition HighLowRatio CandleBody CandleWick HourOfDay
    DayOfWeek FutureReturn].
  rewrite !Forall_cons. intros H.
  repeat match goal with
         | |- _ /\ _ => split
         | |- isFinite (normalize _ _ _) = true => apply normalize_finite
         | |- Forall _ [] => constructor
         end; tauto.
Qed.

Lemma fadd_finite (a b : float64) :
  isFinite a = true -> isFinite b = true -> isFinite (fadd a b) = true.
Proof. destruct a, b; try discriminate; reflexivity. Qed.

Lemma fmul_finite (a b : float64) :
  isFinite a = true -> isFinite b = true -> isFinite (fmul a b) = true.
Proof. destruct a, b; try discriminate; reflexivity. Qed.

Lemma fsub_finite (a b : float64) :
  isFinite a = true -> isFinite b = true -> isFinite (fsub a b) = true.
Proof. destruct a, b; try discriminate; reflexivity. Qed.

Lemma weight_finite (w : gmap string float64) (name : string) :
  finiteWeights w -> isFinite (weight w name) = true.
Proof.
  intros H. unfold weight. destruct (w !! name) as [v|] eqn:E; [|reflexivity].
  exact (H name v E).
Qed.

Lemma predictValue_finite (ml : MLModel) (f : TradingFeatures) :
  finiteWeights (trainedWeights ml) -> finiteFeatures f ->
  isFinite (predictValue ml f) = true.
Proof.
  intros Hw Hf. unfold finiteFeatures in Hf. rewrite !Forall_cons in Hf.
  unfold predictValue. cbv zeta.
  repeat apply fadd_finite; try apply fmul_finite;
    try apply weight_finite; try exact Hw; tauto.
Qed.

Lemma Predict_finite (ml : MLModel) (f : TradingFeatures) :
  finiteWeights (trainedWeights ml) -> finiteFeatures f ->
  isFinite (ExpectedReturn (fst (Predict ml f))) = true.
Proof.
  intros Hw Hf. unfold Predict.
  destruct (size (trainedWeights ml) =? 0)%nat; [reflexivity|].
  pose proof (normalized_is_finite ml f Hf) as Hn.
  destruct (NormalizeFeatures_fields ml f) as [_ [_ [Hw1 _]]].
  destruct (NormalizeFeatures ml f) as [ml1 nf]. cbn [fst snd] in Hn, Hw1.
  assert (Hp : isFinite (predictValue ml1 nf) = true).
  { apply predictValue_finite; [rewrite Hw1; exact Hw | exact Hn]. }
  destruct (fgt (predictValue ml1 nf) (Fin (1 / 1000))); [exact Hp|].
  destruct (flt (predictValue ml1 nf) (fneg (Fin (1 / 1000)))); exact Hp.
Qed.



(** X22.  A prediction is BUY, SELL or HOLD with a confidence between 0
    and 1: HOLD has confidence 0, BUY and SELL have a confidence above
    0.1, and BUY (SELL) is answered exactly when the expected return is
    above 0.001 (below -0.001); a model without weights answers HOLD. *)
Theorem predict_confidence_range (ml : MLModel) (f : TradingFeatures) :
  let r := fst (Predict ml f) in
  In (Direction r) ["BUY"; "SELL"; "HOLD"] /\
  (exists c : R, Confidence r = Fin c /\ 0 <= c <= 1 /\
     (Direction r = "HOLD" -> c = 0) /\
     (Direction r <> "HOLD" -> 1 / 10 < c)) /\
  (Direction r = "BUY" <-> fgt (ExpectedReturn r) (Fin (1 / 1000)) = true) /\
  (Direction r = "SELL" <-> flt (ExpectedReturn r) (Fin (- (1 / 1000))) = true) /\
  (trainedWeights ml = ∅ -> Direction r = "HOLD").
Proof.
  cbv zeta. unfold Predict.
  destruct (size (trainedWeights ml) =? 0)%nat eqn:Es.
  - cbn [fst Direction Confidence ExpectedReturn].
    assert (E1 : fgt (Fin 0) (Fin (1 / 1000)) = false) by (apply fgt_fin_false; lra).
    assert (E2 : flt (Fin 0) (Fin (- (1 / 1000))) = false) by (apply flt_fin_false; lra).
    rewrite E1, E2.
    split; [simpl; tauto|].
    split; [exists 0; repeat split; try lra; intros H; congruence|].
    split; [split; discriminate|]. split; [split; discriminate|]. reflexivity.
  - destruct (NormalizeFeatures ml f) as [ml1 nf].
    assert (Hne : trainedWeights ml = ∅ -> False).
    { intros He. rewrite He in Es. rewrite map_size_empty in Es. discriminate. }
    set (e := predictValue ml1 nf).
    change (fneg (Fin (1 / 1000))) with (Fin (- (1 / 1000))).
    assert (Hconf : forall x : float64,
              fgt x (Fin (1 / 1000)) = true \/ flt x (Fin (- (1 / 1000))) = true ->
              exists c : R, fmin (fmul (fabs x) (Fin 100)) (Fin 1) = Fin c /\
                            1 / 10 < c <= 1).
    { intros x Hx. destruct x as [x| | |].
      - cbn [fabs fmul fmin]. eexists. split; [reflexivity|].
        assert (Habs : 1 / 1000 < Rabs x).
        { destruct Hx as [Hx | Hx].
          - apply fgt_fin in Hx. rewrite Rabs_right by lra. lra.
          - apply flt_fin in Hx. rewrite Rabs_left by lra. lra. }
        unfold Rmin. destruct (Rle_dec (Rabs x * 100) 1); lra.
      - exists 1. cbn [fabs fmul]. unfold signedInf.
        assert (E : Rltb 0 100 = true) by (apply Rltb_true; lra).
        rewrite E. cbn [fmin]. split; [reflexivity | lra].
      - exists 1. cbn [fabs fmul]. unfold signedInf.
        assert (E : Rltb 0 100 = true) by (apply Rltb_true; lra).
        rewrite E. cbn [fmin]. split; [reflexivity | lra].
      - destruct Hx as [Hx | Hx]; discriminate Hx. }
    destruct (fgt e (Fin (1 / 1000))) eqn:E1.
    + cbn [fst Direction Confidence ExpectedReturn]. rewrite E1.
      destruct (Hconf e (or_introl E1)) as [c [Hc Hr]].
      split; [simpl; tauto|].
      split; [exists c; split; [exact Hc|]; split; [lra|]; split;
              [discriminate | intros _; lra]|].
      split; [tauto|].
      split; [|intros He; contradiction].
      split; [discriminate|]. intros E2. exfalso.
      destruct e as [x| | |]; try discriminate.
      apply fgt_fin in E1. apply flt_fin in E2. lra.
    + destruct (flt e (Fin (- (1 / 1000)))) eqn:E2.
      * cbn [fst Direction Confidence ExpectedReturn]. rewrite E1, E2.
        destruct (Hconf e (or_intror E2)) as [c [Hc Hr]].
        split; [simpl; tauto|].
        split; [exists c; split; [exact Hc|]; split; [lra|]; split;
                [discriminate | intros _; lra]|].
        split; [split; discriminate|].
        split; [tauto|]. intros He; contradiction.
      * cbn [fst Direction Confidence ExpectedReturn]. rewrite E1, E2.
        split; [simpl; tauto|].
        split; [exists 0; split; [reflexivity|]; split; [lra|]; split;
                [reflexivity | intros H; congruence]|].
        split; [split; discriminate|].
        split; [split; discriminate|]. reflexivity.
Qed.

(** X23.  [Predict] does not train: configuration, buffer, weights,
    training count, last training time and performance are those of the
    model it was given; only the feature statistics may be filled in, and
    the result carries the features as they were passed. *)
Theorem predict_keeps_model (ml : MLModel) (f : TradingFeatures) :
  let ml' := snd (Predict ml f) in
  config ml' = config ml /\ features ml' = features ml /\
  trainedWeights ml' = trainedWeights ml /\
  trainingCount ml' = trainingCount ml /\ lastTraining ml' = lastTraining ml /\
  performance ml' = performance ml /\
  (featureStats ml <> ∅ -> ml' = ml) /\
  (trainedWeights ml <> ∅ -> Features (fst (Predict ml f)) = f).
Proof.
  cbv zeta. unfold Predict.
  destruct (size (trainedWeights ml) =? 0)%nat eqn:Es.
  - cbn [snd fst]. repeat split; try reflexivity.
    intros Hne. exfalso. apply Hne. apply map_size_empty_iff.
    apply Nat.eqb_eq in Es. exact Es.
  - destruct (NormalizeFeatures_fields ml f) as [H1 [H2 [H3 [H4 [H5 [H6 _]]]]]].
    assert (Hst : featureStats ml <> ∅ -> fst (NormalizeFeatures ml f) = ml).
    { intros Hne. unfold NormalizeFeatures. cbv zeta. cbn [fst].
      destruct (size (featureStats ml) =? 0)%nat eqn:E; [|reflexivity].
      exfalso. apply Hne. apply map_size_empty_iff. apply Nat.eqb_eq in E. exact E. }
    destruct (NormalizeFeatures ml f) as [ml1 nf]. cbn [fst] in *.
    destruct (fgt (predictValue ml1 nf) (Fin (1 / 1000)));
      [|destruct (flt (predictValue ml1 nf) (fneg (Fin (1 / 1000))))];
      cbn [snd fst Features]; repeat split; auto.
Qed.

(** *** Training *)

Lemma sameBuffer_refl (ml : MLModel) : sameBuffer ml ml.
Proof. repeat split; reflexivity. Qed.

Lemma sameBuffer_trans (a b c : MLModel) :
  sameBuffer a b -> sameBuffer b c -> sameBuffer a c.
Proof.
  intros [H1 [H2 [H3 [H4 H5]]]] [K1 [K2 [K3 [K4 K5]]]].
  repeat split; congruence.
Qed.

Lemma NormalizeFeatures_same (ml : MLModel) (f : TradingFeatures) :
  sameBuffer ml (fst (NormalizeFeatures ml f)).
Proof.
  destruct (NormalizeFeatures_fields ml f) as [H1 [H2 [_ [H3 [H4 [_ H5]]]]]].
  repeat split; assumption.
Qed.

Lemma finiteWeights_insert (w : gmap string float64) (name : string) (x : float64) :
  finiteWeights w -> isFinite x = true -> finiteWeights (<[name := x]> w).
Proof.
  intros Hw Hx k v Hk. apply lookup_insert_Some in Hk.
  destruct Hk as [[_ <-] | [_ Hk]]; [exact Hx | exact (Hw k v Hk)].
Qed.

Lemma goodWeights_insert (w : gmap string float64) (name : string) (x : float64) :
  goodWeights w -> isFinite x = true -> goodWeights (<[name := x]> w).
Proof.
  intros [Hw Hb] Hx. split; [apply finiteWeights_insert; assumption|].
  apply lookup_insert_is_Some. destruct (decide (name = "bias")); auto.
Qed.

Lemma learningRate_finite : isFinite learningRate = true.
Proof. reflexivity. Qed.

Lemma update_good (error : float64) (w : gmap string float64) (name : string)
    (value : float64) :
  goodWeights w -> isFinite error = true -> goodWeights (update error w name value).
Proof.
  intros Hw He. unfold update.
  destruct value as [x| | |]; cbn [IsNaN IsInf orb]; try exact Hw.
  apply goodWeights_insert; [exact Hw|].
  apply fadd_finite; [apply weight_finite; apply Hw|].
  apply fmul_finite; [apply fmul_finite; [reflexivity | exact He] | reflexivity].
Qed.

Lemma clip_finite (e : float64) : isFinite e = true -> isFinite (clip e) = true.
Proof.
  intros H. unfold clip. destruct (fgt e (Fin 1)); [reflexivity|].
  destruct (flt e (Fin (-1))); [reflexivity | exact H].
Qed.

Lemma predictValue_normalized (ml ml0 : MLModel) (f : TradingFeatures) :
  finiteWeights (trainedWeights ml) ->
  isFinite (predictValue ml (snd (NormalizeFeatures ml0 f))) = true.
Proof.
  intros Hw. unfold predictValue, NormalizeFeatures. cbv zeta.
  cbn [snd PriceChange1 PriceChange5 PriceChange10 RSI EMASpread MACDHistogram ATR
       BollingerPosition VolumeRatio].
  repeat apply fadd_finite; try apply fmul_finite;
    try apply weight_finite; try exact Hw; apply normalize_finite.
Qed.

Lemma trainSample_keeps (ml : MLModel) (e : float64) (data : TradingFeatures) :
  goodWeights (trainedWeights ml) -> isFinite (FutureReturn data) = true ->
  sameBuffer ml (fst (trainSample (ml, e) data)) /\
  goodWeights (trainedWeights (fst (trainSample (ml, e) data))).
Proof.
  intros Hw Hfr. unfold trainSample.
  pose proof (NormalizeFeatures_same ml data) as Hs.
  destruct (NormalizeFeatures_fields ml data) as [_ [_ [Hw1 _]]].
  pose proof (predictValue_normalized (fst (NormalizeFeatures ml data)) ml data) as Hp.
  destruct (NormalizeFeatures ml data) as [ml1 nf]. cbn [fst snd] in *. cbv zeta.
  rewrite Hw1 in Hp. specialize (Hp (proj1 Hw)).
  set (error := clip (fsub (FutureReturn data) (predictValue ml1 nf))).
  assert (He : isFinite error = true).
  { apply clip_finite. apply fsub_finite; assumption. }
  split.
  - destruct Hs as [H1 [H2 [H3 [H4 H5]]]]. repeat split; assumption.
  - cbn [withWeights trainedWeights]. rewrite Hw1.
    match goal with
    | |- goodWeights (<[_ := fadd (weight ?w9 _) _]> _) =>
      assert (Hg : goodWeights w9) by (repeat apply update_good; assumption)
    end.
    apply goodWeights_insert; [exact Hg|].
    apply fadd_finite; [|apply fmul_finite; [reflexivity | exact He]].
    apply weight_finite. apply Hg.
Qed.

Lemma trainSamples_keep (trainData : list TradingFeatures) (ml : MLModel) (e : float64) :
  goodWeights (trainedWeights ml) ->
  Forall (fun d => isFinite (FutureReturn d) = true) trainData ->
  sameBuffer ml (fst (fold_left trainSample trainData (ml, e))) /\
  goodWeights (trainedWeights (fst (fold_left trainSample trainData (ml, e)))).
Proof.
  intros Hw Hall. revert ml e Hw.
  induction Hall as [|d l Hd _ IH]; intros ml e Hw.
  - cbn [fold_left fst]. split; [apply sameBuffer_refl | exact Hw].
  - cbn [fold_left].
    destruct (trainSample_keeps ml e d Hw Hd) as [Hs Hg].
    destruct (trainSample (ml, e) d) as [ml1 e1]. cbn [fst] in Hs, Hg.
    destruct (IH ml1 e1 Hg) as [Hs' Hg'].
    split; [exact (sameBuffer_trans _ _ _ Hs Hs') | exact Hg'].
Qed.

Lemma decayWeights_good (l2 : float64) (w : gmap string float64) :
  goodWeights w -> goodWeights (decayWeights l2 w).
Proof.
  intros [Hw Hb]. unfold decayWeights. split.
  - intros k v Hk. rewrite map_lookup_imap in Hk.
    destruct (w !! k) as [x|] eqn:E; [|discriminate]. cbn in Hk.
    injection Hk as <-. pose proof (Hw k x E) as Hx.
    destruct (String.eqb k "bias"); [exact Hx|].
    destruct (finiteWeight x); [|exact Hx].
    match goal with
    | |- context [finiteWeight ?d] =>
      destruct (finiteWeight d) eqn:Ed; [|exact Hx];
      apply fsub_finite; [exact Hx|];
      unfold finiteWeight in Ed; destruct d; try discriminate; reflexivity
    end.
  - destruct Hb as [x Hx]. rewrite map_lookup_imap, Hx. cbn. eauto.
Qed.

Lemma trainEpoch_keeps (trainData : list TradingFeatures) (ml : MLModel) :
  goodWeights (trainedWeights ml) ->
  Forall (fun d => isFinite (FutureReturn d) = true) trainData ->
  sameBuffer ml (trainEpoch trainData ml) /\
  goodWeights (trainedWeights (trainEpoch trainData ml)).
Proof.
  intros Hw Hall. unfold trainEpoch.
  destruct (trainSamples_keep trainData ml (Fin 0) Hw Hall) as [Hs Hg].
  destruct (fold_left trainSample trainData (ml, Fin 0)) as [ml1 e1].
  cbn [fst] in Hs, Hg. cbv zeta.
  pose proof (decayWeights_good (l2Lambda ml1) _ Hg) as Hd.
  destruct Hs as [H1 [H2 [H3 [H4 H5]]]].
  destruct (0 <? length trainData)%nat;
    (split; [repeat split; assumption | exact Hd]).
Qed.

Lemma trainEpochs_keep (epochs : nat) (trainData : list TradingFeatures) (ml : MLModel) :
  goodWeights (trainedWeights ml) ->
  Forall (fun d => isFinite (FutureReturn d) = true) trainData ->
  sameBuffer ml (trainEpochs epochs trainData ml) /\
  goodWeights (trainedWeights (trainEpochs epochs trainData ml)).
Proof.
  intros Hw Hall. revert ml Hw. induction epochs as [|n IH]; intros ml Hw.
  - cbn [trainEpochs]. split; [apply sameBuffer_refl | exact Hw].
  - cbn [trainEpochs]. cbv zeta.
    destruct (trainEpoch_keeps trainData ml Hw Hall) as [Hs Hg].
    destruct (flt (TrainingLoss (performance (trainEpoch trainData ml))) (Fin (1 / 10000))).
    + split; assumption.
    + destruct (IH _ Hg) as [Hs' Hg'].
      split; [exact (sameBuffer_trans _ _ _ Hs Hs') | exact Hg'].
Qed.

Lemma trainLinearModel_keeps (ml : MLModel) (trainData : list TradingFeatures) :
  finiteWeights (trainedWeights ml) ->
  Forall (fun d => isFinite (FutureReturn d) = true) trainData ->
  sameBuffer ml (trainLinearModel ml trainData) /\
  goodWeights (trainedWeights (trainLinearModel ml trainData)).
Proof.
  intros Hw Hall. unfold trainLinearModel. cbv zeta.
  match goal with
  | |- context [trainEpochs 100 trainData (withWeights ml ?w0)] =>
    assert (Hg : goodWeights w0)
  end.
  { split.
    - repeat (apply finiteWeights_insert; [|reflexivity]). exact Hw.
    - rewrite lookup_insert_eq. eauto. }
  match goal with
  | |- context [trainEpochs 100 trainData ?m] =>
    destruct (trainEpochs_keep 100 trainData m Hg Hall) as [Hs Hg']
  end.
  split; [|exact Hg'].
  destruct Hs as [H1 [H2 [H3 [H4 H5]]]]. repeat split; assumption.
Qed.

Lemma evalSample_keeps (ml : MLModel) (c : EvalCounts) (d : TradingFeatures) :
  sameBuffer ml (fst (evalSample (ml, c) d)) /\
  trainedWeights (fst (evalSample (ml, c) d)) = trainedWeights ml.
Proof.
  unfold evalSample.
  pose proof (NormalizeFeatures_same ml (sanitizeFeatures d)) as Hs.
  destruct (NormalizeFeatures_fields ml (sanitizeFeatures d)) as [_ [_ [Hw _]]].
  destruct (NormalizeFeatures ml (sanitizeFeatures d)) as [ml1 nf].
  cbn [fst] in *. cbv zeta. cbn [fst]. split; assumption.
Qed.

Lemma evalSamples_keep (validationData : list TradingFeatures) (ml : MLModel)
    (c : EvalCounts) :
  sameBuffer ml (fst (fold_left evalSample validationData (ml, c))) /\
  trainedWeights (fst (fold_left evalSample validationData (ml, c)))
  = trainedWeights ml.
Proof.
  revert ml c. induction validationData as [|d l IH]; intros ml c.
  - cbn [fold_left fst]. split; [apply sameBuffer_refl | reflexivity].
  - cbn [fold_left].
    destruct (evalSample_keeps ml c d) as [Hs Hw].
    destruct (evalSample (ml, c) d) as [ml1 c1]. cbn [fst] in Hs, Hw.
    destruct (IH ml1 c1) as [Hs' Hw'].
    split; [exact (sameBuffer_trans _ _ _ Hs Hs') | congruence].
Qed.

Lemma evaluateModel_keeps (ml : MLModel) (validationData : list TradingFeatures) :
  sameBuffer ml (evaluateModel ml validationData) /\
  trainedWeights (evaluateModel ml validationData) = trainedWeights ml.
Proof.
  unfold evaluateModel. destruct validationData as [|d l];
    [split; [apply sameBuffer_refl | reflexivity]|].
  match goal with
  | |- context [fold_left evalSample ?v (ml, ?c)] =>
    destruct (evalSamples_keep v ml c) as [Hs Hw];
    destruct (fold_left evalSample v (ml, c)) as [ml1 c1]
  end.
  cbn [fst] in Hs, Hw. cbv zeta.
  destruct Hs as [H1 [H2 [H3 [H4 H5]]]].
  split; [repeat split; assumption | exact Hw].
Qed.

Lemma finite_future_returns (l : list TradingFeatures) :
  Forall finiteFeatures l -> Forall (fun d => isFinite (FutureReturn d) = true) l.
Proof.
  intros H. eapply Forall_impl; [exact H|]. intros d Hd.
  unfold finiteFeatures in Hd. rewrite !Forall_cons in Hd. tauto.
Qed.

(** What a successful call of [TrainModel] leaves. *)
Lemma TrainModel_result (ml : MLModel) (now : Time) :
  (MinTrainingPeriod (config ml) <= Z.of_nat (length (features ml)))%Z ->
  Forall finiteFeatures (features ml) ->
  fst (TrainModel ml now) = None /\
  config (snd (TrainModel ml now)) = config ml /\
  features (snd (TrainModel ml now)) = features ml /\
  lastTraining (snd (TrainModel ml now)) = now /\
  trainingCount (snd (TrainModel ml now)) = (trainingCount ml + 1)%Z /\
  goodWeights (trainedWeights (snd (TrainModel ml now))).
Proof.
  intros Hlen Hfin. unfold TrainModel. cbv zeta.
  destruct (Z.of_nat (length (features ml)) <? MinTrainingPeriod (config ml))%Z eqn:E;
    [apply Z.ltb_lt in E; lia|].
  cbn [fst snd config features lastTraining trainingCount trainedWeights].
  destruct (calculateFeatureStats_fields ml) as [C1 [C2 [_ [C3 [C4 [_ C5]]]]]].
  set (ml1 := calculateFeatureStats ml) in *.
  match goal with
  | |- context [evaluateModel (trainLinearModel (withWeights ml1 ∅) ?td) ?vd] =>
    set (trainData := td); set (validationData := vd)
  end.
  assert (Htd : Forall (fun d => isFinite (FutureReturn d) = true) trainData).
  { apply finite_future_returns. subst trainData. rewrite C2.
    apply Forall_take. exact Hfin. }
  assert (Hw0 : finiteWeights (trainedWeights (withWeights ml1 ∅))).
  { intros k v Hk. cbn [withWeights trainedWeights] in Hk.
    rewrite lookup_empty in Hk. discriminate. }
  destruct (trainLinearModel_keeps (withWeights ml1 ∅) trainData Hw0 Htd) as [Hs Hg].
  destruct (evaluateModel_keeps (trainLinearModel (withWeights ml1 ∅) trainData)
              validationData) as [Hs' Hw'].
  pose proof (sameBuffer_trans _ _ _ Hs Hs') as [K1 [K2 [K3 [K4 K5]]]].
  cbn [withWeights config features lastTraining trainingCount] in K1, K2, K4.
  split; [reflexivity|]. split; [congruence|]. split; [congruence|].
  split; [reflexivity|]. split; [congruence|]. rewrite Hw'. exact Hg.
Qed.

Lemma ShouldRetrain_enough (ml : MLModel) (now : Time) :
  ShouldRetrain ml now = true ->
  (MinTrainingPeriod (config ml) <= Z.of_nat (length (features ml)))%Z.
Proof.
  unfold ShouldRetrain. cbv zeta.
  destruct (size (trainedWeights ml) =? 0)%nat.
  - intros H. apply Z.leb_le. exact H.
  - intros H. apply andb_true_iff in H. apply Z.leb_le. apply H.
Qed.


(** X25.  Training on a sanitized buffer leaves finite weights, the bias
    among them, and the trained model predicts a finite expected return on
    every finite feature record. *)
Theorem trained_model_is_finite (ml : MLModel) (now : Time) (f : TradingFeatures) :
  (MinTrainingPeriod (config ml) <= Z.of_nat (length (features ml)))%Z ->
  features ml <> [] -> Forall finiteFeatures (features ml) ->
  finiteFeatures f ->
  let ml' := snd (TrainModel ml now) in
  finiteWeights (trainedWeights ml') /\
  (exists b : R, trainedWeights ml' !! "bias" = Some (Fin b)) /\
  isFinite (ExpectedReturn (fst (Predict ml' f))) = true.
Proof.
  intros Hlen _ Hfin Hf. cbv zeta.
  destruct (TrainModel_result ml now Hlen Hfin) as [_ [_ [_ [_ [_ [Hw [x Hx]]]]]]].
  split; [exact Hw|]. split.
  - pose proof (Hw "bias" x Hx) as Hfx. destruct x as [b| | |]; try discriminate.
    exists b. exact Hx.
  - apply Predict_finite; assumption.
Qed.

Lemma calculateFeatureStats_withWeights (ml : MLModel) (w : gmap string float64) :
  calculateFeatureStats (withWeights ml w) = withWeights (calculateFeatureStats ml) w.
Proof.
  unfold calculateFeatureStats. cbn [withWeights features].
  destruct (length (features ml) <? 10)%nat; reflexivity.
Qed.

(** X27.  Every training starts from scratch: the weights a model holds
    before [TrainModel] have no influence on the model it leaves. *)
Theorem retraining_forgets_old_weights (ml : MLModel) (w : gmap string float64)
    (now : Time) :
  (MinTrainingPeriod (config ml) <= Z.of_nat (length (features ml)))%Z ->
  TrainModel (withWeights ml w) now = TrainModel ml now.
Proof.
  intros Hlen. unfold TrainModel. cbv zeta.
  rewrite calculateFeatureStats_withWeights.
  cbn [withWeights features config].
  destruct (Z.of_nat (length (features ml)) <? MinTrainingPeriod (config ml))%Z eqn:E;
    [apply Z.ltb_lt in E; lia|].
  reflexivity.
Qed.

Lemma zero_samples_finite (n : nat) : Forall finiteFeatures (repeat zeroFeatures n).
Proof.
  apply List.Forall_forall. intros x Hx. apply repeat_spec in Hx.
  subst x. unfold finiteFeatures. repeat constructor.
Qed.

Lemma model100_ready :
  (MinTrainingPeriod (config model100) <= Z.of_nat (length (features model100)))%Z /\
  features model100 <> [] /\ Forall finiteFeatures (features model100).
Proof.
  unfold model100. cbn [withFeatures features config sampleMLConfig NewMLModel
                        MinTrainingPeriod].
  split; [rewrite repeat_length; lia|]. split; [discriminate|].
  apply zero_samples_finite.
Qed.


Lemma trained_model_is_finite_witness :
  isFinite (ExpectedReturn (fst (Predict (snd (TrainModel model100 0%Z)) zeroFeatures)))
  = true.
Proof.
  destruct model100_ready as [H1 [H2 H3]].
  apply (trained_model_is_finite model100 0%Z zeroFeatures H1 H2 H3).
  unfold finiteFeatures. repeat constructor.
Defined.

Lemma retraining_forgets_old_weights_witness :
  TrainModel (withWeights model100 {[ "bias" := Fin 1 ]}) 0%Z = TrainModel model100 0%Z.
Proof.
  apply retraining_forgets_old_weights. apply model100_ready.
Defined.

(** *** Evaluation *)

Lemma ratio_is_rate (a b : Z) :
  (0 <= a <= b)%Z -> (0 < b)%Z -> isRate (fdiv (ofZ a) (ofZ b)).
Proof.
  intros [Ha Hab] Hb. unfold ofZ.
  assert (Hb' : 0 < IZR b) by (apply IZR_lt; exact Hb).
  rewrite fdiv_fin by lra. eexists. split; [reflexivity|].
  apply IZR_le in Ha, Hab. split.
  - apply Rmult_le_pos; [exact Ha | apply Rlt_le, Rinv_0_lt_compat; exact Hb'].
  - apply (Rmult_le_reg_r (IZR b)); [exact Hb'|]. unfold Rdiv.
    rewrite Rmult_assoc, Rinv_l by lra. lra.
Qed.

Lemma evalSample_counts (ml : MLModel) (c : EvalCounts) (d : TradingFeatures) :
  let c' := snd (evalSample (ml, c) d) in
  (correct c <= correct c' <= correct c + 1)%Z /\
  (truePositives c <= truePositives c')%Z /\
  (falsePositives c <= falsePositives c')%Z /\
  (falseNegatives c <= falseNegatives c')%Z /\
  performance (fst (evalSample (ml, c) d)) = performance ml.
Proof.
  cbv zeta. unfold evalSample.
  destruct (NormalizeFeatures_fields ml (sanitizeFeatures d))
    as [_ [_ [_ [_ [_ [Hp _]]]]]].
  destruct (NormalizeFeatures ml (sanitizeFeatures d)) as [ml1 nf].
  cbn [fst] in Hp. cbv zeta.
  cbn [fst snd correct truePositives falsePositives falseNegatives].
  repeat match goal with
         | |- context [if ?b then _ else _] => destruct b
         end; repeat split; try lia; exact Hp.
Qed.

Lemma evalSamples_counts (l : list TradingFeatures) (ml : MLModel) (c : EvalCounts) :
  let c' := snd (fold_left evalSample l (ml, c)) in
  (correct c <= correct c' <= correct c + Z.of_nat (length l))%Z /\
  (truePositives c <= truePositives c')%Z /\
  (falsePositives c <= falsePositives c')%Z /\
  (falseNegatives c <= falseNegatives c')%Z /\
  performance (fst (fold_left evalSample l (ml, c))) = performance ml.
Proof.
  cbv zeta. revert ml c. induction l as [|d l IH]; intros ml c.
  - cbn [fold_left snd fst length]. repeat split; try lia.
  - cbn [fold_left].
    pose proof (evalSample_counts ml c d) as H. cbv zeta in H.
    destruct (evalSample (ml, c) d) as [ml1 c1]. cbn [fst snd] in H.
    specialize (IH ml1 c1). cbn [length].
    destruct H as [H1 [H2 [H3 [H4 H5]]]]. destruct IH as [K1 [K2 [K3 [K4 K5]]]].
    repeat split; try lia. congruence.
Qed.

(** X26.  After an evaluation on a non-empty validation set the accuracy
    is a finite number between 0 and 1, and precision, recall and F1 score
    are too when they were before (as in a new model, where they are 0):
    every division is guarded. *)
Theorem evaluation_metrics_are_rates (ml : MLModel)
    (validationData : list TradingFeatures) :
  validationData <> [] ->
  isRate (Precision (performance ml)) -> isRate (Recall (performance ml)) ->
  isRate (F1Score (performance ml)) ->
  let perf := performance (evaluateModel ml validationData) in
  isRate (Accuracy perf) /\ isRate (Precision perf) /\
  isRate (Recall perf) /\ isRate (F1Score perf).
Proof.
  intros Hne Hp Hr Hf. cbv zeta. unfold evaluateModel.
  destruct validationData as [|d l]; [contradiction|].
  set (v := d :: l).
  set (c0 := {| correct := 0; totalError := Fin 0; truePositives := 0;
                falsePositives := 0; falseNegatives := 0 |}).
  pose proof (evalSamples_counts v ml c0) as H. cbv zeta in H.
  destruct (fold_left evalSample v (ml, c0)) as [ml1 c]. cbn [fst snd] in H.
  destruct H as [[H1 H1'] [H2 [H3 [H4 H5]]]].
  cbn [c0 correct truePositives falsePositives falseNegatives] in H1, H1', H2, H3, H4.
  cbv zeta. cbn [withPerformance performance Accuracy Precision Recall F1Score].
  rewrite H5.
  assert (Hlen : (0 < Z.of_nat (length v))%Z) by (subst v; cbn [length]; lia).
  assert (HP : isRate (if (0 <? truePositives c + falsePositives c)%Z
                       then fdiv (ofZ (truePositives c))
                                 (ofZ (truePositives c + falsePositives c))
                       else Precision (performance ml))).
  { destruct (0 <? truePositives c + falsePositives c)%Z eqn:E; [|exact Hp].
    apply Z.ltb_lt in E. apply ratio_is_rate; lia. }
  assert (HR : isRate (if (0 <? truePositives c + falseNegatives c)%Z
                       then fdiv (ofZ (truePositives c))
                                 (ofZ (truePositives c + falseNegatives c))
                       else Recall (performance ml))).
  { destruct (0 <? truePositives c + falseNegatives c)%Z eqn:E; [|exact Hr].
    apply Z.ltb_lt in E. apply ratio_is_rate; lia. }
  split; [apply ratio_is_rate; lia|]. split; [exact HP|]. split; [exact HR|].
  destruct HP as [p [-> [Hp0 Hp1]]]. destruct HR as [r [-> [Hr0 Hr1]]].
  cbn [fadd fmul].
  destruct (fgt (Fin (p + r)) (Fin 0)) eqn:E; [|exact Hf].
  apply fgt_fin in E. rewrite fdiv_fin by lra.
  eexists. split; [reflexivity|]. split.
  - apply Rmult_le_pos; [nra | apply Rlt_le, Rinv_0_lt_compat; exact E].
  - apply (Rmult_le_reg_r (p + r)); [exact E|]. unfold Rdiv.
    rewrite Rmult_assoc, Rinv_l by lra. nra.
Qed.

Lemma evaluation_metrics_are_rates_witness :
  isRate (Accuracy (performance (evaluateModel model100 [zeroFeatures]))).
Proof.
  assert (H0 : isRate (Fin 0)) by (exists 0; split; [reflexivity | lra]).
  apply (evaluation_metrics_are_rates model100 [zeroFeatures]).
  - discriminate.
  - exact H0.
  - exact H0.
  - exact H0.
Defined.

(** *** The training buffer *)

Lemma buffer_step (ml : MLModel) (f : TradingFeatures) :
  (Z.of_nat (length (features ml)) <= LookbackPeriod (config ml))%Z ->
  Forall finiteFeatures (features ml) ->
  Z.of_nat (length (features (AddTrainingData ml f)))
  = Z.min (Z.of_nat (length (features ml)) + 1) (LookbackPeriod (config ml)) /\
  Forall finiteFeatures (features (AddTrainingData ml f)).
Proof.
  intros Hlen Hfin. rewrite AddTrainingData_features.
  assert (Hall : Forall finiteFeatures (features ml ++ [sanitizeFeatures f])).
  { apply Forall_app. split; [exact Hfin|].
    constructor; [apply sanitized_is_finite | constructor]. }
  destruct (LookbackPeriod (config ml) <? Z.of_nat (S (length (features ml))))%Z eqn:E.
  - apply Z.ltb_lt in E. split.
    + rewrite length_skipn, length_app. cbn [length]. lia.
    + destruct (features ml ++ [sanitizeFeatures f]) as [|x l]; [constructor|].
      cbn [skipn]. inversion Hall; assumption.
  - apply Z.ltb_ge in E. split; [|exact Hall].
    rewrite length_app. cbn [length]. lia.
Qed.

Lemma buffer_fold (fs : list TradingFeatures) (ml : MLModel) :
  (Z.of_nat (length (features ml)) <= LookbackPeriod (config ml))%Z ->
  Forall finiteFeatures (features ml) ->
  let ml' := fold_left AddTrainingData fs ml in
  Z.of_nat (length (features ml'))
  = Z.min (Z.of_nat (length (features ml)) + Z.of_nat (length fs))
          (LookbackPeriod (config ml)) /\
  Forall finiteFeatures (features ml') /\
  config ml' = config ml /\ trainedWeights ml' = trainedWeights ml /\
  trainingCount ml' = trainingCount ml.
Proof.
  revert ml. induction fs as [|f fs IH]; intros ml Hlen Hfin; cbv zeta.
  - cbn [fold_left length]. split; [lia|]. auto.
  - cbn [fold_left].
    destruct (buffer_step ml f Hlen Hfin) as [Hl1 Hf1].
    destruct (AddTrainingData_fields ml f) as [Hc [Hw [_ [Ht _]]]].
    destruct (IH (AddTrainingData ml f)) as [H1 [H2 [H3 [H4 H5]]]].
    + rewrite Hc, Hl1. lia.
    + exact Hf1.
    + rewrite H1, H3, H4, H5, Hc, Hl1, Hw, Ht. cbn [length].
      split; [lia|]. auto.
Qed.

(** X18.  The training buffer is a sliding window of sanitized samples:
    after any sequence of [AddTrainingData] on a new model, it holds
    min(number of samples added, LookbackPeriod) records, all of them
    finite whatever was added, the newest one last; weights and training
    count are untouched. *)
Theorem training_buffer_is_bounded_and_finite (cfg : MLConfig)
    (fs : list TradingFeatures) :
  (0 <= LookbackPeriod cfg)%Z ->
  let ml := fold_left AddTrainingData fs (NewMLModel cfg) in
  Z.of_nat (length (features ml))
  = Z.min (Z.of_nat (length fs)) (LookbackPeriod cfg) /\
  Forall finiteFeatures (features ml) /\
  (forall f : TradingFeatures, (0 < LookbackPeriod cfg)%Z ->
     last (features (AddTrainingData ml f)) = Some (sanitizeFeatures f)) /\
  trainedWeights ml = ∅ /\ trainingCount ml = 0%Z.
Proof.
  intros HL. cbv zeta.
  destruct (buffer_fold fs (NewMLModel cfg)) as [H1 [H2 [H3 [H4 H5]]]];
    [cbn; lia | constructor |].
  cbn [NewMLModel features config length trainedWeights trainingCount] in H1, H3, H4, H5.
  split; [rewrite H1; f_equal|]. split; [exact H2|]. split; [|auto].
  intros f Hpos. rewrite AddTrainingData_features, H3.
  cbn [NewMLModel config].
  set (l := features (fold_left AddTrainingData fs (NewMLModel cfg))) in *.
  destruct (LookbackPeriod cfg <? Z.of_nat (S (length l)))%Z eqn:E.
  - apply Z.ltb_lt in E. destruct l as [|x l]; [cbn [length] in E; lia|].
    cbn [app skipn]. rewrite skipn_0. apply last_snoc.
  - apply last_snoc.
Qed.

Lemma training_buffer_is_bounded_and_finite_witness :
  Z.of_nat (length (features (fold_left AddTrainingData (repeat zeroFeatures 5)
                                        (NewMLModel sampleMLConfig))))
  = Z.min 5 1000.
Proof.
  apply (training_buffer_is_bounded_and_finite sampleMLConfig (repeat zeroFeatures 5)).
  simpl. lia.
Defined.

End MLMore.

(* ===================================================================== *)
(** ** Properties of the simulations (ml_cli.go) *)
(* ===================================================================== *)

Module MLCliProofs.
Import Techan Analyze Backtest MLStrategy MLCli Float64Facts Samples Notions.
Import BacktestProofs MLProofs MLMore.

Local Open Scope R_scope.

(** *** The prediction test *)

Lemma notNegative_add (a b : float64) :
  notNegative a -> fgt b (Fin 0) = true -> notNegative (fadd a b).
Proof.
  intros [-> | [x [-> Hx]]] Hb; destruct b as [y| | |]; try discriminate Hb.
  - left. reflexivity.
  - left. reflexivity.
  - apply fgt_fin in Hb. right. exists (x + y). split; [reflexivity | lra].
  - left. reflexivity.
Qed.

Lemma fneg_positive (b : float64) :
  flt b (Fin 0) = true -> fgt (fneg b) (Fin 0) = true.
Proof.
  destruct b as [y| | |]; try discriminate; intros H.
  - apply flt_fin in H. cbn [fneg]. apply fgt_fin. lra.
  - reflexivity.
Qed.

Lemma testStep_keeps (st : TestState) (d : TradingFeatures) :
  notNegative (predictedReturns st) ->
  notNegative (predictedReturns (testStep st d)) /\
  (correct st <= correct (testStep st d) <= correct st + 1)%Z /\
  (isFinite (predictedReturns st) = true -> isFinite (FutureReturn d) = true ->
   isFinite (predictedReturns (testStep st d)) = true).
Proof.
  intros Hn. unfold testStep.
  destruct (Predict (tested st) d) as [prediction ml1]. cbv zeta.
  cbn [predictedReturns correct].
  split; [|split].
  - destruct (String.eqb (Direction prediction) "BUY" && fgt (FutureReturn d) (Fin 0))
      eqn:E1.
    + apply andb_true_iff in E1. apply notNegative_add; [exact Hn | apply E1].
    + destruct (String.eqb (Direction prediction) "SELL" && flt (FutureReturn d) (Fin 0))
        eqn:E2; [|exact Hn].
      apply andb_true_iff in E2. apply notNegative_add; [exact Hn|].
      apply fneg_positive. apply E2.
  - match goal with
    | |- context [if ?b then (correct st + 1)%Z else correct st] => destruct b; lia
    end.
  - intros H1 H2.
    destruct (String.eqb (Direction prediction) "BUY" && fgt (FutureReturn d) (Fin 0)).
    + apply fadd_finite; assumption.
    + destruct (String.eqb (Direction prediction) "SELL"
                && flt (FutureReturn d) (Fin 0)); [|exact H1].
      apply fadd_finite; [exact H1|]. destruct (FutureReturn d); try discriminate.
      reflexivity.
Qed.

Lemma testSteps_keep (testData : list TradingFeatures) (st : TestState) :
  notNegative (predictedReturns st) ->
  let st' := fold_left testStep testData st in
  notNegative (predictedReturns st') /\
  (correct st <= correct st' <= correct st + Z.of_nat (length testData))%Z /\
  (isFinite (predictedReturns st) = true ->
   Forall (fun d => isFinite (FutureReturn d) = true) testData ->
   isFinite (predictedReturns st') = true).
Proof.
  cbv zeta. revert st. induction testData as [|d l IH]; intros st Hn.
  - cbn [fold_left length]. split; [exact Hn|]. split; [lia | auto].
  - cbn [fold_left length].
    destruct (testStep_keeps st d Hn) as [H1 [H2 H3]].
    destruct (IH (testStep st d) H1) as [K1 [K2 K3]].
    split; [exact K1|]. split; [lia|].
    intros Hf Hall. inversion Hall as [|x l' Hd Hl]. subst.
    apply K3; [apply H3; assumption | exact Hl].
Qed.


(** *** The trading simulation of the comparison *)

Section Simulation.
Context {lib : Library}.
Variable clock : Z -> Time.

Lemma tradeStep_keeps (klines : list Kline) (ts : TimeSeries) (st : SimState) (i : Z) :
  (0 <= mlWins st)%Z ->
  (2 * mlWins st + (if fgt (position st) (Fin 0) then 1 else 0) <= mlTrades st)%Z ->
  let st' := tradeStep clock klines ts st i in
  (0 <= mlWins st')%Z /\
  (2 * mlWins st' + (if fgt (position st') (Fin 0) then 1 else 0) <= mlTrades st')%Z.
Proof.
  intros Hw Hinv. cbv zeta. unfold tradeStep.
  destruct (ExtractFeatures (model st) ts i (clock i)) as [features|]; [|auto].
  destruct (Predict (model st) features) as [prediction ml1]. cbv zeta.
  destruct (String.eqb (Direction prediction) "BUY" && feq (position st) (Fin 0)) eqn:E1.
  - apply andb_true_iff in E1. destruct E1 as [_ E1].
    assert (Hp : fgt (position st) (Fin 0) = false).
    { destruct (position st) as [x| | |]; try discriminate E1.
      apply feq_fin in E1. apply fgt_fin_false. lra. }
    rewrite Hp in Hinv. cbn [mlWins mlTrades position].
    split; [exact Hw|].
    destruct (fgt (fdiv (cash st) (closeAt klines i)) (Fin 0)); lia.
  - destruct (String.eqb (Direction prediction) "SELL" && fgt (position st) (Fin 0))
      eqn:E2.
    + apply andb_true_iff in E2. destruct E2 as [_ E2]. rewrite E2 in Hinv.
      cbn [mlWins mlTrades position].
      assert (E0 : fgt (Fin 0) (Fin 0) = false) by (apply fgt_fin_false; lra).
      rewrite E0.
      destruct (fgt (fmul (position st) (closeAt klines i)) (Fin 10000)); split; lia.
    + cbn [mlWins mlTrades position]. auto.
Qed.

Lemma tradeSteps_keep (klines : list Kline) (ts : TimeSeries) (l : list Z)
    (st : SimState) :
  (0 <= mlWins st)%Z ->
  (2 * mlWins st + (if fgt (position st) (Fin 0) then 1 else 0) <= mlTrades st)%Z ->
  let st' := fold_left (tradeStep clock klines ts) l st in
  (0 <= mlWins st')%Z /\ (2 * mlWins st' <= mlTrades st')%Z.
Proof.
  cbv zeta. revert st. induction l as [|i l IH]; intros st Hw Hinv.
  - cbn [fold_left]. split; [exact Hw|].
    destruct (fgt (position st) (Fin 0)); lia.
  - cbn [fold_left].
    destruct (tradeStep_keeps klines ts st i Hw Hinv) as [H1 H2].
    apply IH; assumption.
Qed.

(** X28.  In the strategy comparison the model-based side counts every
    BUY and every SELL as a trade but a win only on a SELL: twice the
    number of wins never exceeds the number of trades, so the win rate it
    reports is a finite percentage of at most 50, whatever the model and
    the prices. *)
Theorem comparison_win_rate_at_most_half (lookbackPeriod minTrainingPeriod : Z)
    (klines : list Kline) (trainTime : Time) (out : MLOutcome) :
  simulateML clock lookbackPeriod minTrainingPeriod klines trainTime = Some out ->
  (0 <= outcomeWins out)%Z /\ (2 * outcomeWins out <= outcomeTrades out)%Z /\
  exists w : R, mlWinRate out = Fin w /\ 0 <= w <= 50.
Proof.
  unfold simulateML. cbv zeta.
  match goal with
  | |- context [TrainModel ?m trainTime] => destruct (TrainModel m trainTime) as [err trained]
  end.
  destruct err as [e|]; [discriminate|].
  intros H. injection H as <-.
  cbn [outcomeWins outcomeTrades mlWinRate].
  match goal with
  | |- context [fold_left (tradeStep clock klines ?ts) ?l ?st0] =>
    destruct (tradeSteps_keep klines ts l st0) as [Hw Ht];
      [cbn; lia | cbn [mlWins mlTrades position];
                  assert (E0 : fgt (Fin 0) (Fin 0) = false)
                    by (apply fgt_fin_false; lra);
                  rewrite E0; lia |];
    set (st := fold_left (tradeStep clock klines ts) l st0) in *
  end.
  split; [exact Hw|]. split; [exact Ht|].
  destruct (0 <? mlTrades st)%Z eqn:E.
  - apply Z.ltb_lt in E. unfold ofZ.
    assert (Hpos : 0 < IZR (mlTrades st)) by (apply IZR_lt; exact E).
    assert (Eq : Reqb (IZR (mlTrades st)) 0 = false) by (apply Reqb_false; lra).
    rewrite Eq. cbn [fmul]. eexists. split; [reflexivity|].
    assert (H0 : 0 <= IZR (mlWins st)) by (apply IZR_le; exact Hw).
    assert (H1 : 2 * IZR (mlWins st) <= IZR (mlTrades st)).
    { rewrite <- mult_IZR. apply IZR_le. exact Ht. }
    assert (Hq0 : 0 <= IZR (mlWins st) / IZR (mlTrades st)).
    { apply Rmult_le_pos; [exact H0 | apply Rlt_le, Rinv_0_lt_compat; exact Hpos]. }
    assert (Hq1 : 2 * (IZR (mlWins st) / IZR (mlTrades st)) <= 1).
    { apply (Rmult_le_reg_r (IZR (mlTrades st))); [exact Hpos|]. unfold Rdiv.
      rewrite Rmult_assoc, Rmult_assoc, Rinv_l by lra. lra. }
    lra.
  - exists 0. split; [reflexivity | lra].
Qed.

(** The samples collected for training are sanitized. *)
Lemma collectStep_finite (klines : list Kline) (ts : TimeSeries) (ml : MLModel) (i : Z) :
  Forall finiteFeatures (features ml) ->
  Forall finiteFeatures (features (collectStep clock klines ts ml i)).
Proof.
  intros H. unfold collectStep.
  destruct (ExtractFeatures ml ts i (clock i)) as [f|]; [|exact H].
  cbv zeta. rewrite AddTrainingData_features.
  match goal with
  | |- context [features ml ++ [?x]] =>
    assert (Hall : Forall finiteFeatures (features ml ++ [x]))
  end.
  { apply Forall_app. split; [exact H|].
    constructor; [apply sanitized_is_finite | constructor]. }
  destruct (LookbackPeriod (config ml) <? _)%Z; [|exact Hall].
  apply Forall_drop. exact Hall.
Qed.

End Simulation.


Lemma comparison_win_rate_at_most_half_witness :
  exists out : MLOutcome,
    @simulateML reference (fun _ => 0%Z) 100 1 (flatKlines 62 100) 0%Z = Some out /\
    (2 * outcomeWins out <= outcomeTrades out)%Z.
Proof.
  destruct (@simulateML reference (fun _ => 0%Z) 100 1 (flatKlines 62 100) 0%Z)
    as [out|] eqn:E.
  - exists out. split; [reflexivity|].
    apply (@comparison_win_rate_at_most_half reference (fun _ => 0%Z) 100 1
             (flatKlines 62 100) 0%Z out E).
  - exfalso. revert E. unfold simulateML. cbv zeta.
    assert (Hn : Z.of_nat (length (flatKlines 62 100)) = 62%Z).
    { unfold flatKlines. rewrite length_map, length_seq. reflexivity. }
    rewrite Hn. cbn [FeatureWindow].
    change (indexRange 30 (62 / 2 - 30)) with [30%Z].
    cbn [fold_left].
    set (cfg := {| LookbackPeriod := 100; TrainingRatio := Fin (8 / 10);
                   MinTrainingPeriod := 1; RetrainingPeriod := 60;
                   FeatureWindow := 30 |}).
    set (m := collectStep (fun _ => 0%Z) (flatKlines 62 100)
                (seriesOf (flatKlines 62 100)) (NewMLModel cfg) 30).
    assert (Hfin : Forall finiteFeatures (features m)).
    { apply collectStep_finite. constructor. }
    assert (Hlen : (MinTrainingPeriod (config m) <= Z.of_nat (length (features m)))%Z).
    { subst m. unfold collectStep, ExtractFeatures.
      cbn [NewMLModel config cfg FeatureWindow]. change (30 <? 30)%Z with false.
      cbv beta iota zeta.
      match goal with
      | |- context [AddTrainingData ?a ?b] =>
        destruct (AddTrainingData_fields a b) as [Hc _]
      end.
      rewrite Hc, AddTrainingData_features.
      cbn [NewMLModel config features cfg MinTrainingPeriod LookbackPeriod length app].
      change (100 <? Z.of_nat 1)%Z with false. cbn [length]. lia. }
    destruct (TrainModel_result m 0%Z Hlen Hfin) as [Hnone _].
    destruct (TrainModel m 0%Z) as [err trained]. cbn [fst] in Hnone. subst err.
    discriminate.
Defined.

End MLCliProofs.
